(** * ESG Copilot: session store, intent routing, streaming and gateway

    A shallow embedding of the server side of ESGInsightPro:

    - [shared/schema.ts]            enumerations, [SessionContext], rows of the
                                    chat tables, [chatQueryRequestSchema];
    - [server/services/mcpLlmService.ts]
                                    [enrichContext], [detectIntent],
                                    [formatResponse], [streamResponse];
    - [server/services/authService.ts]
                                    [verifyToken];
    - [server/storage.ts]           [MemStorage];
    - [server/routes.ts]            the POST /api/v1/copilot/chat handler and
                                    the [chat_query] handler of the /ws socket.

    Conventions.  Strings are byte strings ([string]); a [Date] is its
    [getTime()] value, an integer count of milliseconds; a JavaScript [Map]
    is an association list in insertion order.  [randomUUID()] and
    [new Date()] are inputs of the environment: the storage methods receive
    the values read, the route handlers draw them from oracles. *)

From Stdlib Require Import String Ascii List ZArith QArith Qround Lia Bool Arith Sorted.
Import ListNotations.

Local Open Scope string_scope.
Local Open Scope list_scope.

(* ===================================================================== *)
(** ** JavaScript string primitives *)
(* ===================================================================== *)

(** [s.startsWith(p)]. *)
Definition startsWith (s p : string) : bool := String.prefix p s.

(** [s.includes(sub)]: [sub] occurs in [s] at some offset. *)
Fixpoint includes (s sub : string) : bool :=
  String.prefix sub s ||
  match s with
  | EmptyString => false
  | String _ s' => includes s' sub
  end.

(** [toLowerCase] on one byte: the letters [A]..[Z] move to [a]..[z], every
    other byte stays.  This is what [String.prototype.toLowerCase] does on
    ASCII text; the bytes of a multi-byte character are left alone. *)
Definition lower_char (c : ascii) : ascii :=
  let n := nat_of_ascii c in
  if (65 <=? n)%nat && (n <=? 90)%nat then ascii_of_nat (n + 32) else c.

Fixpoint toLowerCase (s : string) : string :=
  match s with
  | EmptyString => EmptyString
  | String c s' => String (lower_char c) (toLowerCase s')
  end.

(** A string is truthy when it is not empty. *)
Definition truthy (s : string) : bool :=
  match s with EmptyString => false | _ => true end.

Definition space : ascii := " "%char.

(** [text.split(' ')]: the pieces between single space characters; the
    result is never empty, and the empty text gives one empty piece. *)
Fixpoint split_space (s : string) : list string :=
  match s with
  | EmptyString => [EmptyString]
  | String c s' =>
      if Ascii.eqb c space then EmptyString :: split_space s'
      else match split_space s' with
           | w :: ws => String c w :: ws
           | [] => [String c EmptyString]
           end
  end.

(** [pieces.join(' ')]. *)
Fixpoint join_space (ws : list string) : string :=
  match ws with
  | [] => EmptyString
  | [w] => w
  | w :: ws' => (w ++ String space (join_space ws'))%string
  end.

Fixpoint concat_strings (ws : list string) : string :=
  match ws with
  | [] => EmptyString
  | w :: ws' => (w ++ concat_strings ws')%string
  end.

(** [l.slice(-n)]: the last [n] elements, all of them when there are fewer. *)
Definition slice_last {A : Type} (n : nat) (l : list A) : list A :=
  skipn (length l - n) l.

(* ===================================================================== *)
(** ** shared/schema.ts *)
(* ===================================================================== *)

Inductive UserRoleType : Type :=
| ESG_ANALYST | AUDITOR | SUPPLIER | SUSTAINABILITY_MANAGER.

Inductive PageTypeEnum : Type :=
| dashboard | report | data_entry | audit | settings.

Inductive IntentTypeEnum : Type :=
| explain | summarize | navigate | guide | validate.

Record SessionContext : Type := mkSessionContext {
  page : option string;
  pageType : option PageTypeEnum;
  entityIds : option (list string);
  metricIds : option (list string);
  reportId : option string;
  userAction : option string;
  userRole : option UserRoleType
}.

(** The object literal [{}]. *)
Definition emptyContext : SessionContext :=
  mkSessionContext None None None None None None None.

Inductive ActionType : Type := navigation | data_action | report_action.

Record ActionItem : Type := mkActionItem {
  action_type : ActionType;
  action_label : string;
  action_url : option string
}.

Record MessageMetadata : Type := mkMessageMetadata {
  tokensUsed : option Z;
  latencyMs : option Z;
  cached : option bool
}.

Inductive MessageRole : Type := user | assistant.

(* ===================================================================== *)
(** ** server/services/mcpLlmService.ts *)
(* ===================================================================== *)

Record HistoryEntry : Type := mkHistoryEntry {
  h_role : MessageRole;
  h_content : string
}.

Record LLMRequest : Type := mkLLMRequest {
  req_query : string;
  req_context : SessionContext;
  sessionHistory : list HistoryEntry
}.

Record LLMResponse : Type := mkLLMResponse {
  text : string;
  confidence : Q;
  intent : IntentTypeEnum;
  suggestedPrompts : list string;
  dataSources : list string
}.

(** [enrichContext]: the spread [{...context, userRole}]. *)
Definition enrichContext (query : string) (context : SessionContext)
    (role : UserRoleType) (organizationName : string) : SessionContext :=
  {| page := page context;
     pageType := pageType context;
     entityIds := entityIds context;
     metricIds := metricIds context;
     reportId := reportId context;
     userAction := userAction context;
     userRole := Some role |}.

(** [detectIntent]: the chain of [if]s over the lower-cased query. *)
Definition detectIntent (query : string) : IntentTypeEnum :=
  let lowerQuery := toLowerCase query in
  if includes lowerQuery "why" || includes lowerQuery "explain"
     || includes lowerQuery "what is" then explain
  else if includes lowerQuery "summarize" || includes lowerQuery "summary"
     || includes lowerQuery "overview" then summarize
  else if includes lowerQuery "how do i" || includes lowerQuery "where"
     || includes lowerQuery "navigate" then navigate
  else if includes lowerQuery "help" || includes lowerQuery "guide"
     || includes lowerQuery "tutorial" then guide
  else if includes lowerQuery "validate" || includes lowerQuery "check"
     || includes lowerQuery "verify" then validate
  else guide.

(** The rule table of the classifier as the specification words it: an
    ordered list of (keywords, label), first match wins, [guide] otherwise. *)
Definition intent_rules : list (list string * IntentTypeEnum) :=
  [ (["why"; "explain"; "what is"], explain);
    (["summarize"; "summary"; "overview"], summarize);
    (["how do i"; "where"; "navigate"], navigate);
    (["help"; "guide"; "tutorial"], guide);
    (["validate"; "check"; "verify"], validate) ].

Definition rule_matches (q : string) (r : list string * IntentTypeEnum) : bool :=
  existsb (includes (toLowerCase q)) (fst r).

Definition classify_by_rules (q : string) : IntentTypeEnum :=
  match find (rule_matches q) intent_rules with
  | Some r => snd r
  | None => guide
  end.

Definition formatResponse (llmResponse : LLMResponse) (i : IntentTypeEnum) : string :=
  text llmResponse.

(** [streamResponse]: the values the generator yields, in order. *)
Definition streamResponse (t : string) : list string :=
  map (fun word => (word ++ " ")%string) (split_space t).

(* ===================================================================== *)
(** ** Rows of the chat tables (shared/schema.ts) *)
(* ===================================================================== *)

Record ChatSession : Type := mkChatSession {
  cs_id : string;
  cs_userId : string;
  cs_organizationId : string;
  cs_createdAt : Z;
  cs_lastActivity : Z;
  cs_messageCount : Z;
  cs_context : option SessionContext
}.

(** [insertChatSessionSchema] omits [id], [createdAt] and [lastActivity];
    [messageCount] stays, as an optional column with a default. *)
Record InsertChatSession : Type := mkInsertChatSession {
  is_userId : string;
  is_organizationId : string;
  is_messageCount : option Z;
  is_context : option SessionContext
}.

Record ChatMessage : Type := mkChatMessage {
  cm_id : string;
  cm_sessionId : string;
  cm_role : MessageRole;
  cm_content : string;
  cm_intent : option IntentTypeEnum;
  cm_confidence : option Z;
  cm_dataSources : option (list string);
  cm_suggestedPrompts : option (list string);
  cm_actions : option (list ActionItem);
  cm_metadata : option MessageMetadata;
  cm_timestamp : Z
}.

Record InsertChatMessage : Type := mkInsertChatMessage {
  im_sessionId : string;
  im_role : MessageRole;
  im_content : string;
  im_intent : option IntentTypeEnum;
  im_confidence : option Z;
  im_dataSources : option (list string);
  im_suggestedPrompts : option (list string);
  im_actions : option (list ActionItem);
  im_metadata : option MessageMetadata
}.

(* ===================================================================== *)
(** ** server/storage.ts: MemStorage *)
(* ===================================================================== *)

(** A JavaScript [Map] with string keys: entries in insertion order; [set]
    on a key already present replaces the value where it stands, [set] on a
    new key appends. *)
Definition JsMap (V : Type) : Type := list (string * V).

Fixpoint map_get {V : Type} (k : string) (m : JsMap V) : option V :=
  match m with
  | [] => None
  | (k', v) :: m' => if String.eqb k' k then Some v else map_get k m'
  end.

Fixpoint map_set {V : Type} (k : string) (v : V) (m : JsMap V) : JsMap V :=
  match m with
  | [] => [(k, v)]
  | (k', v') :: m' =>
      if String.eqb k' k then (k', v) :: m' else (k', v') :: map_set k v m'
  end.

Definition map_values {V : Type} (m : JsMap V) : list V := map snd m.

Definition map_has {V : Type} (k : string) (m : JsMap V) : bool :=
  match map_get k m with Some _ => true | None => false end.

(** The two maps the chat methods use ([userContexts] and [esgDataContexts]
    are not touched by them). *)
Record MemStorage : Type := mkMemStorage {
  chatSessions : JsMap ChatSession;
  chatMessages : JsMap ChatMessage
}.

(** [new MemStorage()]. *)
Definition MemStorage_new : MemStorage := mkMemStorage [] [].

Definition getChatSession (id : string) (st : MemStorage) : option ChatSession :=
  map_get id (chatSessions st).

Definition getSessionsByUserId (userId : string) (st : MemStorage) : list ChatSession :=
  filter (fun session => String.eqb (cs_userId session) userId)
         (map_values (chatSessions st)).

(** [createChatSession], given the identifier [randomUUID()] returned and
    the clock reading [now]: [messageCount: 0] comes after the spread of
    [insertSession] and wins over a count supplied there. *)
Definition createChatSession (id : string) (now : Z) (insertSession : InsertChatSession)
    (st : MemStorage) : MemStorage * ChatSession :=
  let session :=
    {| cs_id := id;
       cs_userId := is_userId insertSession;
       cs_organizationId := is_organizationId insertSession;
       cs_createdAt := now;
       cs_lastActivity := now;
       cs_messageCount := 0;
       cs_context := is_context insertSession |} in
  (mkMemStorage (map_set id session (chatSessions st)) (chatMessages st), session).

(** [updateSessionActivity], given the clock reading taken inside the
    [if (session)] branch; an absent session is left alone. *)
Definition updateSessionActivity (now : Z) (id : string) (st : MemStorage) : MemStorage :=
  match map_get id (chatSessions st) with
  | Some session =>
      let session' :=
        {| cs_id := cs_id session;
           cs_userId := cs_userId session;
           cs_organizationId := cs_organizationId session;
           cs_createdAt := cs_createdAt session;
           cs_lastActivity := now;
           cs_messageCount := cs_messageCount session + 1;
           cs_context := cs_context session |} in
      mkMemStorage (map_set id session' (chatSessions st)) (chatMessages st)
  | None => st
  end.

Definition getChatMessage (id : string) (st : MemStorage) : option ChatMessage :=
  map_get id (chatMessages st).

(** [Array.prototype.sort] with the comparator
    [a.timestamp.getTime() - b.timestamp.getTime()]: a stable sort, here by
    insertion; an element goes in front of the first one that is not
    earlier than it. *)
Fixpoint insert_by_timestamp (x : ChatMessage) (l : list ChatMessage) : list ChatMessage :=
  match l with
  | [] => [x]
  | y :: l' =>
      if (cm_timestamp x <=? cm_timestamp y)%Z then x :: y :: l'
      else y :: insert_by_timestamp x l'
  end.

Definition sort_by_timestamp (l : list ChatMessage) : list ChatMessage :=
  fold_right insert_by_timestamp [] l.

Definition getMessagesBySessionId (sessionId : string) (st : MemStorage) : list ChatMessage :=
  sort_by_timestamp
    (filter (fun message => String.eqb (cm_sessionId message) sessionId)
            (map_values (chatMessages st))).

(** The first half of [createChatMessage]: build the row and [set] it. *)
Definition putChatMessage (id : string) (now : Z) (insertMessage : InsertChatMessage)
    (st : MemStorage) : MemStorage * ChatMessage :=
  let message :=
    {| cm_id := id;
       cm_sessionId := im_sessionId insertMessage;
       cm_role := im_role insertMessage;
       cm_content := im_content insertMessage;
       cm_intent := im_intent insertMessage;
       cm_confidence := im_confidence insertMessage;
       cm_dataSources := im_dataSources insertMessage;
       cm_suggestedPrompts := im_suggestedPrompts insertMessage;
       cm_actions := im_actions insertMessage;
       cm_metadata := im_metadata insertMessage;
       cm_timestamp := now |} in
  (mkMemStorage (chatSessions st) (map_set id message (chatMessages st)), message).

(** [createChatMessage], given the identifier drawn, the clock reading
    [t_msg] that stamps the message and the later reading [t_act] that
    [updateSessionActivity] takes. *)
Definition createChatMessage (id : string) (t_msg t_act : Z)
    (insertMessage : InsertChatMessage) (st : MemStorage) : MemStorage * ChatMessage :=
  let (st', message) := putChatMessage id t_msg insertMessage st in
  (updateSessionActivity t_act (im_sessionId insertMessage) st', message).

(** *** Runs of the store

    A call of one of the two mutating methods of the session store, with
    what the environment answered to it. *)
Inductive StoreOp : Type :=
| OpCreateSession (id : string) (now : Z) (ins : InsertChatSession)
| OpCreateMessage (id : string) (t_msg t_act : Z) (ins : InsertChatMessage).

Definition apply_op (st : MemStorage) (op : StoreOp) : MemStorage :=
  match op with
  | OpCreateSession id now ins => fst (createChatSession id now ins st)
  | OpCreateMessage id t_msg t_act ins => fst (createChatMessage id t_msg t_act ins st)
  end.

Definition run_ops (ops : list StoreOp) (st : MemStorage) : MemStorage :=
  fold_left apply_op ops st.

(** [randomUUID()] returns an identifier that is in use nowhere: it is no
    key of the map it goes into, and no message refers to it as a session. *)
Definition fresh_session_id (id : string) (st : MemStorage) : bool :=
  negb (map_has id (chatSessions st)) &&
  negb (existsb (fun m => String.eqb (cm_sessionId m) id) (map_values (chatMessages st))).

Definition fresh_message_id (id : string) (st : MemStorage) : bool :=
  negb (map_has id (chatMessages st)).

Definition op_fresh (st : MemStorage) (op : StoreOp) : bool :=
  match op with
  | OpCreateSession id _ _ => fresh_session_id id st
  | OpCreateMessage id _ _ _ => fresh_message_id id st
  end.

Fixpoint ops_fresh (st : MemStorage) (ops : list StoreOp) : bool :=
  match ops with
  | [] => true
  | op :: ops' => op_fresh st op && ops_fresh (apply_op st op) ops'
  end.

(** The clock does not run backwards: every reading is at least the one
    before it.  [clock_after] is the last reading of a run. *)
Definition op_clock (now : Z) (op : StoreOp) : Z :=
  match op with
  | OpCreateSession _ t _ => t
  | OpCreateMessage _ _ t_act _ => t_act
  end.

Definition op_timed (now : Z) (op : StoreOp) : bool :=
  match op with
  | OpCreateSession _ t _ => (now <=? t)%Z
  | OpCreateMessage _ t_msg t_act _ => (now <=? t_msg)%Z && (t_msg <=? t_act)%Z
  end.

Fixpoint ops_timed (now : Z) (ops : list StoreOp) : bool :=
  match ops with
  | [] => true
  | op :: ops' => op_timed now op && ops_timed (op_clock now op) ops'
  end.

Definition clock_after (now : Z) (ops : list StoreOp) : Z :=
  fold_left op_clock ops now.

(** The message an [OpCreateMessage] persists, and the messages a run
    appends to one session, in the order of the calls. *)
Definition appended (sessionId : string) (ops : list StoreOp) : list ChatMessage :=
  flat_map (fun op =>
    match op with
    | OpCreateMessage id t_msg _ ins =>
        if String.eqb (im_sessionId ins) sessionId
        then [snd (putChatMessage id t_msg ins MemStorage_new)] else []
    | OpCreateSession _ _ _ => []
    end) ops.

Fixpoint increasing (strict : bool) (l : list Z) : bool :=
  match l with
  | [] => true
  | x :: l' =>
      match l' with
      | [] => true
      | y :: _ => (if strict then (x <? y)%Z else (x <=? y)%Z) && increasing strict l'
      end
  end.

(* ===================================================================== *)
(** ** The environment of the server, and the state a handler threads *)
(* ===================================================================== *)

(** What the process reads from outside: the identifiers [randomUUID()]
    returns, the clock ([new Date()], [Date.now()]) in milliseconds, the
    answer of the response-generation capability ([None]: the call throws),
    and whether the socket is open each time [ws.readyState] is looked at.
    Each oracle is indexed by how many times it was consulted before. *)
Record Env : Type := mkEnv {
  randomUUID_at : nat -> string;
  Date_at : nat -> Z;
  mcpLlm : LLMRequest -> option LLMResponse;
  ws_open_at : nat -> bool
}.

Inductive WsEnvelope : Type :=
| EnvError (code message : string)
| EnvTyping (sessionId : option string)
| EnvToken (sessionId token : string)
| EnvComplete (sessionId messageId : string) (prompts : list string)
              (metadata : option MessageMetadata).

Record World : Type := mkWorld {
  storage : MemStorage;
  uuids_drawn : nat;
  dates_read : nat;
  ready_reads : nat;
  llm_calls : list LLMRequest;
  ws_sent : list WsEnvelope
}.

Definition World_new (st : MemStorage) : World := mkWorld st 0 0 0 [] [].

Definition M (A : Type) : Type := World -> A * World.

Definition ret {A : Type} (a : A) : M A := fun w => (a, w).

Definition bind {A B : Type} (m : M A) (k : A -> M B) : M B :=
  fun w => let (a, w') := m w in k a w'.

Notation "x <- m ;; k" := (bind m (fun x => k))
  (at level 61, m at next level, right associativity).
Notation "m ;;; k" := (bind m (fun _ => k))
  (at level 61, right associativity).

Definition getStorage : M MemStorage := fun w => (storage w, w).

Definition putStorage (st : MemStorage) : M unit := fun w =>
  (tt, mkWorld st (uuids_drawn w) (dates_read w) (ready_reads w) (llm_calls w) (ws_sent w)).

Definition ws_send (e : WsEnvelope) : M unit := fun w =>
  (tt, mkWorld (storage w) (uuids_drawn w) (dates_read w) (ready_reads w)
               (llm_calls w) (ws_sent w ++ [e])).

(* ===================================================================== *)
(** ** server/services/authService.ts *)
(* ===================================================================== *)

Record DataScope : Type := mkDataScope {
  entities : list string;
  geographies : list string
}.

Record JWTPayload : Type := mkJWTPayload {
  sub : string;
  org_id : string;
  role : UserRoleType;
  permissions : list string;
  data_scope : DataScope;
  exp : Z;
  iat : Z
}.

(** The [mockPayload] literal, given the two readings of [Date.now()]. *)
Definition mockPayload (now_exp now_iat : Z) : JWTPayload :=
  {| sub := "user-123";
     org_id := "org-456";
     role := ESG_ANALYST;
     permissions := ["read:esg_data"; "read:reports"; "read:audit_logs"];
     data_scope := {| entities := ["entity-dubai-hq"; "entity-abu-dhabi-plant"];
                      geographies := ["UAE"; "KSA"] |};
     exp := (now_exp / 1000 + 3600)%Z;
     iat := (now_iat / 1000)%Z |}.

Definition generateMockToken (userId : string) (r : string) : string :=
  ("Bearer mock-jwt-token-" ++ userId ++ "-" ++ r)%string.

Definition hasPermission (payload : JWTPayload) (permission : string) : bool :=
  existsb (String.eqb permission) (permissions payload).

Definition canAccessEntity (payload : JWTPayload) (entityId : string) : bool :=
  existsb (String.eqb entityId) (entities (data_scope payload)).

Section Server.

Variable env : Env.

Definition randomUUID : M string := fun w =>
  (randomUUID_at env (uuids_drawn w),
   mkWorld (storage w) (S (uuids_drawn w)) (dates_read w) (ready_reads w)
           (llm_calls w) (ws_sent w)).

Definition newDate : M Z := fun w =>
  (Date_at env (dates_read w),
   mkWorld (storage w) (uuids_drawn w) (S (dates_read w)) (ready_reads w)
           (llm_calls w) (ws_sent w)).

Definition ws_readyState_open : M bool := fun w =>
  (ws_open_at env (ready_reads w),
   mkWorld (storage w) (uuids_drawn w) (dates_read w) (S (ready_reads w))
           (llm_calls w) (ws_sent w)).

(** [await callMcpLlm(request)]: the request is recorded, the answer is the
    environment's. *)
Definition callMcpLlm (request : LLMRequest) : M (option LLMResponse) := fun w =>
  (mcpLlm env request,
   mkWorld (storage w) (uuids_drawn w) (dates_read w) (ready_reads w)
           (llm_calls w ++ [request]) (ws_sent w)).

(** [verifyToken]: [null] for an empty token or one without the prefix;
    nothing in the body throws, so the [catch] never runs. *)
Definition verifyToken (token : string) : M (option JWTPayload) :=
  if negb (truthy token) || negb (startsWith token "Bearer ") then ret None
  else
    now_exp <- newDate ;;
    now_iat <- newDate ;;
    ret (Some (mockPayload now_exp now_iat)).

(** *** The storage singleton, as the handlers call it *)

Definition storage_getChatSession (id : string) : M (option ChatSession) :=
  st <- getStorage ;; ret (getChatSession id st).

Definition storage_getMessagesBySessionId (sessionId : string) : M (list ChatMessage) :=
  st <- getStorage ;; ret (getMessagesBySessionId sessionId st).

Definition storage_createChatSession (insertSession : InsertChatSession) : M ChatSession :=
  id <- randomUUID ;;
  now <- newDate ;;
  st <- getStorage ;;
  let (st', session) := createChatSession id now insertSession st in
  putStorage st' ;;; ret session.

Definition storage_updateSessionActivity (id : string) : M unit :=
  st <- getStorage ;;
  match getChatSession id st with
  | Some _ => now <- newDate ;; putStorage (updateSessionActivity now id st)
  | None => ret tt
  end.

Definition storage_createChatMessage (insertMessage : InsertChatMessage) : M ChatMessage :=
  id <- randomUUID ;;
  now <- newDate ;;
  st <- getStorage ;;
  let (st', message) := putChatMessage id now insertMessage st in
  putStorage st' ;;;
  storage_updateSessionActivity (im_sessionId insertMessage) ;;;
  ret message.

(* ===================================================================== *)
(** ** server/routes.ts *)
(* ===================================================================== *)

Record ChatOptions : Type := mkChatOptions {
  streaming : option bool;
  includeSuggestions : option bool;
  maxTokens : option Z
}.

(** A request body that is well typed field by field; what is left for
    [chatQueryRequestSchema] to decide is the length of [query]. *)
Record ChatQueryRequest : Type := mkChatQueryRequest {
  rq_sessionId : option string;
  rq_query : string;
  rq_context : option SessionContext;
  rq_options : option ChatOptions
}.

(** [z.string().min(1).max(2000)]. *)
Definition query_length_ok (q : string) : bool :=
  (1 <=? String.length q)%nat && (String.length q <=? 2000)%nat.

(** [chatQueryRequestSchema.safeParse]: [None] when it fails.  The schema
    of [context] has no [userRole] key, and zod drops keys it does not
    know. *)
Definition chatQueryRequestSchema_safeParse (body : ChatQueryRequest)
  : option ChatQueryRequest :=
  if query_length_ok (rq_query body) then
    Some {| rq_sessionId := rq_sessionId body;
            rq_query := rq_query body;
            rq_context :=
              match rq_context body with
              | Some c => Some (mkSessionContext (page c) (pageType c) (entityIds c)
                                  (metricIds c) (reportId c) (userAction c) None)
              | None => None
              end;
            rq_options := rq_options body |}
  else None.

Record ChatResponseBody : Type := mkChatResponseBody {
  rb_text : string;
  rb_confidence : Q;
  rb_intent : IntentTypeEnum;
  rb_dataSources : list string;
  rb_suggestedPrompts : list string;
  rb_actions : list ActionItem
}.

Record ChatResponse : Type := mkChatResponse {
  cr_sessionId : string;
  cr_messageId : string;
  cr_response : ChatResponseBody;
  cr_metadata : MessageMetadata;
  cr_timestamp : Z
}.

Inductive HttpBody : Type :=
| ErrorBody (code message : string)
| ChatBody (r : ChatResponse).

Record HttpResponse : Type := mkHttpResponse {
  status : nat;
  body : HttpBody
}.

(** [Math.round(x)]: the integer nearest to [x], halves upwards. *)
Definition Math_round (x : Q) : Z := Qfloor (Qplus x (Qmake 1 2)).

Definition userMessage_of (sessionId query : string) : InsertChatMessage :=
  {| im_sessionId := sessionId; im_role := user; im_content := query;
     im_intent := None; im_confidence := None; im_dataSources := None;
     im_suggestedPrompts := None; im_actions := None; im_metadata := None |}.

Definition assistantMessage_of (sessionId formattedText : string)
    (llmResponse : LLMResponse) : InsertChatMessage :=
  {| im_sessionId := sessionId; im_role := assistant; im_content := formattedText;
     im_intent := Some (intent llmResponse);
     im_confidence := Some (Math_round (Qmult (confidence llmResponse) (inject_Z 100)));
     im_dataSources := Some (dataSources llmResponse);
     im_suggestedPrompts := Some (suggestedPrompts llmResponse);
     im_actions := Some [];
     im_metadata :=
       Some {| tokensUsed := Some (Z.of_nat (String.length formattedText / 4));
               latencyMs := Some 1250%Z;
               cached := Some false |} |}.

Definition context_or_empty (c : option SessionContext) : SessionContext :=
  match c with Some c => c | None => emptyContext end.

Definition history_entry (m : ChatMessage) : HistoryEntry :=
  {| h_role := cm_role m; h_content := cm_content m |}.

Definition session_not_found : HttpResponse :=
  mkHttpResponse 404 (ErrorBody "SESSION_NOT_FOUND" "Chat session not found or access denied").

(** Steps 2 to 7 of the POST handler, once the session is resolved. *)
Definition post_chat_pipeline (usr : JWTPayload) (queryRequest : ChatQueryRequest)
    (session : ChatSession) : M HttpResponse :=
  userMessage <- storage_createChatMessage (userMessage_of (cs_id session) (rq_query queryRequest)) ;;
  let enrichedContext :=
    enrichContext (rq_query queryRequest) (context_or_empty (rq_context queryRequest))
                  (role usr) "Acme Sustainability Corp" in
  let i := detectIntent (rq_query queryRequest) in
  msgs <- storage_getMessagesBySessionId (cs_id session) ;;
  r <- callMcpLlm {| req_query := rq_query queryRequest;
                     req_context := enrichedContext;
                     sessionHistory := map history_entry (slice_last 10 msgs) |} ;;
  match r with
  | None =>
      ret (mkHttpResponse 500
             (ErrorBody "INTERNAL_ERROR" "An error occurred processing your query"))
  | Some llmResponse =>
      let formattedText := formatResponse llmResponse i in
      assistantMessage <-
        storage_createChatMessage (assistantMessage_of (cs_id session) formattedText llmResponse) ;;
      let md := cm_metadata assistantMessage in
      ret (mkHttpResponse 200 (ChatBody
        {| cr_sessionId := cs_id session;
           cr_messageId := cm_id assistantMessage;
           cr_response :=
             {| rb_text := formattedText;
                rb_confidence := confidence llmResponse;
                rb_intent := intent llmResponse;
                rb_dataSources := dataSources llmResponse;
                rb_suggestedPrompts := suggestedPrompts llmResponse;
                rb_actions := [] |};
           cr_metadata :=
             {| tokensUsed := match md with Some x => tokensUsed x | None => None end;
                latencyMs := match md with Some x => latencyMs x | None => None end;
                cached := match md with Some x => cached x | None => None end |};
           cr_timestamp := cm_timestamp assistantMessage |}))
  end.

(** [authHeader || '']. *)
Definition authorization_or_empty (authorization : option string) : string :=
  match authorization with Some h => h | None => "" end.

(** POST /api/v1/copilot/chat, with [authMiddleware] in front of it:
    [authorization] is the header, [None] when the request has none. *)
Definition post_chat (authorization : option string) (body : ChatQueryRequest)
  : M HttpResponse :=
  payload <- verifyToken (authorization_or_empty authorization) ;;
  match payload with
  | None =>
      ret (mkHttpResponse 401
             (ErrorBody "UNAUTHORIZED" "Invalid or expired authentication token"))
  | Some usr =>
      match chatQueryRequestSchema_safeParse body with
      | None => ret (mkHttpResponse 400 (ErrorBody "INVALID_QUERY" "Invalid request format"))
      | Some queryRequest =>
          match rq_sessionId queryRequest with
          | Some sid =>
              if truthy sid then
                session <- storage_getChatSession sid ;;
                match session with
                | None => ret session_not_found
                | Some session =>
                    if negb (String.eqb (cs_userId session) (sub usr))
                    then ret session_not_found
                    else post_chat_pipeline usr queryRequest session
                end
              else
                session <- storage_createChatSession
                  {| is_userId := sub usr; is_organizationId := org_id usr;
                     is_messageCount := None;
                     is_context := Some (context_or_empty (rq_context queryRequest)) |} ;;
                post_chat_pipeline usr queryRequest session
          | None =>
              session <- storage_createChatSession
                {| is_userId := sub usr; is_organizationId := org_id usr;
                   is_messageCount := None;
                   is_context := Some (context_or_empty (rq_context queryRequest)) |} ;;
              post_chat_pipeline usr queryRequest session
          end
      end
  end.

(** A parsed frame of the /ws socket.  The handler reads the fields as they
    come: nothing checks them against a schema. *)
Record WsMessage : Type := mkWsMessage {
  ws_type : string;
  ws_sessionId : option string;
  ws_query : string;
  ws_context : option SessionContext;
  ws_token : option string
}.

(** [token], or the empty string when the frame has none: [verifyToken]
    answers [null] to both. *)
Definition ws_bearer (message : WsMessage) : string :=
  match ws_token message with Some t => t | None => "" end.

(** The [for await] loop over [streamResponse]: one look at the socket per
    token, a [token] envelope when it is open. *)
Fixpoint ws_stream (sessionId : string) (tokens : list string) : M unit :=
  match tokens with
  | [] => ret tt
  | token :: rest =>
      is_open <- ws_readyState_open ;;
      (if is_open then ws_send (EnvToken sessionId token) else ret tt) ;;;
      ws_stream sessionId rest
  end.

(** The [message] listener of a /ws connection. *)
Definition ws_on_message (message : WsMessage) : M unit :=
  if String.eqb (ws_type message) "chat_query" then
    let sessionId := ws_sessionId message in
    let query := ws_query message in
    let context := ws_context message in
    payload <- verifyToken (ws_bearer message) ;;
    match payload with
    | None => ws_send (EnvError "UNAUTHORIZED" "Invalid token")
    | Some usr =>
        ws_send (EnvTyping sessionId) ;;;
        found <- match sessionId with
                 | Some sid => if truthy sid then storage_getChatSession sid else ret None
                 | None => ret None
                 end ;;
        session <- match found with
                   | Some s => ret s
                   | None =>
                       storage_createChatSession
                         {| is_userId := sub usr; is_organizationId := org_id usr;
                            is_messageCount := None;
                            is_context := Some (context_or_empty context) |}
                   end ;;
        storage_createChatMessage (userMessage_of (cs_id session) query) ;;;
        let enrichedContext :=
          enrichContext query (context_or_empty context) (role usr)
                        "Acme Sustainability Corp" in
        let i := detectIntent query in
        r <- callMcpLlm {| req_query := query; req_context := enrichedContext;
                           sessionHistory := [] |} ;;
        match r with
        | None => ws_send (EnvError "INTERNAL_ERROR" "An error occurred")
        | Some llmResponse =>
            let formattedText := formatResponse llmResponse i in
            ws_stream (cs_id session) (streamResponse formattedText) ;;;
            assistantMessage <-
              storage_createChatMessage
                (assistantMessage_of (cs_id session) formattedText llmResponse) ;;
            is_open <- ws_readyState_open ;;
            if is_open then
              ws_send (EnvComplete (cs_id session) (cm_id assistantMessage)
                                   (suggestedPrompts llmResponse)
                                   (cm_metadata assistantMessage))
            else ret tt
        end
    end
  else ret tt.

End Server.

(** The tokens of a [ws_stream] run that reach the wire: the [i]-th token
    goes out when the socket is open at the [i]-th look from [k] on. *)
Fixpoint kept (open_at : nat -> bool) (k : nat) (tokens : list string) : list string :=
  match tokens with
  | [] => []
  | token :: rest =>
      if open_at k then token :: kept open_at (S k) rest
      else kept open_at (S k) rest
  end.

(** The request the /ws handler hands to the response generator. *)
Definition ws_llm_request (message : WsMessage) (r : UserRoleType) : LLMRequest :=
  {| req_query := ws_query message;
     req_context := enrichContext (ws_query message) (context_or_empty (ws_context message))
                                  r "Acme Sustainability Corp";
     sessionHistory := [] |}.

(* ===================================================================== *)
(** ** Concrete environments and stores used in the examples *)
(* ===================================================================== *)

Definition demo_llm (r : LLMRequest) : option LLMResponse :=
  Some {| text := "hello world"; confidence := Qmake 94 100; intent := explain;
          suggestedPrompts := ["Show me the historical trend for this facility"];
          dataSources := ["esg_data_service:metric_history"] |}.

Definition demo_env : Env :=
  {| randomUUID_at := fun n => String (ascii_of_nat (97 + n)) "-uuid";
     Date_at := fun n => (1700000000000 + Z.of_nat n)%Z;
     mcpLlm := demo_llm;
     ws_open_at := fun _ => true |}.

(** A store that holds one session, owned by the seeded auditor. *)
Definition auditor_store : MemStorage :=
  fst (createChatSession "s-auditor" 1699999999000
         (mkInsertChatSession "user-456" "org-456" None None) MemStorage_new).

Definition analyst_token : string := generateMockToken "user-123" "ESG_ANALYST".

(** A store with one session of the analyst that already holds a turn. *)
Definition analyst_store : MemStorage :=
  run_ops
    [ OpCreateSession "s-analyst" 1699999999000
        (mkInsertChatSession "user-123" "org-456" None None);
      OpCreateMessage "m-1" 1699999999001 1699999999001
        (userMessage_of "s-analyst" "What is Scope 1?");
      OpCreateMessage "m-2" 1699999999500 1699999999500
        (assistantMessage_of "s-analyst" "Direct emissions." 
           {| text := "Direct emissions."; confidence := Qmake 9 10; intent := explain;
              suggestedPrompts := []; dataSources := [] |}) ]
    MemStorage_new.

(** Two appends that fall into the millisecond in which the session was
    created. *)
Definition same_ms_ops : list StoreOp :=
  [ OpCreateSession "s1" 1000 (mkInsertChatSession "user-123" "org-456" None None);
    OpCreateMessage "m1" 1000 1000 (userMessage_of "s1" "first");
    OpCreateMessage "m2" 1000 1001 (userMessage_of "s1" "second") ].

Definition long_query : string :=
  concat_strings (repeat "0123456789" 200) ++ "x".

(** Frames a client may send on the /ws socket. *)
Definition foreign_query : WsMessage :=
  mkWsMessage "chat_query" (Some "s-auditor") "show me everything" None (Some analyst_token).

Definition empty_query : WsMessage :=
  mkWsMessage "chat_query" None "" None (Some analyst_token).

Definition oversized_query : WsMessage :=
  mkWsMessage "chat_query" None long_query None (Some analyst_token).

Definition follow_up_query : WsMessage :=
  mkWsMessage "chat_query" (Some "s-analyst") "And Scope 2?" None (Some analyst_token).

(* ===================================================================== *)
(** ** Invariants of the store *)
(* ===================================================================== *)

(** The messages persisted under a session id, in the order of the map. *)
Definition persisted_under (sessionId : string) (st : MemStorage) : list ChatMessage :=
  filter (fun message => String.eqb (cm_sessionId message) sessionId)
         (map_values (chatMessages st)).

(** Every session counts the messages persisted under its id. *)
Definition counts_ok (st : MemStorage) : Prop :=
  forall k s, map_get k (chatSessions st) = Some s ->
    cs_messageCount s = Z.of_nat (length (persisted_under k st)).

Definition ts_le (a b : ChatMessage) : Prop := (cm_timestamp a <= cm_timestamp b)%Z.

(** Nothing in the store is stamped later than the clock reading [now],
    and the messages stand in the map in the order of their timestamps. *)
Definition timed_ok (now : Z) (st : MemStorage) : Prop :=
  (forall k s, map_get k (chatSessions st) = Some s -> (cs_lastActivity s <= now)%Z) /\
  Forall (fun m => (cm_timestamp m <= now)%Z) (map_values (chatMessages st)) /\
  StronglySorted ts_le (map_values (chatMessages st)).

(** What one call adds to the message map, when the identifier is new. *)
Definition op_message (op : StoreOp) : list ChatMessage :=
  match op with
  | OpCreateMessage id t_msg _ ins => [snd (putChatMessage id t_msg ins MemStorage_new)]
  | OpCreateSession _ _ _ => []
  end.

(** The part of the state that belongs to the connection and to the
    generator: the envelopes sent, the looks at the socket, the requests
    made. *)
Definition same_wire (w w' : World) : Prop :=
  ws_sent w' = ws_sent w /\ ready_reads w' = ready_reads w /\ llm_calls w' = llm_calls w.

From Stdlib Require Import Permutation.

(* ===================================================================== *)
(** ** server/storage.ts: user contexts *)
(* ===================================================================== *)

Record UserDataScope : Type := mkUserDataScope {
  uds_entities : option (list string);
  uds_geographies : option (list string)
}.

Record UserPreferences : Type := mkUserPreferences {
  language : option string;
  timezone : option string;
  notifications : option bool
}.

Record UserContext : Type := mkUserContext {
  uc_id : string;
  uc_userId : string;
  uc_role : UserRoleType;
  uc_organizationId : string;
  uc_organizationName : string;
  uc_permissions : option (list string);
  uc_dataScope : option UserDataScope;
  uc_preferences : option UserPreferences;
  uc_createdAt : Z;
  uc_updatedAt : Z
}.

Record InsertUserContext : Type := mkInsertUserContext {
  iu_userId : string;
  iu_role : UserRoleType;
  iu_organizationId : string;
  iu_organizationName : string;
  iu_permissions : option (list string);
  iu_dataScope : option UserDataScope;
  iu_preferences : option UserPreferences
}.

(** [Partial<UserContext>]: [None] for a key the object does not have. *)
Record PartialUserContext : Type := mkPartialUserContext {
  pu_id : option string;
  pu_userId : option string;
  pu_role : option UserRoleType;
  pu_organizationId : option string;
  pu_organizationName : option string;
  pu_permissions : option (option (list string));
  pu_dataScope : option (option UserDataScope);
  pu_preferences : option (option UserPreferences);
  pu_createdAt : option Z;
  pu_updatedAt : option Z
}.


(** The [userContexts] map of [MemStorage]; the three methods below touch
    nothing else. *)
Definition getUserContext (userId : string) (m : JsMap UserContext) : option UserContext :=
  map_get userId m.

(** [createUserContext], given the identifier drawn and the clock reading:
    the row goes under [insertContext.userId], whether or not that key is
    taken. *)
Definition createUserContext (id : string) (now : Z) (insertContext : InsertUserContext)
    (m : JsMap UserContext) : JsMap UserContext * UserContext :=
  let context :=
    {| uc_id := id;
       uc_userId := iu_userId insertContext;
       uc_role := iu_role insertContext;
       uc_organizationId := iu_organizationId insertContext;
       uc_organizationName := iu_organizationName insertContext;
       uc_permissions := iu_permissions insertContext;
       uc_dataScope := iu_dataScope insertContext;
       uc_preferences := iu_preferences insertContext;
       uc_createdAt := now;
       uc_updatedAt := now |} in
  (map_set (iu_userId insertContext) context m, context).

Definition or_existing {A : Type} (update : option A) (existing : A) : A :=
  match update with Some a => a | None => existing end.

(** The spread [{...existing, ...updates, updatedAt: new Date()}]. *)
Definition mergeUserContext (now : Z) (existing : UserContext)
    (updates : PartialUserContext) : UserContext :=
  {| uc_id := or_existing (pu_id updates) (uc_id existing);
     uc_userId := or_existing (pu_userId updates) (uc_userId existing);
     uc_role := or_existing (pu_role updates) (uc_role existing);
     uc_organizationId := or_existing (pu_organizationId updates) (uc_organizationId existing);
     uc_organizationName :=
       or_existing (pu_organizationName updates) (uc_organizationName existing);
     uc_permissions := or_existing (pu_permissions updates) (uc_permissions existing);
     uc_dataScope := or_existing (pu_dataScope updates) (uc_dataScope existing);
     uc_preferences := or_existing (pu_preferences updates) (uc_preferences existing);
     uc_createdAt := or_existing (pu_createdAt updates) (uc_createdAt existing);
     uc_updatedAt := now |}.

(** [updateUserContext]: [inl] carries the message of the [Error] thrown
    when the user has no context; the clock is read after that check. *)
Definition updateUserContext (now : Z) (userId : string) (updates : PartialUserContext)
    (m : JsMap UserContext) : string + (JsMap UserContext * UserContext) :=
  match map_get userId m with
  | None => inl ("User context not found for userId: " ++ userId)%string
  | Some existing =>
      let updated := mergeUserContext now existing updates in
      inr (map_set userId updated m, updated)
  end.

(* ===================================================================== *)
(** ** client/src/lib/sampleData.ts: the mock generator *)
(* ===================================================================== *)

(** The five replies [generateMockResponse] can give. *)
Inductive MockReply : Type :=
| anomaly_reply | csrd_reply | summary_reply | audit_reply | default_reply.

(** The second argument of [generateMockResponse]. *)
Record MockContext : Type := mkMockContext {
  mc_pageType : option PageTypeEnum;
  mc_userRole : option UserRoleType;
  mc_metricId : option string
}.

Section MockGenerator.

(** The template literal of each reply, evaluated on the query.  Three of
    them format numbers and dates in the locale of the process
    ([toLocaleString], [toLocaleDateString]) and one reads the clock, so
    the rendering is taken from outside. *)
Variable mock_text : MockReply -> string -> string.

(** [generateMockResponse]: [context] is not read. *)
Definition generateMockResponse (query : string) (context : MockContext) : LLMResponse :=
  let lowerQuery := toLowerCase query in
  if includes lowerQuery "flagged" || includes lowerQuery "anomal" then
    {| text := mock_text anomaly_reply query;
       confidence := Qmake 94 100;
       intent := explain;
       suggestedPrompts :=
         [ "Show me the historical trend for this facility";
           "How do I correct this value?";
           "What impact does this have on my Q3 report?" ];
       dataSources :=
         [ "ai_cleansing_service:anomaly_detection";
           "esg_data_service:metric_history";
           "facility_operations:dubai_hq" ] |}
  else if includes lowerQuery "csrd" || includes lowerQuery "compliance" then
    {| text := mock_text csrd_reply query;
       confidence := Qmake 98 100;
       intent := guide;
       suggestedPrompts :=
         [ "What are the mandatory ESRS E1 disclosures?";
           "How do I perform a double materiality assessment?";
           "Generate CSRD compliance checklist" ];
       dataSources :=
         [ "regulatory_knowledge_base:csrd_2024";
           "user_profile:compliance_requirements";
           "org_settings:reporting_obligations" ] |}
  else if includes lowerQuery "summarize" || includes lowerQuery "dashboard" then
    {| text := mock_text summary_reply query;
       confidence := Qmake 92 100;
       intent := summarize;
       suggestedPrompts :=
         [ "What's driving the Scope 2 improvement?";
           "Compare this month to same period last year";
           "Which metrics need immediate attention?" ];
       dataSources :=
         [ "esg_data_service:current_metrics";
           "ai_cleansing_service:anomaly_detection";
           "dashboard_state:current_view" ] |}
  else if includes lowerQuery "audit" || includes lowerQuery "who"
          || includes lowerQuery "changed" then
    {| text := mock_text audit_reply query;
       confidence := Qmake 96 100;
       intent := explain;
       suggestedPrompts :=
         [ "Show me all changes by this user";
           "What triggered the anomaly flag?";
           "Export audit trail for compliance" ];
       dataSources :=
         [ "audit_trail_service:recent_logs";
           "user_profile_service:user_details";
           "data_lineage:metric_history" ] |}
  else
    {| text := mock_text default_reply query;
       confidence := Qmake 65 100;
       intent := guide;
       suggestedPrompts :=
         [ "Explain CSRD compliance requirements";
           "Why was this emission flagged?";
           "Summarize my dashboard metrics" ];
       dataSources := [ "help_docs:general_guidance" ] |}.

(** The body of [callMcpLlm] after its delay: it never throws. *)
Definition mock_callMcpLlm (request : LLMRequest) : option LLMResponse :=
  let context := req_context request in
  let response :=
    generateMockResponse (req_query request)
      {| mc_pageType := pageType context;
         mc_userRole := userRole context;
         mc_metricId := match metricIds context with
                        | Some (m :: _) => Some m
                        | _ => None
                        end |} in
  Some {| text := text response;
          confidence := confidence response;
          intent := intent response;
          suggestedPrompts := suggestedPrompts response;
          dataSources := dataSources response |}.

End MockGenerator.

(** The server with the mock generator plugged in. *)
Definition mock_env (mock_text : MockReply -> string -> string)
    (uuid_at : nat -> string) (date_at : nat -> Z) (open_at : nat -> bool) : Env :=
  {| randomUUID_at := uuid_at; Date_at := date_at;
     mcpLlm := mock_callMcpLlm mock_text; ws_open_at := open_at |}.

(* ===================================================================== *)
(** ** server/routes.ts: the two GET handlers *)
(* ===================================================================== *)

Record MessageView : Type := mkMessageView {
  mv_messageId : string;
  mv_role : MessageRole;
  mv_content : string;
  mv_timestamp : Z;
  mv_intent : option IntentTypeEnum;
  mv_confidence : option Z;
  mv_suggestedPrompts : option (list string);
  mv_actions : option (list ActionItem)
}.

Record SessionView : Type := mkSessionView {
  sv_sessionId : string;
  sv_userId : string;
  sv_createdAt : Z;
  sv_lastActivity : Z;
  sv_messageCount : Z;
  sv_messages : list MessageView
}.

Record SessionSummary : Type := mkSessionSummary {
  ss_sessionId : string;
  ss_createdAt : Z;
  ss_lastActivity : Z;
  ss_messageCount : Z;
  ss_context : option SessionContext
}.

Inductive GetBody : Type :=
| GetError (code message : string)
| GetSession (view : SessionView)
| GetSessions (sessions : list SessionSummary).

Record GetResponse : Type := mkGetResponse {
  get_status : nat;
  get_body : GetBody
}.

Definition message_view (msg : ChatMessage) : MessageView :=
  {| mv_messageId := cm_id msg;
     mv_role := cm_role msg;
     mv_content := cm_content msg;
     mv_timestamp := cm_timestamp msg;
     mv_intent := cm_intent msg;
     mv_confidence := cm_confidence msg;
     mv_suggestedPrompts := cm_suggestedPrompts msg;
     mv_actions := cm_actions msg |}.

Definition session_summary (s : ChatSession) : SessionSummary :=
  {| ss_sessionId := cs_id s;
     ss_createdAt := cs_createdAt s;
     ss_lastActivity := cs_lastActivity s;
     ss_messageCount := cs_messageCount s;
     ss_context := cs_context s |}.

Definition unauthorized : GetResponse :=
  mkGetResponse 401 (GetError "UNAUTHORIZED" "Invalid or expired authentication token").

Section ServerReads.

Variable env : Env.

(** GET /api/v1/copilot/sessions/:id, behind [authMiddleware]. *)
Definition get_session (authorization : option string) (sessionId : string)
  : M GetResponse :=
  payload <- verifyToken env (authorization_or_empty authorization) ;;
  match payload with
  | None => ret unauthorized
  | Some usr =>
      session <- storage_getChatSession sessionId ;;
      match session with
      | None =>
          ret (mkGetResponse 404 (GetError "SESSION_NOT_FOUND" "Chat session not found"))
      | Some session =>
          if negb (String.eqb (cs_userId session) (sub usr)) then
            ret (mkGetResponse 403
                   (GetError "ACCESS_DENIED" "You do not have access to this session"))
          else
            messages <- storage_getMessagesBySessionId sessionId ;;
            ret (mkGetResponse 200 (GetSession
              {| sv_sessionId := cs_id session;
                 sv_userId := cs_userId session;
                 sv_createdAt := cs_createdAt session;
                 sv_lastActivity := cs_lastActivity session;
                 sv_messageCount := cs_messageCount session;
                 sv_messages := map message_view messages |}))
      end
  end.

(** GET /api/v1/copilot/sessions, behind [authMiddleware]. *)
Definition get_sessions (authorization : option string) : M GetResponse :=
  payload <- verifyToken env (authorization_or_empty authorization) ;;
  match payload with
  | None => ret unauthorized
  | Some usr =>
      st <- getStorage ;;
      ret (mkGetResponse 200
             (GetSessions (map session_summary (getSessionsByUserId (sub usr) st))))
  end.

End ServerReads.

(* ===================================================================== *)
(** ** client/src/components/ChatWidget.tsx: the socket listener *)
(* ===================================================================== *)

Record WidgetMessage : Type := mkWidgetMessage {
  wm_id : string;
  wm_role : MessageRole;
  wm_content : string;
  wm_suggestedPrompts : option (list string);
  wm_actions : option (list ActionItem);
  wm_confidence : option Q;
  wm_timestamp : Z
}.

(** The state [handleWebSocketMessage] reads and writes: [isTyping],
    [streamingMessageRef.current], [messages], [sessionId], and the toasts
    shown so far.  State updates take effect in the order of the frames. *)
Record Widget : Type := mkWidget {
  isTyping : bool;
  streamingMessage : string;
  messages : list WidgetMessage;
  widget_sessionId : option string;
  toasts : list string
}.

(** [prev[prev.length - 1]] with [prev.slice(0, -1)], when there is one. *)
Definition last_message (l : list WidgetMessage) : option (list WidgetMessage * WidgetMessage) :=
  match rev l with
  | [] => None
  | m :: before => Some (rev before, m)
  end.

Definition is_assistant (r : MessageRole) : bool :=
  match r with assistant => true | user => false end.

(** [handleWebSocketMessage(data)] on a frame of the server; [now] is the
    clock of the browser. *)
Definition handleWebSocketMessage (now : Z) (data : WsEnvelope) (w : Widget) : Widget :=
  match data with
  | EnvTyping _ =>
      mkWidget true "" (messages w) (widget_sessionId w) (toasts w)
  | EnvToken sessionId token =>
      let streamed := (streamingMessage w ++ token)%string in
      let messages' :=
        match last_message (messages w) with
        | Some (before, lastMsg) =>
            if is_assistant (wm_role lastMsg) && startsWith (wm_id lastMsg) "streaming-"
            then before ++ [mkWidgetMessage (wm_id lastMsg) (wm_role lastMsg) streamed
                              (wm_suggestedPrompts lastMsg) (wm_actions lastMsg)
                              (wm_confidence lastMsg) (wm_timestamp lastMsg)]
            else messages w ++ [mkWidgetMessage ("streaming-" ++ sessionId)%string assistant
                                  streamed None None None now]
        | None =>
            messages w ++ [mkWidgetMessage ("streaming-" ++ sessionId)%string assistant
                             streamed None None None now]
        end in
      mkWidget (isTyping w) streamed messages' (widget_sessionId w) (toasts w)
  | EnvComplete sessionId messageId prompts metadata =>
      let sessionId' :=
        match widget_sessionId w with
        | Some prev => if truthy prev then Some prev else Some sessionId
        | None => Some sessionId
        end in
      let messages' :=
        match last_message (messages w) with
        | Some (before, lastMsg) =>
            if is_assistant (wm_role lastMsg)
            then before ++ [mkWidgetMessage messageId (wm_role lastMsg) (wm_content lastMsg)
                              (Some prompts) (wm_actions lastMsg) None
                              (wm_timestamp lastMsg)]
            else messages w
        | None => messages w
        end in
      mkWidget false (streamingMessage w) messages' sessionId' (toasts w)
  | EnvError code message =>
      mkWidget false (streamingMessage w) (messages w) (widget_sessionId w)
               (toasts w ++ [if truthy message then message else "An error occurred"])
  end.

(** The listener run over the frames of a connection, oldest first; the
    [i]-th frame arrives at the reading [clock i]. *)
Fixpoint receive (clock : nat -> Z) (k : nat) (frames : list WsEnvelope) (w : Widget) : Widget :=
  match frames with
  | [] => w
  | data :: rest => receive clock (S k) rest (handleWebSocketMessage (clock k) data w)
  end.

(* ===================================================================== *)
(** ** Identifiers a handler is about to draw *)
(* ===================================================================== *)

(** The next [n] answers of [randomUUID()]. *)
Definition next_uuids (env : Env) (w : World) (n : nat) : list string :=
  map (fun i => randomUUID_at env (uuids_drawn w + i)) (seq 0 n).

Fixpoint distinct (ids : list string) : bool :=
  match ids with
  | [] => true
  | id :: rest => negb (existsb (String.eqb id) rest) && distinct rest
  end.

(** No two of the identifiers are equal and none is in use in the store. *)
Definition uuids_unused (ids : list string) (st : MemStorage) : bool :=
  distinct ids &&
  forallb (fun id => fresh_session_id id st && fresh_message_id id st) ids.

(** The insert row both chat handlers create a session from. *)
Definition new_session_row (usr : JWTPayload) (context : option SessionContext)
  : InsertChatSession :=
  {| is_userId := sub usr; is_organizationId := org_id usr;
     is_messageCount := None;
     is_context := Some (context_or_empty context) |}.

(** An environment whose generator throws on every request. *)
Definition failing_env : Env :=
  {| randomUUID_at := randomUUID_at demo_env; Date_at := Date_at demo_env;
     mcpLlm := fun _ => None; ws_open_at := ws_open_at demo_env |}.

(** An environment whose socket is closed at every look. *)
Definition closed_env : Env :=
  {| randomUUID_at := randomUUID_at demo_env; Date_at := Date_at demo_env;
     mcpLlm := mcpLlm demo_env; ws_open_at := fun _ => false |}.

(** How many space characters a text has. *)
Fixpoint count_space (s : string) : nat :=
  match s with
  | EmptyString => 0
  | String c s' => (if Ascii.eqb c space then 1 else 0) + count_space s'
  end.

(* ===================================================================== *)
(** ** server/services/seedData.ts *)
(* ===================================================================== *)

(** The three demo rows of [seedInitialData]. *)
Definition seed_rows : list InsertUserContext :=
  [ {| iu_userId := "user-123"; iu_role := ESG_ANALYST;
       iu_organizationId := "org-456";
       iu_organizationName := "Acme Sustainability Corp";
       iu_permissions :=
         Some ["read:esg_data"; "read:reports"; "read:audit_logs"; "write:data"];
       iu_dataScope :=
         Some {| uds_entities := Some ["entity-dubai-hq"; "entity-abu-dhabi-plant";
                                       "entity-sharjah-warehouse"];
                 uds_geographies := Some ["UAE"; "KSA"] |};
       iu_preferences :=
         Some {| language := Some "en"; timezone := Some "Asia/Dubai";
                 notifications := Some true |} |};
    {| iu_userId := "user-456"; iu_role := AUDITOR;
       iu_organizationId := "org-456";
       iu_organizationName := "Acme Sustainability Corp";
       iu_permissions := Some ["read:esg_data"; "read:reports"; "read:audit_logs"];
       iu_dataScope :=
         Some {| uds_entities := Some ["entity-dubai-hq"; "entity-abu-dhabi-plant";
                                       "entity-sharjah-warehouse"];
                 uds_geographies := Some ["UAE"; "KSA"] |};
       iu_preferences :=
         Some {| language := Some "en"; timezone := Some "Asia/Dubai";
                 notifications := Some true |} |};
    {| iu_userId := "user-789"; iu_role := SUPPLIER;
       iu_organizationId := "org-789";
       iu_organizationName := "Green Energy Supplies Ltd";
       iu_permissions := Some ["read:esg_data"; "write:supplier_data"];
       iu_dataScope :=
         Some {| uds_entities := Some ["entity-supplier-456"];
                 uds_geographies := Some ["UAE"] |};
       iu_preferences :=
         Some {| language := Some "en"; timezone := Some "Asia/Dubai";
                 notifications := Some false |} |} ].

(** The loop of [seedInitialData] over the rows left: one
    [createUserContext] each, with the [k]-th identifier and clock reading.
    [createUserContext] does not throw, so the [catch] never runs. *)
Fixpoint seed_from (uuid_at : nat -> string) (date_at : nat -> Z) (k : nat)
    (rows : list InsertUserContext) (m : JsMap UserContext) : JsMap UserContext :=
  match rows with
  | [] => m
  | context :: rest =>
      seed_from uuid_at date_at (S k) rest
        (fst (createUserContext (uuid_at k) (date_at k) context m))
  end.

Definition seedInitialData (uuid_at : nat -> string) (date_at : nat -> Z) (k : nat)
    (m : JsMap UserContext) : JsMap UserContext :=
  seed_from uuid_at date_at k seed_rows m.

(** A user context without what a re-seed redraws: its id and its dates. *)
Definition context_profile (c : UserContext) : InsertUserContext :=
  {| iu_userId := uc_userId c; iu_role := uc_role c;
     iu_organizationId := uc_organizationId c;
     iu_organizationName := uc_organizationName c;
     iu_permissions := uc_permissions c; iu_dataScope := uc_dataScope c;
     iu_preferences := uc_preferences c |}.

(* ===================================================================== *)
(** * Properties *)
(* ===================================================================== *)

(** ** Strings *)

Lemma prefix_spec (p s : string) :
  String.prefix p s = true <-> exists r, s = (p ++ r)%string.
Proof.
  revert s. induction p as [| a p IH]; intros s; simpl.
  - destruct s; simpl; split; eauto.
  - destruct s as [| b s]; simpl.
    + split; [discriminate | intros [r Hr]; discriminate].
    + destruct (ascii_dec a b) as [-> | Hab].
      * rewrite IH. split; intros [r Hr]; exists r; congruence.
      * split; [discriminate | intros [r Hr]; congruence].
Qed.

Lemma includes_spec (s sub : string) :
  includes s sub = true <-> exists a b, s = (a ++ sub ++ b)%string.
Proof.
  induction s as [| c s IH]; cbn [includes].
  - rewrite orb_false_r, prefix_spec. split.
    + intros [r Hr]. exists EmptyString, r. exact Hr.
    + intros [a [b H]]. destruct a; [exists b; exact H | discriminate].
  - rewrite orb_true_iff, IH, prefix_spec. split.
    + intros [[r Hr] | [a [b H]]].
      * exists EmptyString, r. exact Hr.
      * exists (String c a), b. simpl. congruence.
    + intros [a [b H]]. destruct a as [| c' a]; simpl in H.
      * left. exists b. exact H.
      * right. exists a, b. congruence.
Qed.

Lemma startsWith_truthy (s p : string) :
  truthy p = true -> startsWith s p = true -> truthy s = true.
Proof.
  unfold startsWith. destruct p; [discriminate |]. destruct s; simpl; auto.
Qed.

Lemma lower_char_idem (c : ascii) : lower_char (lower_char c) = lower_char c.
Proof.
  destruct c as [[] [] [] [] [] [] [] []]; reflexivity.
Qed.

Lemma toLowerCase_idem (s : string) : toLowerCase (toLowerCase s) = toLowerCase s.
Proof.
  induction s as [| c s IH]; simpl; [reflexivity |].
  now rewrite lower_char_idem, IH.
Qed.

Lemma split_space_not_nil (s : string) : split_space s <> [].
Proof.
  induction s as [| c s IH]; simpl; [discriminate |].
  destruct (Ascii.eqb c space); [discriminate |].
  destruct (split_space s); discriminate.
Qed.

Lemma join_split_space (s : string) : join_space (split_space s) = s.
Proof.
  induction s as [| c s IH]; [reflexivity |].
  simpl split_space. destruct (Ascii.eqb_spec c space) as [-> | Hc].
  - pose proof (split_space_not_nil s) as Hne.
    destruct (split_space s) as [| w ws]; [contradiction |].
    change (join_space (EmptyString :: w :: ws))
      with (String space (join_space (w :: ws))).
    now rewrite IH.
  - pose proof (split_space_not_nil s) as Hne.
    destruct (split_space s) as [| w ws]; [contradiction |].
    destruct ws as [| w' ws]; simpl in *; congruence.
Qed.

Lemma includes_space_cons (c : ascii) (w : string) :
  c <> space -> includes w " " = false -> includes (String c w) " " = false.
Proof.
  intros Hc Hw. cbn [includes]. rewrite Hw, orb_false_r.
  apply not_true_is_false. rewrite prefix_spec. intros [r Hr].
  simpl in Hr. apply Hc. unfold space. congruence.
Qed.

Lemma split_space_words (s : string) :
  Forall (fun w => includes w " " = false) (split_space s).
Proof.
  induction s as [| c s IH]; simpl.
  - repeat constructor.
  - destruct (Ascii.eqb_spec c space) as [-> | Hc].
    + constructor; [reflexivity | exact IH].
    + destruct (split_space s) as [| w ws].
      * constructor; [| constructor]. now apply includes_space_cons.
      * inversion IH as [| ? ? Hw Hws]; subst. constructor; [| exact Hws].
        now apply includes_space_cons.
Qed.

Lemma append_assoc (a b c : string) : ((a ++ b) ++ c = a ++ (b ++ c))%string.
Proof. induction a as [| x a IH]; simpl; [reflexivity | now rewrite IH]. Qed.

Lemma concat_tokens_join (ws : list string) :
  ws <> [] ->
  concat_strings (map (fun word => (word ++ " ")%string) ws)
  = (join_space ws ++ " ")%string.
Proof.
  induction ws as [| w ws IH]; [congruence |]. intros _.
  destruct ws as [| w' ws].
  - simpl. now rewrite append_assoc.
  - change (join_space (w :: w' :: ws))
      with (w ++ String space (join_space (w' :: ws)))%string.
    change (concat_strings (map (fun word => (word ++ " ")%string) (w :: w' :: ws)))
      with ((w ++ " ") ++
            concat_strings (map (fun word => (word ++ " ")%string) (w' :: ws)))%string.
    rewrite IH by discriminate. rewrite !append_assoc. reflexivity.
Qed.

Lemma concat_streamResponse (t : string) :
  concat_strings (streamResponse t) = (t ++ " ")%string.
Proof.
  unfold streamResponse.
  rewrite concat_tokens_join by apply split_space_not_nil.
  now rewrite join_split_space.
Qed.

(** ** Intent classification *)

Lemma detectIntent_rules (q : string) : detectIntent q = classify_by_rules q.
Proof.
  unfold detectIntent, classify_by_rules, intent_rules, rule_matches.
  cbn [find existsb fst snd]. rewrite !orb_false_r, !orb_assoc.
  repeat match goal with
         | |- context [if ?b then _ else _] => destruct b
         end; reflexivity.
Qed.

(** C6.  [detectIntent] is a function of the query text alone that agrees,
    on every query, with the first matching rule of the ordered table
    (explain, summarize, navigate, guide, validate; [guide] when no rule
    matches); the keywords are looked up as substrings of the lower-cased
    query, so two queries that differ only in letter case get the same
    label; a query that contains both "help" and "why" is labelled
    [explain], and one that matches no rule is labelled [guide]. *)
Theorem detectIntent_first_match (q : string) :
  detectIntent q = classify_by_rules q /\
  (forall r, find (rule_matches q) intent_rules = Some r -> detectIntent q = snd r) /\
  (forall kw, includes (toLowerCase q) kw = true <->
              exists a b, toLowerCase q = (a ++ kw ++ b)%string) /\
  (forall q', toLowerCase q' = toLowerCase q -> detectIntent q' = detectIntent q) /\
  (includes (toLowerCase q) "help" = true ->
   includes (toLowerCase q) "why" = true -> detectIntent q = explain) /\
  (forallb (fun r => negb (rule_matches q r)) intent_rules = true ->
   detectIntent q = guide).
Proof.
  split; [apply detectIntent_rules |].
  split; [intros r Hr; rewrite detectIntent_rules; unfold classify_by_rules; now rewrite Hr |].
  split; [intros kw; apply includes_spec |].
  split; [intros q' Hq; unfold detectIntent; now rewrite Hq |].
  split.
  - intros _ Hwhy. unfold detectIntent. cbv zeta. now rewrite Hwhy.
  - intros Hnone. rewrite detectIntent_rules. unfold classify_by_rules.
    destruct (find (rule_matches q) intent_rules) as [r |] eqn:Hf; [| reflexivity].
    apply find_some in Hf. destruct Hf as [Hin Hm].
    rewrite forallb_forall in Hnone. specialize (Hnone r Hin).
    rewrite Hm in Hnone. discriminate.
Qed.

Lemma detectIntent_first_match_witness :
  detectIntent "Help me, WHY?" = explain /\
  detectIntent "Could you HELP me?" = guide /\
  detectIntent "export the ledger" = guide.
Proof.
  split; [| split].
  - apply (proj1 (proj2 (proj2 (proj2 (proj2 (detectIntent_first_match "Help me, WHY?")))))).
    + reflexivity.
    + reflexivity.
  - exact (proj1 (proj2 (detectIntent_first_match "Could you HELP me?"))
             (["help"; "guide"; "tutorial"], guide) eq_refl).
  - apply (proj2 (proj2 (proj2 (proj2 (proj2 (detectIntent_first_match "export the ledger")))))).
    reflexivity.
Defined.

Example detectIntent_scenario : detectIntent "Why was this flagged as anomalous?" = explain.
Proof. reflexivity. Qed.

(** ** Context enrichment *)

(** C7.  [enrichContext] returns the client context with [userRole] set to
    the role passed in, whatever the client had put there, and with
    [page], [pageType], [entityIds], [metricIds], [reportId] and
    [userAction] as the client sent them. *)
Theorem enrichContext_frame (query : string) (context : SessionContext)
    (r : UserRoleType) (organizationName : string) :
  let enriched := enrichContext query context r organizationName in
  userRole enriched = Some r /\
  page enriched = page context /\
  pageType enriched = pageType context /\
  entityIds enriched = entityIds context /\
  metricIds enriched = metricIds context /\
  reportId enriched = reportId context /\
  userAction enriched = userAction context.
Proof. cbv zeta. repeat split. Qed.

Example enrichContext_overwrites :
  userRole (enrichContext "q"
              (mkSessionContext (Some "/dashboard") (Some dashboard) None None None None
                                (Some SUSTAINABILITY_MANAGER))
              ESG_ANALYST "Acme Sustainability Corp") = Some ESG_ANALYST.
Proof. reflexivity. Qed.

(** ** The JavaScript Map *)

Section JsMapFacts.

Context {V : Type}.
Implicit Types (m : JsMap V) (k : string) (v : V).

Lemma map_get_set_eq k v m : map_get k (map_set k v m) = Some v.
Proof.
  induction m as [| [k' v'] m IH]; simpl.
  - now rewrite String.eqb_refl.
  - destruct (String.eqb k' k) eqn:E; simpl; rewrite E; auto.
Qed.

Lemma map_get_set_ne k k' v m : k' <> k -> map_get k' (map_set k v m) = map_get k' m.
Proof.
  intros Hne. induction m as [| [k0 v0] m IH]; simpl.
  - destruct (String.eqb_spec k k'); [congruence | reflexivity].
  - destruct (String.eqb_spec k0 k) as [-> | Hk]; simpl.
    + destruct (String.eqb_spec k k'); [congruence | reflexivity].
    + now rewrite IH.
Qed.

Lemma map_values_set_fresh k v m :
  map_get k m = None -> map_values (map_set k v m) = map_values m ++ [v].
Proof.
  unfold map_values. induction m as [| [k' v'] m IH]; simpl; [reflexivity |].
  destruct (String.eqb k' k); [discriminate |]. intros H. simpl. now rewrite IH.
Qed.

Lemma map_has_false k m : map_has k m = false <-> map_get k m = None.
Proof. unfold map_has. destruct (map_get k m); split; congruence. Qed.

End JsMapFacts.

(** ** Sorting by timestamp *)

Lemma length_insert_by_timestamp x l :
  length (insert_by_timestamp x l) = S (length l).
Proof.
  induction l as [| y l IH]; simpl; [reflexivity |].
  destruct (cm_timestamp x <=? cm_timestamp y)%Z; simpl; auto.
Qed.

Lemma length_sort_by_timestamp l : length (sort_by_timestamp l) = length l.
Proof.
  induction l as [| x l IH]; simpl; [reflexivity |].
  now rewrite length_insert_by_timestamp, IH.
Qed.

Lemma insert_by_timestamp_sorted x l :
  StronglySorted ts_le l -> StronglySorted ts_le (insert_by_timestamp x l).
Proof.
  induction 1 as [| y l Hl IH Hy]; simpl.
  - repeat constructor.
  - destruct (cm_timestamp x <=? cm_timestamp y)%Z eqn:E.
    + apply Z.leb_le in E. constructor; [constructor; assumption |].
      constructor; [exact E |].
      eapply Forall_impl; [| exact Hy]. unfold ts_le. intros; lia.
    + apply Z.leb_gt in E. constructor; [exact IH |].
      assert (Hx : forall z, In z (insert_by_timestamp x l) -> z = x \/ In z l).
      { clear. induction l as [| y l IH]; simpl; intros z Hz.
        - destruct Hz as [-> | []]; auto.
        - destruct (cm_timestamp x <=? cm_timestamp y)%Z; simpl in Hz.
          + destruct Hz as [-> | Hz]; auto.
          + destruct Hz as [-> | Hz]; auto. destruct (IH z Hz); auto. }
      apply Forall_forall. intros z Hz. destruct (Hx z Hz) as [-> | Hin].
      * unfold ts_le. lia.
      * rewrite Forall_forall in Hy. now apply Hy.
Qed.

(** The list [getMessagesBySessionId] returns is in ascending order of
    timestamp, oldest first, whatever the store holds. *)
Lemma sort_by_timestamp_sorted l : StronglySorted ts_le (sort_by_timestamp l).
Proof.
  induction l as [| x l IH]; simpl; [constructor |].
  now apply insert_by_timestamp_sorted.
Qed.

Lemma sort_by_timestamp_id l : StronglySorted ts_le l -> sort_by_timestamp l = l.
Proof.
  induction 1 as [| x l Hl IH Hx]; simpl; [reflexivity |].
  rewrite IH. destruct l as [| y l]; simpl; [reflexivity |].
  inversion Hx as [| ? ? Hxy _]; subst. unfold ts_le in Hxy.
  apply Z.leb_le in Hxy. now rewrite Hxy.
Qed.

Lemma StronglySorted_snoc {A : Type} (R : A -> A -> Prop) l x :
  StronglySorted R l -> Forall (fun a => R a x) l -> StronglySorted R (l ++ [x]).
Proof.
  induction 1 as [| y l Hl IH Hy]; intros Hall; simpl.
  - repeat constructor.
  - inversion Hall as [| ? ? Hyx Hall']; subst. constructor; [now apply IH |].
    apply Forall_app. split; [exact Hy | now constructor].
Qed.

Lemma StronglySorted_filter' {A : Type} (R : A -> A -> Prop) (f : A -> bool) l :
  StronglySorted R l -> StronglySorted R (filter f l).
Proof.
  induction 1 as [| y l Hl IH Hy]; simpl; [constructor |].
  destruct (f y); [| exact IH]. constructor; [exact IH |].
  apply Forall_forall. intros z Hz. apply filter_In in Hz.
  rewrite Forall_forall in Hy. now apply Hy.
Qed.

Lemma sorted_increasing l :
  StronglySorted ts_le l -> increasing false (map cm_timestamp l) = true.
Proof.
  induction 1 as [| x l Hl IH Hx]; [reflexivity |].
  destruct l as [| y l]; [reflexivity |].
  change (((cm_timestamp x <=? cm_timestamp y)%Z
           && increasing false (map cm_timestamp (y :: l))) = true).
  rewrite IH, andb_true_r. inversion Hx; subst. now apply Z.leb_le.
Qed.

(** ** Runs of the store *)

Lemma getMessagesBySessionId_persisted sessionId st :
  getMessagesBySessionId sessionId st = sort_by_timestamp (persisted_under sessionId st).
Proof. reflexivity. Qed.

Lemma filter_none {A : Type} (f : A -> bool) l : existsb f l = false -> filter f l = [].
Proof.
  induction l as [| x l IH]; simpl; [reflexivity |].
  destruct (f x); simpl; [discriminate | exact IH].
Qed.

Lemma chatMessages_updateSessionActivity now id st :
  chatMessages (updateSessionActivity now id st) = chatMessages st.
Proof. unfold updateSessionActivity. now destruct (map_get id (chatSessions st)). Qed.

Lemma getChatSession_updateSessionActivity now id st k :
  getChatSession k (updateSessionActivity now id st) =
  match getChatSession k st with
  | Some s =>
      if String.eqb id k
      then Some (mkChatSession (cs_id s) (cs_userId s) (cs_organizationId s)
                   (cs_createdAt s) now (cs_messageCount s + 1) (cs_context s))
      else Some s
  | None => None
  end.
Proof.
  unfold getChatSession, updateSessionActivity.
  destruct (String.eqb_spec id k) as [-> | Hne].
  - destruct (map_get k (chatSessions st)) as [s |] eqn:E; simpl.
    + now rewrite map_get_set_eq.
    + now rewrite E.
  - destruct (map_get id (chatSessions st)) as [s0 |] eqn:E; simpl.
    + rewrite map_get_set_ne by congruence. now destruct (map_get k (chatSessions st)).
    + now destruct (map_get k (chatSessions st)).
Qed.

Lemma apply_op_messages st op :
  op_fresh st op = true ->
  map_values (chatMessages (apply_op st op)) = map_values (chatMessages st) ++ op_message op.
Proof.
  destruct op as [id now ins | id t_msg t_act ins]; simpl; intros Hf.
  - now rewrite app_nil_r.
  - unfold createChatMessage. simpl. rewrite chatMessages_updateSessionActivity. simpl.
    apply map_values_set_fresh. apply map_has_false.
    unfold fresh_message_id in Hf. now apply negb_true_iff in Hf.
Qed.

Lemma persisted_apply_op sessionId st op :
  op_fresh st op = true ->
  persisted_under sessionId (apply_op st op)
  = persisted_under sessionId st ++ appended sessionId [op].
Proof.
  intros Hf. unfold persisted_under. rewrite (apply_op_messages _ _ Hf), filter_app.
  f_equal. destruct op as [id now ins | id t_msg t_act ins]; simpl; [reflexivity |].
  destruct (String.eqb (im_sessionId ins) sessionId); reflexivity.
Qed.

Lemma appended_app sessionId ops1 ops2 :
  appended sessionId (ops1 ++ ops2) = appended sessionId ops1 ++ appended sessionId ops2.
Proof. unfold appended. apply flat_map_app. Qed.

Lemma persisted_run sessionId ops : forall st,
  ops_fresh st ops = true ->
  persisted_under sessionId (run_ops ops st)
  = persisted_under sessionId st ++ appended sessionId ops.
Proof.
  unfold run_ops. induction ops as [| op ops IH]; intros st Hf.
  - simpl. now rewrite app_nil_r.
  - simpl in Hf. apply andb_true_iff in Hf. destruct Hf as [Hop Hops].
    change (op :: ops) with ([op] ++ ops) at 2. rewrite appended_app.
    cbn [fold_left]. rewrite (IH _ Hops), (persisted_apply_op _ _ _ Hop).
    now rewrite <- app_assoc.
Qed.

Lemma fst_createChatMessage id t_msg t_act ins st :
  fst (createChatMessage id t_msg t_act ins st)
  = updateSessionActivity t_act (im_sessionId ins) (fst (putChatMessage id t_msg ins st)).
Proof. reflexivity. Qed.

Lemma counts_ok_apply_op st op :
  counts_ok st -> op_fresh st op = true -> counts_ok (apply_op st op).
Proof.
  intros Hc Hf k s Hk. rewrite (persisted_apply_op _ _ _ Hf), length_app.
  destruct op as [id now ins | id t_msg t_act ins].
  - cbn [apply_op createChatSession fst chatSessions] in Hk.
    cbn [appended flat_map length]. rewrite Nat.add_0_r.
    destruct (String.eqb_spec id k) as [-> | Hne].
    + rewrite map_get_set_eq in Hk. injection Hk as <-. cbn [cs_messageCount].
      cbn [op_fresh] in Hf. unfold fresh_session_id in Hf.
      apply andb_true_iff in Hf. destruct Hf as [_ Hf].
      apply negb_true_iff in Hf. unfold persisted_under. now rewrite (filter_none _ _ Hf).
    + rewrite map_get_set_ne in Hk by congruence. now apply Hc.
  - change (getChatSession k (fst (createChatMessage id t_msg t_act ins st)) = Some s) in Hk.
    rewrite fst_createChatMessage, getChatSession_updateSessionActivity in Hk.
    change (getChatSession k (fst (putChatMessage id t_msg ins st)))
      with (map_get k (chatSessions st)) in Hk.
    destruct (map_get k (chatSessions st)) as [s0 |] eqn:E; [| discriminate].
    specialize (Hc k s0 E). cbn [appended flat_map]. rewrite app_nil_r.
    destruct (String.eqb (im_sessionId ins) k); injection Hk as <-;
      cbn [cs_messageCount length]; lia.
Qed.

Lemma counts_ok_run ops : forall st,
  counts_ok st -> ops_fresh st ops = true -> counts_ok (run_ops ops st).
Proof.
  induction ops as [| op ops IH]; intros st Hc Hf; simpl; [exact Hc |].
  simpl in Hf. apply andb_true_iff in Hf. destruct Hf as [Hop Hops].
  apply IH; [now apply counts_ok_apply_op | exact Hops].
Qed.

Lemma counts_ok_new : counts_ok MemStorage_new.
Proof. intros k s H. discriminate. Qed.

(** C3.  In every store reached from the empty one by calls of
    [createChatSession] and [createChatMessage] (each drawing an identifier
    that is not in use), every session's [messageCount] equals the number
    of messages persisted under its id, which is the number of messages
    [getMessagesBySessionId] lists for it and the number of
    [createChatMessage] calls made on it. *)
Theorem messageCount_counts_messages (ops : list StoreOp) (sessionId : string)
    (session : ChatSession) :
  ops_fresh MemStorage_new ops = true ->
  getChatSession sessionId (run_ops ops MemStorage_new) = Some session ->
  cs_messageCount session
    = Z.of_nat (length (persisted_under sessionId (run_ops ops MemStorage_new))) /\
  cs_messageCount session
    = Z.of_nat (length (getMessagesBySessionId sessionId (run_ops ops MemStorage_new))) /\
  cs_messageCount session = Z.of_nat (length (appended sessionId ops)).
Proof.
  intros Hf Hs.
  pose proof (counts_ok_run ops _ counts_ok_new Hf sessionId session Hs) as Hc.
  split; [exact Hc |]. split.
  - now rewrite getMessagesBySessionId_persisted, length_sort_by_timestamp.
  - rewrite Hc, (persisted_run sessionId ops _ Hf). reflexivity.
Qed.

Lemma messageCount_counts_messages_witness :
  exists session,
    getChatSession "s-analyst" analyst_store = Some session /\
    cs_messageCount session = 2%Z /\
    length (getMessagesBySessionId "s-analyst" analyst_store) = 2%nat.
Proof.
  eexists. split; [reflexivity |].
  pose proof (messageCount_counts_messages
    [ OpCreateSession "s-analyst" 1699999999000
        (mkInsertChatSession "user-123" "org-456" None None);
      OpCreateMessage "m-1" 1699999999001 1699999999001
        (userMessage_of "s-analyst" "What is Scope 1?");
      OpCreateMessage "m-2" 1699999999500 1699999999500
        (assistantMessage_of "s-analyst" "Direct emissions."
           {| text := "Direct emissions."; confidence := Qmake 9 10; intent := explain;
              suggestedPrompts := []; dataSources := [] |}) ]
    "s-analyst" _ eq_refl eq_refl) as [_ [H2 H3]].
  split; [exact H3 | reflexivity].
Defined.

(** ** Appending to a session that does not exist *)

Lemma map_get_not_key {V : Type} (k : string) (m : JsMap V) :
  ~ In k (map fst m) -> map_get k m = None.
Proof.
  induction m as [| [k' v] m IH]; simpl; [reflexivity |]. intros H.
  destruct (String.eqb_spec k' k); [tauto | apply IH; tauto].
Qed.

Lemma filter_nothing {A : Type} (f : A -> bool) l :
  (forall x, In x l -> f x = false) -> filter f l = [].
Proof.
  induction l as [| x l IH]; simpl; intros H; [reflexivity |].
  rewrite (H x) by auto. apply IH. auto.
Qed.

(** C2, as the code has it.  [createChatMessage] called with a session id
    under which no session exists raises nothing: it stores the new row in
    the message map and returns it, and the session map stays as it was, so
    the session is still absent afterwards.  [getChatSession] on an id that
    is no key of the session map returns the absent value, and
    [getMessagesBySessionId] returns the empty list for an id under which no
    message is stored. *)
Theorem createChatMessage_absent_session (id : string) (t_msg t_act : Z)
    (ins : InsertChatMessage) (st : MemStorage) :
  ~ In (im_sessionId ins) (map fst (chatSessions st)) ->
  let st' := fst (createChatMessage id t_msg t_act ins st) in
  let message := snd (createChatMessage id t_msg t_act ins st) in
  getChatSession (im_sessionId ins) st = None /\
  chatSessions st' = chatSessions st /\
  chatMessages st' = map_set id message (chatMessages st) /\
  getChatMessage id st' = Some message /\
  cm_sessionId message = im_sessionId ins /\
  getChatSession (im_sessionId ins) st' = None /\
  ((forall m, In m (map_values (chatMessages st)) -> cm_sessionId m <> im_sessionId ins) ->
   getMessagesBySessionId (im_sessionId ins) st = []).
Proof.
  intros Habs. cbv zeta.
  pose proof (map_get_not_key _ _ Habs) as Hnone.
  assert (Hst : fst (createChatMessage id t_msg t_act ins st)
                = fst (putChatMessage id t_msg ins st)).
  { rewrite fst_createChatMessage. unfold updateSessionActivity.
    cbn [putChatMessage fst chatSessions]. now rewrite Hnone. }
  rewrite Hst. cbn [putChatMessage fst snd chatSessions chatMessages createChatMessage
                    cm_sessionId].
  repeat split; try assumption.
  - unfold getChatMessage. cbn [chatMessages]. apply map_get_set_eq.
  - intros Hno. unfold getMessagesBySessionId. rewrite filter_nothing; [reflexivity |].
    intros m Hm. apply String.eqb_neq. now apply Hno.
Qed.

Lemma createChatMessage_absent_session_witness :
  getChatSession "ghost" auditor_store = None /\
  getChatMessage "m-9"
    (fst (createChatMessage "m-9" 1700000000000 1700000000000
            (userMessage_of "ghost" "anyone there?") auditor_store)) <> None /\
  getChatSession "ghost"
    (fst (createChatMessage "m-9" 1700000000000 1700000000000
            (userMessage_of "ghost" "anyone there?") auditor_store)) = None.
Proof.
  assert (Habs : ~ In (im_sessionId (userMessage_of "ghost" "anyone there?"))
                      (map fst (chatSessions auditor_store))).
  { simpl. intros [H | []]. discriminate. }
  destruct (createChatMessage_absent_session "m-9" 1700000000000 1700000000000
              (userMessage_of "ghost" "anyone there?") auditor_store Habs)
    as [H1 [_ [_ [H4 [_ [H6 _]]]]]].
  split; [exact H1 |]. split; [| exact H6].
  rewrite H4. discriminate.
Defined.

(** C2 as stated fails: on a store without the session "ghost" the call
    returns a row, and that row is in the message map afterwards and is
    listed under "ghost". *)
Lemma createChatMessage_absent_persists :
  let r := createChatMessage "m-9" 1700000000000 1700000000000
             (userMessage_of "ghost" "anyone there?") MemStorage_new in
  getChatSession "ghost" MemStorage_new = None /\
  cm_content (snd r) = "anyone there?" /\
  chatMessages (fst r) <> chatMessages MemStorage_new /\
  getMessagesBySessionId "ghost" (fst r) = [snd r].
Proof.
  cbv zeta. split; [reflexivity |]. split; [reflexivity |].
  split; [discriminate | reflexivity].
Qed.

(** ** Timestamps *)

Lemma timed_ok_new now : timed_ok now MemStorage_new.
Proof.
  split; [| split]; simpl.
  - intros k s H. discriminate.
  - constructor.
  - constructor.
Qed.

Lemma op_message_stamp now op :
  op_timed now op = true ->
  Forall (fun m => (now <= cm_timestamp m <= op_clock now op)%Z) (op_message op).
Proof.
  destruct op as [id t ins | id t_msg t_act ins]; simpl; intros H; [constructor |].
  apply andb_true_iff in H. destruct H as [H1 H2].
  apply Z.leb_le in H1. apply Z.leb_le in H2. repeat constructor; simpl; lia.
Qed.

Lemma op_clock_le now op : op_timed now op = true -> (now <= op_clock now op)%Z.
Proof.
  destruct op as [id t ins | id t_msg t_act ins]; simpl; intros H.
  - now apply Z.leb_le.
  - apply andb_true_iff in H. destruct H as [H1 H2].
    apply Z.leb_le in H1. apply Z.leb_le in H2. lia.
Qed.

Lemma timed_ok_apply_op now st op :
  timed_ok now st -> op_fresh st op = true -> op_timed now op = true ->
  timed_ok (op_clock now op) (apply_op st op).
Proof.
  intros [Hs [Hm Hsorted]] Hf Ht.
  pose proof (op_clock_le _ _ Ht) as Hle.
  pose proof (op_message_stamp _ _ Ht) as Hstamp.
  split; [| split].
  - intros k s Hk. destruct op as [id t ins | id t_msg t_act ins].
    + cbn [apply_op createChatSession fst chatSessions] in Hk. cbn [op_clock] in *.
      destruct (String.eqb_spec id k) as [-> | Hne].
      * rewrite map_get_set_eq in Hk. injection Hk as <-. simpl. lia.
      * rewrite map_get_set_ne in Hk by congruence. specialize (Hs k s Hk). lia.
    + change (getChatSession k (fst (createChatMessage id t_msg t_act ins st)) = Some s) in Hk.
      rewrite fst_createChatMessage, getChatSession_updateSessionActivity in Hk.
      change (getChatSession k (fst (putChatMessage id t_msg ins st)))
        with (map_get k (chatSessions st)) in Hk.
      cbn [op_clock] in *.
      destruct (map_get k (chatSessions st)) as [s0 |] eqn:E; [| discriminate].
      specialize (Hs k s0 E).
      destruct (String.eqb (im_sessionId ins) k); injection Hk as <-; simpl; lia.
  - rewrite (apply_op_messages _ _ Hf). apply Forall_app. split.
    + eapply Forall_impl; [| exact Hm]. simpl. intros; lia.
    + eapply Forall_impl; [| exact Hstamp]. simpl. intros; lia.
  - rewrite (apply_op_messages _ _ Hf).
    destruct op as [id t ins | id t_msg t_act ins]; cbn [op_message].
    + now rewrite app_nil_r.
    + apply StronglySorted_snoc; [exact Hsorted |].
      inversion Hstamp as [| ? ? Hx _]; subst.
      eapply Forall_impl; [| exact Hm]. unfold ts_le. simpl in *. intros; lia.
Qed.

Lemma timed_ok_run ops : forall now st,
  timed_ok now st -> ops_fresh st ops = true -> ops_timed now ops = true ->
  timed_ok (clock_after now ops) (run_ops ops st).
Proof.
  induction ops as [| op ops IH]; intros now st Hok Hf Ht; [exact Hok |].
  simpl in Hf, Ht. apply andb_true_iff in Hf. apply andb_true_iff in Ht.
  destruct Hf as [Hf1 Hf2]. destruct Ht as [Ht1 Ht2].
  apply (IH (op_clock now op) (apply_op st op)); auto using timed_ok_apply_op.
Qed.

(** In a timed run from the empty store, the listing of a session is the
    messages appended to it, in the order of the calls. *)
Lemma listing_is_append_order now ops sessionId :
  ops_fresh MemStorage_new ops = true -> ops_timed now ops = true ->
  getMessagesBySessionId sessionId (run_ops ops MemStorage_new) = appended sessionId ops.
Proof.
  intros Hf Ht.
  destruct (timed_ok_run ops now _ (timed_ok_new now) Hf Ht) as [_ [_ Hsorted]].
  rewrite getMessagesBySessionId_persisted.
  rewrite sort_by_timestamp_id by (now apply StronglySorted_filter').
  now rewrite (persisted_run sessionId ops _ Hf).
Qed.

(** C4, as the code has it.  Take a store reached from the empty one by
    [createChatSession] and [createChatMessage] calls that drew unused
    identifiers from a clock that does not run backwards.  A further
    [createChatMessage] on an existing session, stamped [t_msg] with the
    activity reading [t_act] taken after it, yields a message whose
    timestamp is at least (not necessarily above) the session's
    [lastActivity]; [messageCount] goes up by exactly one, and
    [lastActivity] becomes the reading [t_act], which is at least (not
    necessarily equal to) the message's timestamp.  [getMessagesBySessionId]
    lists the messages of a session in the order they were appended, with
    timestamps that never decrease. *)
Theorem createChatMessage_advances (now0 : Z) (ops : list StoreOp) :
  ops_fresh MemStorage_new ops = true ->
  ops_timed now0 ops = true ->
  let st := run_ops ops MemStorage_new in
  (forall id t_msg t_act ins session,
      getChatSession (im_sessionId ins) st = Some session ->
      (clock_after now0 ops <= t_msg)%Z -> (t_msg <= t_act)%Z ->
      let st' := fst (createChatMessage id t_msg t_act ins st) in
      let message := snd (createChatMessage id t_msg t_act ins st) in
      cm_timestamp message = t_msg /\
      (cs_lastActivity session <= cm_timestamp message)%Z /\
      exists session',
        getChatSession (im_sessionId ins) st' = Some session' /\
        cs_messageCount session' = (cs_messageCount session + 1)%Z /\
        cs_lastActivity session' = t_act /\
        (cm_timestamp message <= cs_lastActivity session')%Z) /\
  (forall sessionId,
      getMessagesBySessionId sessionId st = appended sessionId ops /\
      increasing false (map cm_timestamp (getMessagesBySessionId sessionId st)) = true).
Proof.
  intros Hf Ht. cbv zeta. split.
  - intros id t_msg t_act ins session Hs H1 H2.
    destruct (timed_ok_run ops now0 _ (timed_ok_new now0) Hf Ht) as [Hact _].
    specialize (Hact _ _ Hs).
    split; [reflexivity |]. split; [simpl; lia |].
    rewrite fst_createChatMessage, getChatSession_updateSessionActivity.
    change (getChatSession (im_sessionId ins)
              (fst (putChatMessage id t_msg ins (run_ops ops MemStorage_new))))
      with (getChatSession (im_sessionId ins) (run_ops ops MemStorage_new)).
    rewrite Hs, String.eqb_refl. eexists. split; [reflexivity |].
    simpl. repeat split; lia.
  - intros sessionId. split; [now apply (listing_is_append_order now0) |].
    apply sorted_increasing. rewrite getMessagesBySessionId_persisted.
    apply sort_by_timestamp_sorted.
Qed.

Lemma createChatMessage_advances_witness :
  map cm_content (getMessagesBySessionId "s1" (run_ops same_ms_ops MemStorage_new))
    = ["first"; "second"] /\
  increasing false
    (map cm_timestamp (getMessagesBySessionId "s1" (run_ops same_ms_ops MemStorage_new)))
    = true.
Proof.
  destruct (createChatMessage_advances 1000 same_ms_ops eq_refl eq_refl) as [_ H].
  destruct (H "s1") as [H1 H2]. split; [| exact H2].
  rewrite H1. reflexivity.
Defined.

(** C4 as stated fails when the clock has not ticked.  The run below is
    timed and draws unused identifiers.  Its first append is stamped with
    the very reading the session was created at, so the timestamp is not
    above [lastActivity]; its second append is stamped 1000 while the
    activity reading is 1001, so [lastActivity] is not the message's
    timestamp; and the listing has two equal timestamps, so it is not
    strictly increasing. *)
Lemma createChatMessage_same_millisecond :
  let st0 := run_ops (firstn 1 same_ms_ops) MemStorage_new in
  let r1 := createChatMessage "m1" 1000 1000 (userMessage_of "s1" "first") st0 in
  let r2 := createChatMessage "m2" 1000 1001 (userMessage_of "s1" "second") (fst r1) in
  ops_fresh MemStorage_new same_ms_ops = true /\
  ops_timed 1000 same_ms_ops = true /\
  fst r2 = run_ops same_ms_ops MemStorage_new /\
  option_map cs_lastActivity (getChatSession "s1" st0) = Some 1000%Z /\
  ~ (1000 < cm_timestamp (snd r1))%Z /\
  option_map cs_lastActivity (getChatSession "s1" (fst r2)) = Some 1001%Z /\
  cm_timestamp (snd r2) <> 1001%Z /\
  increasing true (map cm_timestamp (getMessagesBySessionId "s1" (fst r2))) = false.
Proof.
  cbv zeta. repeat split; try reflexivity.
  - simpl. lia.
  - simpl. discriminate.
Qed.

(** ** Authentication *)

Section ServerFacts.

Variable env : Env.

Lemma verifyToken_ok token w :
  startsWith token "Bearer " = true ->
  verifyToken env token w
  = (Some (mockPayload (Date_at env (dates_read w)) (Date_at env (S (dates_read w)))),
     mkWorld (storage w) (uuids_drawn w) (S (S (dates_read w))) (ready_reads w)
             (llm_calls w) (ws_sent w)).
Proof.
  intros H. unfold verifyToken.
  rewrite (startsWith_truthy token "Bearer " eq_refl H), H. reflexivity.
Qed.

Lemma verifyToken_refused token w :
  startsWith token "Bearer " = false -> verifyToken env token w = (None, w).
Proof.
  intros H. unfold verifyToken. rewrite H, orb_true_r. reflexivity.
Qed.

(** C10.  [verifyToken] returns a payload exactly for the inputs that start
    with "Bearer "; the payload always has subject "user-123", organization
    "org-456" and role ESG_ANALYST; and two inputs with the prefix, checked
    in the same state, give the same payload and leave the same state:
    nothing after the prefix is looked at. *)
Theorem verifyToken_prefix_only (token : string) (w : World) :
  (fst (verifyToken env token w) <> None <-> startsWith token "Bearer " = true) /\
  (startsWith token "Bearer " = true <-> exists rest, token = ("Bearer " ++ rest)%string) /\
  (forall payload, fst (verifyToken env token w) = Some payload ->
     sub payload = "user-123" /\ org_id payload = "org-456" /\ role payload = ESG_ANALYST) /\
  (forall token', startsWith token "Bearer " = true -> startsWith token' "Bearer " = true ->
     verifyToken env token' w = verifyToken env token w).
Proof.
  split; [| split; [| split]].
  - destruct (startsWith token "Bearer ") eqn:E.
    + rewrite (verifyToken_ok _ _ E). simpl. split; [reflexivity | discriminate].
    + rewrite (verifyToken_refused _ _ E). simpl. split; [congruence | discriminate].
  - unfold startsWith. apply prefix_spec.
  - intros payload. destruct (startsWith token "Bearer ") eqn:E.
    + rewrite (verifyToken_ok _ _ E). simpl. intros [= <-]. repeat split.
    + rewrite (verifyToken_refused _ _ E). discriminate.
  - intros token' H H'. now rewrite (verifyToken_ok _ _ H), (verifyToken_ok _ _ H').
Qed.

(** ** What the storage calls leave alone *)

Lemma same_wire_refl w : same_wire w w.
Proof. repeat split. Qed.

Lemma same_wire_trans w1 w2 w3 : same_wire w1 w2 -> same_wire w2 w3 -> same_wire w1 w3.
Proof. unfold same_wire. intros [? [? ?]] [? [? ?]]. repeat split; congruence. Qed.

Lemma bind_eq {A B : Type} (m : M A) (k : A -> M B) w a w' :
  m w = (a, w') -> bind m k w = k a w'.
Proof. unfold bind. now intros ->. Qed.

Lemma storage_getChatSession_eq id w :
  storage_getChatSession id w = (getChatSession id (storage w), w).
Proof. reflexivity. Qed.

Lemma storage_createChatSession_wire ins w :
  exists session w',
    storage_createChatSession env ins w = (session, w') /\ same_wire w w' /\
    cs_id session = randomUUID_at env (uuids_drawn w) /\
    storage w' = fst (createChatSession (randomUUID_at env (uuids_drawn w))
                        (Date_at env (dates_read w)) ins (storage w)).
Proof. do 2 eexists. split; [reflexivity |]. repeat split. Qed.

Lemma storage_createChatMessage_wire ins w :
  exists message w',
    storage_createChatMessage env ins w = (message, w') /\ same_wire w w' /\
    message = snd (putChatMessage (randomUUID_at env (uuids_drawn w))
                     (Date_at env (dates_read w)) ins (storage w)) /\
    storage w' = fst (createChatMessage (randomUUID_at env (uuids_drawn w))
                        (Date_at env (dates_read w)) (Date_at env (S (dates_read w)))
                        ins (storage w)).
Proof.
  unfold storage_createChatMessage, storage_updateSessionActivity, bind. simpl.
  unfold createChatMessage, updateSessionActivity, getChatSession. simpl.
  destruct (map_get (im_sessionId ins) (chatSessions (storage w)));
    do 2 eexists; (split; [reflexivity |]); repeat split.
Qed.

Lemma ws_stream_spec sessionId tokens : forall w,
  ws_stream env sessionId tokens w
  = (tt, mkWorld (storage w) (uuids_drawn w) (dates_read w)
                 (ready_reads w + length tokens) (llm_calls w)
                 (ws_sent w ++ map (EnvToken sessionId)
                                   (kept (ws_open_at env) (ready_reads w) tokens))).
Proof.
  induction tokens as [| token rest IH]; intros w.
  - simpl. rewrite Nat.add_0_r, app_nil_r. now destruct w.
  - cbn [ws_stream]. unfold bind at 1. unfold ws_readyState_open at 1.
    cbn [kept length]. destruct (ws_open_at env (ready_reads w)).
    + unfold bind at 1, ws_send at 1. rewrite IH. cbn.
      rewrite <- app_assoc, <- plus_n_Sm. reflexivity.
    + unfold bind at 1, ret at 1. rewrite IH. cbn. rewrite <- plus_n_Sm. reflexivity.
Qed.

End ServerFacts.

(** ** The streaming path *)

Section Streaming.

Variable env : Env.

(** Resolving the session, as the /ws handler does it, leaves the wire
    alone; [k] is the rest of the handler. *)
Lemma ws_resolve_wire {B : Type} (message : WsMessage) (usr : JWTPayload)
    (k : ChatSession -> M B) w :
  exists session w',
    bind (match ws_sessionId message with
          | Some sid => if truthy sid then storage_getChatSession sid else ret None
          | None => ret None
          end)
         (fun found =>
            bind (match found with
                  | Some s => ret s
                  | None =>
                      storage_createChatSession env
                        {| is_userId := sub usr; is_organizationId := org_id usr;
                           is_messageCount := None;
                           is_context := Some (context_or_empty (ws_context message)) |}
                  end) k) w = k session w' /\ same_wire w w'.
Proof.
  destruct (storage_createChatSession_wire env
              {| is_userId := sub usr; is_organizationId := org_id usr;
                 is_messageCount := None;
                 is_context := Some (context_or_empty (ws_context message)) |} w)
    as [s0 [w0 [E0 [H0 _]]]].
  unfold bind at 1.
  destruct (ws_sessionId message) as [sid |]; [destruct (truthy sid) |].
  - rewrite storage_getChatSession_eq.
    destruct (getChatSession sid (storage w)) as [s |].
    + exists s, w. split; [reflexivity | apply same_wire_refl].
    + exists s0, w0. split; [now rewrite (bind_eq _ _ _ _ _ E0) | exact H0].
  - unfold ret at 1. exists s0, w0. split; [now rewrite (bind_eq _ _ _ _ _ E0) | exact H0].
  - unfold ret at 1. exists s0, w0. split; [now rewrite (bind_eq _ _ _ _ _ E0) | exact H0].
Qed.

(** What a [chat_query] with a token that verifies puts on the wire and
    asks of the generator, when the generator answers. *)
Lemma ws_on_message_wire (message : WsMessage) (w : World) (llmResponse : LLMResponse) :
  ws_type message = "chat_query" ->
  startsWith (ws_bearer message) "Bearer " = true ->
  mcpLlm env (ws_llm_request message ESG_ANALYST) = Some llmResponse ->
  let tokens := streamResponse (text llmResponse) in
  let w' := snd (ws_on_message env message w) in
  llm_calls w' = llm_calls w ++ [ws_llm_request message ESG_ANALYST] /\
  exists sessionId messageId metadata,
    ws_sent w' =
      ws_sent w
      ++ [EnvTyping (ws_sessionId message)]
      ++ map (EnvToken sessionId) (kept (ws_open_at env) (ready_reads w) tokens)
      ++ (if ws_open_at env (ready_reads w + length tokens)
          then [EnvComplete sessionId messageId (suggestedPrompts llmResponse) metadata]
          else []).
Proof.
  intros Htype Htok Hllm. cbv zeta.
  remember (ws_on_message env message w) as out eqn:Eout.
  unfold ws_on_message in Eout. rewrite Htype in Eout.
  cbn [String.eqb Ascii.eqb Bool.eqb] in Eout.
  fold (ws_bearer message) in Eout.
  rewrite (bind_eq _ _ _ _ _ (verifyToken_ok env _ w Htok)) in Eout.
  set (w1 := mkWorld _ _ _ _ _ _) in Eout.
  unfold bind at 1, ws_send at 1 in Eout.
  set (w2 := mkWorld _ _ _ _ _ _) in Eout.
  set (usr := mockPayload _ _) in Eout.
  match type of Eout with
  | context [bind _ (fun found => bind _ ?k) w2] =>
      destruct (ws_resolve_wire message usr k w2) as [session [w3 [E3 H3]]]
  end.
  rewrite E3 in Eout. clear E3.
  destruct (storage_createChatMessage_wire env
              (userMessage_of (cs_id session) (ws_query message)) w3)
    as [um [w4 [E4 [H4 _]]]].
  rewrite (bind_eq _ _ _ _ _ E4) in Eout.
  unfold bind at 1, callMcpLlm at 1 in Eout.
  change (role usr) with ESG_ANALYST in Eout.
  fold (ws_llm_request message ESG_ANALYST) in Eout. rewrite Hllm in Eout.
  set (w5 := mkWorld _ _ _ _ _ _) in Eout.
  unfold formatResponse in Eout.
  rewrite (bind_eq _ _ _ _ _ (ws_stream_spec env (cs_id session) _ w5)) in Eout.
  set (w6 := mkWorld _ _ _ _ _ _) in Eout.
  destruct (storage_createChatMessage_wire env
              (assistantMessage_of (cs_id session) (text llmResponse) llmResponse) w6)
    as [am [w7 [E7 [H7 _]]]].
  rewrite (bind_eq _ _ _ _ _ E7) in Eout.
  unfold bind at 1, ws_readyState_open at 1 in Eout.
  destruct H3 as [S3 [R3 L3]]. destruct H4 as [S4 [R4 L4]]. destruct H7 as [S7 [R7 L7]].
  assert (Hr : ready_reads w7
               = (ready_reads w + length (streamResponse (text llmResponse)))%nat).
  { rewrite R7. subst w6 w5. cbn. rewrite R4, R3. reflexivity. }
  assert (Hl : llm_calls w7 = llm_calls w ++ [ws_llm_request message ESG_ANALYST]).
  { rewrite L7. subst w6 w5. cbn. rewrite L4, L3. reflexivity. }
  assert (Hs : ws_sent w7 = ws_sent w ++ [EnvTyping (ws_sessionId message)]
                 ++ map (EnvToken (cs_id session))
                        (kept (ws_open_at env) (ready_reads w)
                              (streamResponse (text llmResponse)))).
  { rewrite S7. subst w6 w5. cbn. rewrite S4, S3, R4, R3. subst w2 w1. cbn.
    now rewrite <- app_assoc. }
  rewrite Hr in Eout. destruct (ws_open_at env _); subst out; cbn.
  - split; [exact Hl |].
    exists (cs_id session), (cm_id am), (cm_metadata am).
    rewrite Hs, <- !app_assoc. reflexivity.
  - split; [exact Hl |].
    exists (cs_id session), (cm_id am), (cm_metadata am).
    rewrite Hs, app_nil_r. reflexivity.
Qed.

End Streaming.

Lemma kept_all (open_at : nat -> bool) tokens : forall k,
  (forall i, open_at i = true) -> kept open_at k tokens = tokens.
Proof.
  induction tokens as [| t rest IH]; intros k H; simpl; [reflexivity |].
  now rewrite H, IH.
Qed.

(** C5, as the code has it.  When a [chat_query] with a token that verifies
    reaches the generator and the generator answers with [text], the tokens
    streamed are the pieces of [text] between single space characters
    (U+0020; no other white space is a boundary), each with one space
    appended; the pieces joined by spaces give back [text], so the tokens
    concatenated give [text] followed by one extra space.  On the wire
    [typing] comes first, then the tokens in order (those sent while the
    socket is open), then at most one [complete], after the last token. *)
Theorem streamResponse_tokens (env : Env) (message : WsMessage) (w : World)
    (llmResponse : LLMResponse) :
  ws_type message = "chat_query" ->
  startsWith (ws_bearer message) "Bearer " = true ->
  mcpLlm env (ws_llm_request message ESG_ANALYST) = Some llmResponse ->
  let t := formatResponse llmResponse (detectIntent (ws_query message)) in
  let tokens := streamResponse t in
  t = text llmResponse /\
  tokens = map (fun word => (word ++ " ")%string) (split_space t) /\
  join_space (split_space t) = t /\
  Forall (fun word => includes word " " = false) (split_space t) /\
  concat_strings tokens = (t ++ " ")%string /\
  exists sessionId messageId metadata,
    ws_sent (snd (ws_on_message env message w)) =
      ws_sent w
      ++ [EnvTyping (ws_sessionId message)]
      ++ map (EnvToken sessionId) (kept (ws_open_at env) (ready_reads w) tokens)
      ++ (if ws_open_at env (ready_reads w + length tokens)
          then [EnvComplete sessionId messageId (suggestedPrompts llmResponse) metadata]
          else []).
Proof.
  intros Htype Htok Hllm. cbv zeta. unfold formatResponse.
  split; [reflexivity |]. split; [reflexivity |].
  split; [apply join_split_space |]. split; [apply split_space_words |].
  split; [apply concat_streamResponse |].
  exact (proj2 (ws_on_message_wire env message w llmResponse Htype Htok Hllm)).
Qed.

Example streamResponse_hello_world : streamResponse "hello world" = ["hello "; "world "].
Proof. reflexivity. Qed.

Lemma streamResponse_tokens_witness :
  exists sessionId messageId metadata,
    ws_sent (snd (ws_on_message demo_env
                    (mkWsMessage "chat_query" None "hi" None (Some analyst_token))
                    (World_new MemStorage_new)))
    = [ EnvTyping None;
        EnvToken sessionId "hello ";
        EnvToken sessionId "world ";
        EnvComplete sessionId messageId
          ["Show me the historical trend for this facility"] metadata ].
Proof.
  destruct (streamResponse_tokens demo_env
              (mkWsMessage "chat_query" None "hi" None (Some analyst_token))
              (World_new MemStorage_new)
              {| text := "hello world"; confidence := Qmake 94 100; intent := explain;
                 suggestedPrompts := ["Show me the historical trend for this facility"];
                 dataSources := ["esg_data_service:metric_history"] |}
              eq_refl eq_refl eq_refl)
    as [_ [_ [_ [_ [_ [sessionId [messageId [metadata H]]]]]]]].
  exists sessionId, messageId, metadata. exact H.
Defined.

(** C5 as stated fails: the tokens of "hello world" concatenate to
    "hello world " with a space the text does not have, and a tab, which is
    white space, does not end a token. *)
Lemma streamResponse_trailing_space :
  streamResponse "hello world" = ["hello "; "world "] /\
  concat_strings (streamResponse "hello world") = "hello world " /\
  concat_strings (streamResponse "hello world") <> "hello world" /\
  streamResponse (String "a" (String "009" (String "b" EmptyString)))
    = [String "a" (String "009" (String "b" (String " " EmptyString)))].
Proof.
  split; [reflexivity |]. split; [reflexivity |]. split; [| reflexivity].
  simpl. discriminate.
Qed.

(** ** The single-shot path *)

Section SingleShot.

Variable env : Env.

Lemma safeParse_keeps body queryRequest :
  chatQueryRequestSchema_safeParse body = Some queryRequest ->
  query_length_ok (rq_query body) = true /\
  rq_sessionId queryRequest = rq_sessionId body /\
  rq_query queryRequest = rq_query body.
Proof.
  unfold chatQueryRequestSchema_safeParse.
  destruct (query_length_ok (rq_query body)); [| discriminate].
  intros [= <-]. repeat split.
Qed.

Lemma query_length_ok_spec q :
  query_length_ok q = true <-> (1 <= String.length q <= 2000)%nat.
Proof.
  unfold query_length_ok. rewrite andb_true_iff, !Nat.leb_le. reflexivity.
Qed.

(** The schema accepts a well-typed body exactly when its query has
    between 1 and 2000 characters. *)
Lemma safeParse_accepts body :
  chatQueryRequestSchema_safeParse body <> None
  <-> (1 <= String.length (rq_query body) <= 2000)%nat.
Proof.
  rewrite <- query_length_ok_spec. unfold chatQueryRequestSchema_safeParse.
  destruct (query_length_ok (rq_query body)); split; intros H;
    try reflexivity; try discriminate; congruence.
Qed.

(** A body whose query the schema refuses is answered 400 (401 when the
    header does not verify), and the store is as it was. *)
Lemma post_chat_rejects_query authorization body w :
  query_length_ok (rq_query body) = false ->
  let out := post_chat env authorization body w in
  (status (fst out) = 400 \/ status (fst out) = 401)%nat /\
  storage (snd out) = storage w /\ llm_calls (snd out) = llm_calls w.
Proof.
  intros Hq. cbv zeta. unfold post_chat. fold (authorization_or_empty authorization).
  destruct (startsWith (authorization_or_empty authorization) "Bearer ") eqn:E.
  - rewrite (bind_eq _ _ _ _ _ (verifyToken_ok env _ w E)).
    unfold chatQueryRequestSchema_safeParse. rewrite Hq. cbn. auto.
  - rewrite (bind_eq _ _ _ _ _ (verifyToken_refused env _ w E)). cbn. auto.
Qed.

(** A body that names a session owned by someone other than the verified
    subject is answered 404 (400 or 401 when it fails earlier), and the
    store is as it was: no row is written, no session is touched. *)
Lemma post_chat_foreign_session authorization body w sid session :
  rq_sessionId body = Some sid ->
  truthy sid = true ->
  getChatSession sid (storage w) = Some session ->
  cs_userId session <> "user-123" ->
  let out := post_chat env authorization body w in
  (status (fst out) = 404 \/ status (fst out) = 400 \/ status (fst out) = 401)%nat /\
  storage (snd out) = storage w /\ llm_calls (snd out) = llm_calls w.
Proof.
  intros Hsid Htruthy Hs Hown. cbv zeta. unfold post_chat.
  fold (authorization_or_empty authorization).
  destruct (startsWith (authorization_or_empty authorization) "Bearer ") eqn:E.
  - rewrite (bind_eq _ _ _ _ _ (verifyToken_ok env _ w E)).
    destruct (chatQueryRequestSchema_safeParse body) as [queryRequest |] eqn:P.
    + destruct (safeParse_keeps _ _ P) as [_ [Hk _]]. rewrite Hk, Hsid, Htruthy.
      rewrite (bind_eq _ _ _ _ _ (storage_getChatSession_eq _ _)).
      cbn [storage]. rewrite Hs.
      apply String.eqb_neq in Hown. cbn [sub mockPayload]. rewrite Hown. cbn. auto.
    + cbn. auto.
  - rewrite (bind_eq _ _ _ _ _ (verifyToken_refused env _ w E)). cbn. auto.
Qed.

(** The history the single-shot pipeline hands to the generator: the last
    ten rows of the session's listing, taken after the user's turn was
    stored, as role and content. *)
Lemma post_chat_pipeline_history usr queryRequest session w :
  let w1 := snd (storage_createChatMessage env
                   (userMessage_of (cs_id session) (rq_query queryRequest)) w) in
  let listing := getMessagesBySessionId (cs_id session) (storage w1) in
  exists request,
    llm_calls (snd (post_chat_pipeline env usr queryRequest session w))
      = llm_calls w ++ [request] /\
    req_query request = rq_query queryRequest /\
    sessionHistory request = map history_entry (slice_last 10 listing) /\
    StronglySorted ts_le listing.
Proof.
  cbv zeta.
  destruct (storage_createChatMessage_wire env
              (userMessage_of (cs_id session) (rq_query queryRequest)) w)
    as [um [w1 [E1 [[_ [_ L1]] _]]]].
  remember (post_chat_pipeline env usr queryRequest session w) as out eqn:Eout.
  unfold post_chat_pipeline in Eout.
  rewrite (bind_eq _ _ _ _ _ E1) in Eout. rewrite E1. cbn [snd].
  unfold bind at 1, storage_getMessagesBySessionId at 1 in Eout.
  unfold bind at 1, getStorage at 1, ret at 1 in Eout.
  unfold bind at 1, callMcpLlm at 1 in Eout.
  eexists. split; [| split; [| split]].
  - destruct (mcpLlm env _) as [llmResponse |] in Eout.
    + match type of Eout with
      | out = bind _ _ ?w2 =>
          destruct (storage_createChatMessage_wire env
            (assistantMessage_of (cs_id session)
               (formatResponse llmResponse (detectIntent (rq_query queryRequest)))
               llmResponse) w2) as [am [w3 [E3 [[_ [_ L3]] _]]]]
      end.
      rewrite (bind_eq _ _ _ _ _ E3) in Eout. subst out. cbn.
      rewrite L3. cbn. rewrite L1. reflexivity.
    + subst out. cbn. rewrite L1. reflexivity.
  - reflexivity.
  - reflexivity.
  - rewrite getMessagesBySessionId_persisted. apply sort_by_timestamp_sorted.
Qed.

End SingleShot.

Lemma slice_last_all {A : Type} (n : nat) (l : list A) :
  (length l <= n)%nat -> slice_last n l = l.
Proof.
  intros H. unfold slice_last. replace (length l - n)%nat with 0%nat by lia. reflexivity.
Qed.

Lemma slice_last_suffix {A : Type} (n : nat) (l : list A) :
  (n <= length l)%nat ->
  exists older, l = older ++ slice_last n l /\ length (slice_last n l) = n.
Proof.
  intros H. unfold slice_last. exists (firstn (length l - n) l).
  rewrite firstn_skipn, length_skipn. split; [reflexivity | lia].
Qed.

(** ** Where the streaming path departs from the single-shot path *)

(** C1 on the /ws path.  The store holds the session "s-auditor" of
    user-456; the token verifies as user-123.  The [chat_query] handler
    stores the user's turn and the reply under that session and counts
    them, where POST /api/v1/copilot/chat answers 404 to the same request
    and writes nothing. *)
Theorem ws_foreign_session_appended :
  let w := World_new auditor_store in
  let w' := snd (ws_on_message demo_env foreign_query w) in
  let rest := post_chat demo_env (Some analyst_token)
                (mkChatQueryRequest (Some "s-auditor") "show me everything" None None) w in
  option_map cs_userId (getChatSession "s-auditor" auditor_store) = Some "user-456" /\
  option_map sub (fst (verifyToken demo_env analyst_token w)) = Some "user-123" /\
  getMessagesBySessionId "s-auditor" auditor_store = [] /\
  map cm_content (getMessagesBySessionId "s-auditor" (storage w'))
    = ["show me everything"; "hello world"] /\
  option_map cs_messageCount (getChatSession "s-auditor" (storage w')) = Some 2%Z /\
  status (fst rest) = 404%nat /\
  storage (snd rest) = auditor_store.
Proof. cbv zeta. repeat split; vm_compute; reflexivity. Qed.

(** C8 on the /ws path.  The [chat_query] handler never consults
    [chatQueryRequestSchema]: for the empty query, and for one of 2001
    characters, it creates a session and stores the query as a message,
    where POST /api/v1/copilot/chat answers 400 and writes nothing. *)
Theorem ws_query_not_validated :
  let w := World_new MemStorage_new in
  let w_empty := snd (ws_on_message demo_env empty_query w) in
  let w_long := snd (ws_on_message demo_env oversized_query w) in
  let rest_empty := post_chat demo_env (Some analyst_token)
                      (mkChatQueryRequest None "" None None) w in
  let rest_long := post_chat demo_env (Some analyst_token)
                     (mkChatQueryRequest None long_query None None) w in
  String.length long_query = 2001%nat /\
  query_length_ok "" = false /\ query_length_ok long_query = false /\
  length (chatSessions (storage w_empty)) = 1%nat /\
  map cm_content (map_values (chatMessages (storage w_empty))) = [""; "hello world"] /\
  length (chatSessions (storage w_long)) = 1%nat /\
  map cm_content (map_values (chatMessages (storage w_long))) = [long_query; "hello world"] /\
  status (fst rest_empty) = 400%nat /\ storage (snd rest_empty) = MemStorage_new /\
  status (fst rest_long) = 400%nat /\ storage (snd rest_long) = MemStorage_new.
Proof. cbv zeta. repeat split; vm_compute; reflexivity. Qed.

(** C9 on the /ws path.  The session "s-analyst" holds two turns.  The
    [chat_query] handler stores the follow-up and then calls the generator
    with an empty history, where POST /api/v1/copilot/chat passes the three
    turns of the session, oldest first. *)
Theorem ws_history_empty :
  let w := World_new analyst_store in
  let w' := snd (ws_on_message demo_env follow_up_query w) in
  let rest := post_chat demo_env (Some analyst_token)
                (mkChatQueryRequest (Some "s-analyst") "And Scope 2?" None None) w in
  map cm_content (getMessagesBySessionId "s-analyst" analyst_store)
    = ["What is Scope 1?"; "Direct emissions."] /\
  map sessionHistory (llm_calls w') = [[]] /\
  map sessionHistory (llm_calls (snd rest))
    = [[ mkHistoryEntry user "What is Scope 1?";
         mkHistoryEntry assistant "Direct emissions.";
         mkHistoryEntry user "And Scope 2?" ]].
Proof. cbv zeta. repeat split; vm_compute; reflexivity. Qed.

(** On every run of the /ws handler that reaches the generator, the
    history of the one request it makes is empty. *)
Lemma ws_history_always_empty (env : Env) (message : WsMessage) (w : World)
    (llmResponse : LLMResponse) :
  ws_type message = "chat_query" ->
  startsWith (ws_bearer message) "Bearer " = true ->
  mcpLlm env (ws_llm_request message ESG_ANALYST) = Some llmResponse ->
  exists request,
    llm_calls (snd (ws_on_message env message w)) = llm_calls w ++ [request] /\
    sessionHistory request = [].
Proof.
  intros Htype Htok Hllm. exists (ws_llm_request message ESG_ANALYST).
  split; [| reflexivity].
  exact (proj1 (ws_on_message_wire env message w llmResponse Htype Htok Hllm)).
Qed.

(* ===================================================================== *)
(** * Further properties of the store *)
(* ===================================================================== *)

Lemma map_keys_set_present {V : Type} (k : string) (v : V) (m : JsMap V) :
  map_has k m = true -> map fst (map_set k v m) = map fst m.
Proof.
  unfold map_has. induction m as [| [k' v'] m IH]; simpl; [discriminate |].
  destruct (String.eqb k' k); simpl; [reflexivity |]. intros H. now rewrite IH.
Qed.

Lemma map_keys_set_absent {V : Type} (k : string) (v : V) (m : JsMap V) :
  map_has k m = false -> map fst (map_set k v m) = map fst m ++ [k].
Proof.
  unfold map_has. induction m as [| [k' v'] m IH]; simpl; [reflexivity |].
  destruct (String.eqb k' k); simpl; [discriminate |]. intros H. now rewrite IH.
Qed.

Lemma map_has_key {V : Type} (k : string) (m : JsMap V) :
  map_has k m = true <-> In k (map fst m).
Proof.
  unfold map_has. induction m as [| [k' v'] m IH]; simpl.
  - split; [discriminate | tauto].
  - destruct (String.eqb_spec k' k) as [-> | Hne].
    + split; auto.
    + rewrite IH. split; [auto | intros [H | H]; [congruence | exact H]].
Qed.

(** X1.  A session just created is the one [getChatSession] returns for its
    id; it starts with no messages counted and with both dates at the
    reading taken, whatever the insert row carried; every other id answers
    as before and the message map is not touched. *)
Theorem createChatSession_lookup (id : string) (now : Z) (ins : InsertChatSession)
    (st : MemStorage) :
  let st' := fst (createChatSession id now ins st) in
  let session := snd (createChatSession id now ins st) in
  getChatSession id st' = Some session /\
  cs_id session = id /\
  cs_messageCount session = 0%Z /\
  cs_createdAt session = now /\ cs_lastActivity session = now /\
  cs_userId session = is_userId ins /\
  (forall k, k <> id -> getChatSession k st' = getChatSession k st) /\
  chatMessages st' = chatMessages st.
Proof.
  cbv zeta. unfold getChatSession, createChatSession. cbn [fst snd chatSessions chatMessages].
  repeat split.
  - apply map_get_set_eq.
  - intros k Hk. now apply map_get_set_ne.
Qed.

(** X2.  Every session [getSessionsByUserId] lists belongs to the user
    asked for.  Creating a session under a key the map does not hold puts
    it at the end of its owner's listing and changes no other user's
    listing. *)
Theorem getSessionsByUserId_after_create (id : string) (now : Z) (ins : InsertChatSession)
    (st : MemStorage) (userId : string) :
  map_has id (chatSessions st) = false ->
  Forall (fun s => cs_userId s = userId) (getSessionsByUserId userId st) /\
  getSessionsByUserId userId (fst (createChatSession id now ins st))
  = getSessionsByUserId userId st
    ++ (if String.eqb (is_userId ins) userId
        then [snd (createChatSession id now ins st)] else []).
Proof.
  intros Hfresh. split.
  - apply Forall_forall. intros s Hs. unfold getSessionsByUserId in Hs.
    apply filter_In in Hs. now apply String.eqb_eq.
  - unfold getSessionsByUserId, createChatSession. cbn [fst snd chatSessions].
    rewrite map_values_set_fresh by (now apply map_has_false).
    rewrite filter_app. cbn [filter cs_userId]. reflexivity.
Qed.

Lemma getSessionsByUserId_after_create_witness :
  map cs_id (getSessionsByUserId "user-456"
               (fst (createChatSession "s-2" 1700000000000
                       (mkInsertChatSession "user-456" "org-456" (Some 7%Z) None)
                       auditor_store)))
  = ["s-auditor"; "s-2"] /\
  getSessionsByUserId "user-123"
    (fst (createChatSession "s-2" 1700000000000
            (mkInsertChatSession "user-456" "org-456" (Some 7%Z) None) auditor_store))
  = [].
Proof.
  split.
  - rewrite (proj2 (getSessionsByUserId_after_create "s-2" 1700000000000
               (mkInsertChatSession "user-456" "org-456" (Some 7%Z) None)
               auditor_store "user-456" eq_refl)).
    reflexivity.
  - rewrite (proj2 (getSessionsByUserId_after_create "s-2" 1700000000000
               (mkInsertChatSession "user-456" "org-456" (Some 7%Z) None)
               auditor_store "user-123" eq_refl)).
    reflexivity.
Defined.

Lemma insert_by_timestamp_perm x l : Permutation (insert_by_timestamp x l) (x :: l).
Proof.
  induction l as [| y l IH]; simpl; [reflexivity |].
  destruct (cm_timestamp x <=? cm_timestamp y)%Z; [reflexivity |].
  rewrite IH. apply perm_swap.
Qed.

Lemma sort_by_timestamp_perm l : Permutation (sort_by_timestamp l) l.
Proof.
  induction l as [| x l IH]; simpl; [reflexivity |].
  rewrite insert_by_timestamp_perm. now constructor.
Qed.

(** X3.  Whatever the store holds, [getMessagesBySessionId] returns the
    messages stored under the session id, each exactly as often as it is
    stored, in ascending order of timestamp; no message of another session
    is listed. *)
Theorem getMessagesBySessionId_sorted_perm (sessionId : string) (st : MemStorage) :
  let listing := getMessagesBySessionId sessionId st in
  StronglySorted ts_le listing /\
  Permutation listing (persisted_under sessionId st) /\
  (forall m, In m listing <->
             In m (map_values (chatMessages st)) /\ cm_sessionId m = sessionId) /\
  length listing = length (persisted_under sessionId st).
Proof.
  cbv zeta. rewrite getMessagesBySessionId_persisted.
  split; [apply sort_by_timestamp_sorted |].
  split; [apply sort_by_timestamp_perm |]. split.
  - intros m. split.
    + intros H. apply (Permutation_in _ (sort_by_timestamp_perm _)) in H.
      unfold persisted_under in H. apply filter_In in H.
      now rewrite String.eqb_eq in H.
    + intros [H1 H2].
      apply (Permutation_in _ (Permutation_sym (sort_by_timestamp_perm _))).
      unfold persisted_under. apply filter_In. now rewrite String.eqb_eq.
  - apply length_sort_by_timestamp.
Qed.

Lemma In_map_values_set {V : Type} (k : string) (v : V) (m : JsMap V) :
  In v (map_values (map_set k v m)).
Proof.
  unfold map_values. induction m as [| [k' v'] m IH]; simpl; [auto |].
  destruct (String.eqb k' k); simpl; auto.
Qed.

Lemma In_getMessagesBySessionId (sessionId : string) (st : MemStorage) (m : ChatMessage) :
  In m (map_values (chatMessages st)) -> cm_sessionId m = sessionId ->
  In m (getMessagesBySessionId sessionId st).
Proof.
  intros H1 H2. rewrite getMessagesBySessionId_persisted.
  apply (Permutation_in _ (Permutation_sym (sort_by_timestamp_perm _))).
  unfold persisted_under. apply filter_In. now rewrite String.eqb_eq.
Qed.

Lemma createChatMessage_stored (id : string) (t_msg t_act : Z)
    (ins : InsertChatMessage) (st : MemStorage) :
  let st' := fst (createChatMessage id t_msg t_act ins st) in
  let message := snd (putChatMessage id t_msg ins st) in
  getChatMessage id st' = Some message /\
  In message (getMessagesBySessionId (im_sessionId ins) st').
Proof.
  cbv zeta. rewrite fst_createChatMessage.
  assert (Hm : chatMessages (updateSessionActivity t_act (im_sessionId ins)
                               (fst (putChatMessage id t_msg ins st)))
               = map_set id (snd (putChatMessage id t_msg ins st)) (chatMessages st)).
  { now rewrite chatMessages_updateSessionActivity. }
  split.
  - unfold getChatMessage. rewrite Hm. apply map_get_set_eq.
  - apply In_getMessagesBySessionId; [| reflexivity]. rewrite Hm. apply In_map_values_set.
Qed.

(** X4.  A message just created is the one [getChatMessage] returns for its
    id and is in the listing of its session; every other message id and
    every other session answers as before. *)
Theorem createChatMessage_lookup (id : string) (t_msg t_act : Z)
    (ins : InsertChatMessage) (st : MemStorage) :
  let st' := fst (createChatMessage id t_msg t_act ins st) in
  let message := snd (createChatMessage id t_msg t_act ins st) in
  getChatMessage id st' = Some message /\
  cm_id message = id /\ cm_timestamp message = t_msg /\
  cm_content message = im_content ins /\
  In message (getMessagesBySessionId (im_sessionId ins) st') /\
  (forall k, k <> id -> getChatMessage k st' = getChatMessage k st) /\
  (forall k, k <> im_sessionId ins -> getChatSession k st' = getChatSession k st).
Proof.
  cbv zeta. rewrite fst_createChatMessage.
  assert (Hm : chatMessages (updateSessionActivity t_act (im_sessionId ins)
                               (fst (putChatMessage id t_msg ins st)))
               = map_set id (snd (putChatMessage id t_msg ins st)) (chatMessages st)).
  { now rewrite chatMessages_updateSessionActivity. }
  change (snd (createChatMessage id t_msg t_act ins st))
    with (snd (putChatMessage id t_msg ins st)).
  split; [| split; [| split; [| split; [| split; [| split]]]]]; try reflexivity.
  - unfold getChatMessage. rewrite Hm. apply map_get_set_eq.
  - apply In_getMessagesBySessionId; [| reflexivity]. rewrite Hm. apply In_map_values_set.
  - intros k Hk. unfold getChatMessage. rewrite Hm. now apply map_get_set_ne.
  - intros k Hk. rewrite getChatSession_updateSessionActivity.
    change (getChatSession k (fst (putChatMessage id t_msg ins st)))
      with (getChatSession k st).
    destruct (getChatSession k st); [| reflexivity].
    destruct (String.eqb_spec (im_sessionId ins) k); [congruence | reflexivity].
Qed.

(** ** User contexts *)

(** X5.  [createUserContext] stores the row under the user id of the
    insert, whether or not the user already has one: afterwards
    [getUserContext] returns the new row, every other user answers as
    before, and the keys of the map are the old ones, with the user id
    added at the end only when it was not there. *)
Theorem createUserContext_lookup (id : string) (now : Z) (ins : InsertUserContext)
    (m : JsMap UserContext) :
  let m' := fst (createUserContext id now ins m) in
  let context := snd (createUserContext id now ins m) in
  getUserContext (iu_userId ins) m' = Some context /\
  uc_id context = id /\ uc_createdAt context = now /\ uc_updatedAt context = now /\
  (forall k, k <> iu_userId ins -> getUserContext k m' = getUserContext k m) /\
  map fst m' = (if map_has (iu_userId ins) m then map fst m
                else map fst m ++ [iu_userId ins]) /\
  (NoDup (map fst m) -> NoDup (map fst m')).
Proof.
  cbv zeta. unfold getUserContext, createUserContext. cbn [fst snd].
  assert (Hk : map fst (map_set (iu_userId ins)
                  (mkUserContext id (iu_userId ins) (iu_role ins) (iu_organizationId ins)
                     (iu_organizationName ins) (iu_permissions ins) (iu_dataScope ins)
                     (iu_preferences ins) now now) m)
               = if map_has (iu_userId ins) m then map fst m
                 else map fst m ++ [iu_userId ins]).
  { destruct (map_has (iu_userId ins) m) eqn:E.
    - now apply map_keys_set_present.
    - now apply map_keys_set_absent. }
  repeat split.
  - apply map_get_set_eq.
  - intros k Hne. now apply map_get_set_ne.
  - exact Hk.
  - intros Hnd. rewrite Hk. destruct (map_has (iu_userId ins) m) eqn:E; [exact Hnd |].
    apply NoDup_app; [exact Hnd | repeat constructor; simpl; tauto |].
    intros k Hin [<- | []]. apply map_has_key in Hin. congruence.
Qed.

(** X6.  [updateUserContext] throws exactly when the user has no context,
    and the message names the user id: on the empty map every update
    throws, and an update that follows [createUserContext] for the same
    user never does. *)
Theorem updateUserContext_missing (now : Z) (userId : string)
    (updates : PartialUserContext) (m : JsMap UserContext) :
  (getUserContext userId m = None <->
   updateUserContext now userId updates m
   = inl ("User context not found for userId: " ++ userId)%string) /\
  (getUserContext userId m <> None <->
   exists m' updated, updateUserContext now userId updates m = inr (m', updated)) /\
  updateUserContext now userId updates []
  = inl ("User context not found for userId: " ++ userId)%string /\
  (forall id created ins,
      iu_userId ins = userId ->
      exists m' updated,
        updateUserContext now userId updates (fst (createUserContext id created ins m))
        = inr (m', updated) /\ uc_id updated = or_existing (pu_id updates) id).
Proof.
  split; [| split; [| split; [reflexivity |]]].
  - unfold getUserContext, updateUserContext.
    destruct (map_get userId m); split; intros H; try discriminate; congruence.
  - unfold getUserContext, updateUserContext.
    destruct (map_get userId m) as [existing |]; split; intros H;
      try congruence; eauto.
    destruct H as [m' [u H]]. discriminate.
  - intros id created ins <-. unfold updateUserContext, createUserContext. cbn [fst].
    rewrite map_get_set_eq. do 2 eexists. split; reflexivity.
Qed.



(* ===================================================================== *)
(** * Further properties of authentication *)
(* ===================================================================== *)

(** X8.  Every token [generateMockToken] makes verifies, but the payload
    does not depend on the user id and role the token was made for: the
    subject is always "user-123" and the role ESG_ANALYST.  The payload
    expires 3600 seconds after the second of the first clock reading, so
    with a clock that does not run backwards its lifetime, counted from
    [iat], is at most 3600 seconds. *)
Theorem generateMockToken_verifies (env : Env) (userId r : string) (w : World) :
  exists payload,
    fst (verifyToken env (generateMockToken userId r) w) = Some payload /\
    sub payload = "user-123" /\ org_id payload = "org-456" /\ role payload = ESG_ANALYST /\
    exp payload = (Date_at env (dates_read w) / 1000 + 3600)%Z /\
    iat payload = (Date_at env (S (dates_read w)) / 1000)%Z /\
    ((Date_at env (dates_read w) <= Date_at env (S (dates_read w)))%Z ->
     (exp payload - iat payload <= 3600)%Z).
Proof.
  assert (H : startsWith (generateMockToken userId r) "Bearer " = true).
  { unfold startsWith. apply prefix_spec. eexists. unfold generateMockToken. reflexivity. }
  rewrite (verifyToken_ok env _ w H). eexists. split; [reflexivity |].
  repeat split. cbn [exp iat mockPayload]. intros Hle.
  pose proof (Z.div_le_mono _ _ 1000 ltac:(lia) Hle). lia.
Qed.

(** X9.  Whatever token verified, the payload grants exactly the three read
    permissions and access to exactly the Dubai and Abu Dhabi entities:
    [hasPermission] and [canAccessEntity] answer true for these and false
    for everything else, "write:data" and the Sharjah warehouse included. *)
Theorem verified_payload_scope (env : Env) (token : string) (w : World)
    (payload : JWTPayload) :
  fst (verifyToken env token w) = Some payload ->
  (forall p, hasPermission payload p = true <->
             p = "read:esg_data" \/ p = "read:reports" \/ p = "read:audit_logs") /\
  (forall e, canAccessEntity payload e = true <->
             e = "entity-dubai-hq" \/ e = "entity-abu-dhabi-plant") /\
  hasPermission payload "write:data" = false /\
  canAccessEntity payload "entity-sharjah-warehouse" = false.
Proof.
  intros H. destruct (startsWith token "Bearer ") eqn:E.
  - rewrite (verifyToken_ok env _ w E) in H. cbn [fst] in H. injection H as <-.
    unfold hasPermission, canAccessEntity. cbn [permissions data_scope entities mockPayload].
    split; [| split; [| split; reflexivity]].
    + intros p. cbn [existsb]. rewrite orb_false_r, !orb_true_iff, !String.eqb_eq.
      intuition congruence.
    + intros e. cbn [existsb]. rewrite orb_false_r, !orb_true_iff, !String.eqb_eq.
      intuition congruence.
  - rewrite (verifyToken_refused env _ w E) in H. discriminate.
Qed.

Lemma verified_payload_scope_witness :
  exists payload,
    fst (verifyToken demo_env analyst_token (World_new MemStorage_new)) = Some payload /\
    hasPermission payload "read:reports" = true /\
    hasPermission payload "write:data" = false.
Proof.
  eexists. split; [reflexivity |].
  destruct (verified_payload_scope demo_env analyst_token (World_new MemStorage_new) _ eq_refl)
    as [Hp [_ [Hw _]]].
  split; [| exact Hw]. apply Hp. auto.
Defined.

(* ===================================================================== *)
(** * Further properties of the routes *)
(* ===================================================================== *)

(** ** The GET handlers *)

(** X10.  GET /api/v1/copilot/sessions/:id changes nothing in the store and
    makes no generator call.  Without a verifying header it answers 401;
    with one it answers 404 when no session has the id, 403 when the
    session belongs to someone other than the verified subject, and 200
    otherwise. *)
Theorem get_session_outcomes (env : Env) (authorization : option string)
    (sessionId : string) (w : World) :
  let out := get_session env authorization sessionId w in
  storage (snd out) = storage w /\ llm_calls (snd out) = llm_calls w /\
  ws_sent (snd out) = ws_sent w /\
  get_status (fst out) =
    (if startsWith (authorization_or_empty authorization) "Bearer " then
       match getChatSession sessionId (storage w) with
       | None => 404
       | Some session => if String.eqb (cs_userId session) "user-123" then 200 else 403
       end
     else 401)%nat.
Proof.
  cbv zeta. unfold get_session.
  destruct (startsWith (authorization_or_empty authorization) "Bearer ") eqn:E.
  - rewrite (bind_eq _ _ _ _ _ (verifyToken_ok env _ w E)).
    rewrite (bind_eq _ _ _ _ _ (storage_getChatSession_eq _ _)). cbn [storage].
    destruct (getChatSession sessionId (storage w)) as [session |]; [| cbn; auto].
    cbn [sub mockPayload].
    destruct (String.eqb (cs_userId session) "user-123"); cbn; auto.
  - rewrite (bind_eq _ _ _ _ _ (verifyToken_refused env _ w E)). cbn. auto.
Qed.

(** X11.  GET /api/v1/copilot/sessions/:id hands out a session only to its
    owner: a body that carries a session view comes with status 200, the
    session is stored under the id asked for and belongs to the verified
    subject, and the view lists exactly the session's messages in ascending
    order of timestamp.  In a store where every session counts its
    messages, the count in the view is the number of messages listed. *)
Theorem get_session_discloses_own_only (env : Env) (authorization : option string)
    (sessionId : string) (w : World) (view : SessionView) :
  get_body (fst (get_session env authorization sessionId w)) = GetSession view ->
  get_status (fst (get_session env authorization sessionId w)) = 200%nat /\
  startsWith (authorization_or_empty authorization) "Bearer " = true /\
  (exists session,
      getChatSession sessionId (storage w) = Some session /\
      cs_userId session = "user-123" /\
      sv_userId view = cs_userId session /\ sv_sessionId view = cs_id session /\
      sv_messageCount view = cs_messageCount session) /\
  sv_messages view = map message_view (getMessagesBySessionId sessionId (storage w)) /\
  (counts_ok (storage w) ->
   sv_messageCount view = Z.of_nat (length (sv_messages view))).
Proof.
  unfold get_session.
  destruct (startsWith (authorization_or_empty authorization) "Bearer ") eqn:E.
  - rewrite (bind_eq _ _ _ _ _ (verifyToken_ok env _ w E)).
    rewrite (bind_eq _ _ _ _ _ (storage_getChatSession_eq _ _)). cbn [storage].
    destruct (getChatSession sessionId (storage w)) as [session |] eqn:Hs;
      [| cbn; discriminate].
    cbn [sub mockPayload].
    destruct (String.eqb_spec (cs_userId session) "user-123") as [Hown | Hown];
      [| cbn; discriminate].
    cbn. intros [= <-]. cbn.
    split; [reflexivity |]. split; [reflexivity |].
    split; [exists session; auto |]. split; [reflexivity |].
    intros Hc. rewrite length_map. unfold getChatSession in Hs.
    rewrite (Hc _ _ Hs), getMessagesBySessionId_persisted, length_sort_by_timestamp.
    reflexivity.
  - rewrite (bind_eq _ _ _ _ _ (verifyToken_refused env _ w E)). cbn. discriminate.
Qed.

Lemma get_session_discloses_own_only_witness :
  exists view,
    get_body (fst (get_session demo_env (Some analyst_token) "s-analyst"
                     (World_new analyst_store))) = GetSession view /\
    map mv_content (sv_messages view) = ["What is Scope 1?"; "Direct emissions."] /\
    get_status (fst (get_session demo_env (Some analyst_token) "s-auditor"
                       (World_new auditor_store))) = 403%nat.
Proof.
  eexists. split; [reflexivity |]. split; [| reflexivity].
  destruct (get_session_discloses_own_only demo_env (Some analyst_token) "s-analyst"
              (World_new analyst_store) _ eq_refl) as [_ [_ [_ [Hm _]]]].
  rewrite Hm. reflexivity.
Defined.

(** X12.  GET /api/v1/copilot/sessions changes nothing in the store.  With
    a verifying header it answers 200 with one summary per stored session
    of the verified subject, in the order of the map, and with none of
    anyone else's; without one it answers 401. *)
Theorem get_sessions_own_only (env : Env) (authorization : option string) (w : World) :
  let out := get_sessions env authorization w in
  storage (snd out) = storage w /\
  (startsWith (authorization_or_empty authorization) "Bearer " = false ->
   fst out = unauthorized) /\
  (startsWith (authorization_or_empty authorization) "Bearer " = true ->
   exists sessions,
     fst out = mkGetResponse 200 (GetSessions (map session_summary sessions)) /\
     sessions = filter (fun s => String.eqb (cs_userId s) "user-123")
                       (map_values (chatSessions (storage w))) /\
     forall s, In s sessions <->
               In s (map_values (chatSessions (storage w))) /\ cs_userId s = "user-123").
Proof.
  cbv zeta. unfold get_sessions.
  destruct (startsWith (authorization_or_empty authorization) "Bearer ") eqn:E.
  - rewrite (bind_eq _ _ _ _ _ (verifyToken_ok env _ w E)). cbn.
    split; [reflexivity |]. split; [discriminate |]. intros _.
    eexists. split; [reflexivity |]. split; [reflexivity |].
    intros s. unfold getSessionsByUserId. cbn [sub mockPayload storage].
    rewrite filter_In, String.eqb_eq. reflexivity.
  - rewrite (bind_eq _ _ _ _ _ (verifyToken_refused env _ w E)). cbn.
    split; [reflexivity |]. split; [reflexivity | discriminate].
Qed.

(** ** Refusals *)



(** ** What a run of a chat handler does to the store *)

Section HandlerRuns.

Variable env : Env.

Lemma run_ops_app ops1 ops2 st : run_ops (ops1 ++ ops2) st = run_ops ops2 (run_ops ops1 st).
Proof. unfold run_ops. apply fold_left_app. Qed.

Lemma storage_createChatMessage_step ins w :
  exists w',
    storage_createChatMessage env ins w
    = (snd (putChatMessage (randomUUID_at env (uuids_drawn w))
              (Date_at env (dates_read w)) ins (storage w)), w') /\
    same_wire w w' /\ uuids_drawn w' = S (uuids_drawn w) /\
    storage w' = apply_op (storage w)
                   (OpCreateMessage (randomUUID_at env (uuids_drawn w))
                      (Date_at env (dates_read w)) (Date_at env (S (dates_read w))) ins).
Proof.
  unfold storage_createChatMessage, storage_updateSessionActivity, bind. simpl.
  unfold createChatMessage, updateSessionActivity, getChatSession. simpl.
  destruct (map_get (im_sessionId ins) (chatSessions (storage w)));
    eexists; (split; [reflexivity |]); repeat split.
Qed.

Lemma storage_createChatSession_step ins w :
  exists w',
    storage_createChatSession env ins w
    = (snd (createChatSession (randomUUID_at env (uuids_drawn w))
              (Date_at env (dates_read w)) ins (storage w)), w') /\
    same_wire w w' /\ uuids_drawn w' = S (uuids_drawn w) /\
    storage w' = apply_op (storage w)
                   (OpCreateSession (randomUUID_at env (uuids_drawn w))
                      (Date_at env (dates_read w)) ins).
Proof. eexists. split; [reflexivity |]. repeat split. Qed.

(** Steps 2 to 7 of the POST handler: the user's turn is stored, the
    generator is asked once, and the reply is stored when there is one. *)
Lemma post_chat_pipeline_run usr queryRequest session w :
  let u1 := randomUUID_at env (uuids_drawn w) in
  let u2 := randomUUID_at env (S (uuids_drawn w)) in
  let op1 := OpCreateMessage u1 (Date_at env (dates_read w))
               (Date_at env (S (dates_read w)))
               (userMessage_of (cs_id session) (rq_query queryRequest)) in
  let st1 := apply_op (storage w) op1 in
  let request :=
    {| req_query := rq_query queryRequest;
       req_context := enrichContext (rq_query queryRequest)
                        (context_or_empty (rq_context queryRequest)) (role usr)
                        "Acme Sustainability Corp";
       sessionHistory :=
         map history_entry (slice_last 10 (getMessagesBySessionId (cs_id session) st1)) |} in
  let out := post_chat_pipeline env usr queryRequest session w in
  llm_calls (snd out) = llm_calls w ++ [request] /\
  ws_sent (snd out) = ws_sent w /\
  match mcpLlm env request with
  | None =>
      fst out = mkHttpResponse 500
                  (ErrorBody "INTERNAL_ERROR" "An error occurred processing your query") /\
      storage (snd out) = st1
  | Some r =>
      exists t2 t2',
        storage (snd out)
        = apply_op st1 (OpCreateMessage u2 t2 t2'
                          (assistantMessage_of (cs_id session) (text r) r)) /\
        fst out = mkHttpResponse 200 (ChatBody
          {| cr_sessionId := cs_id session;
             cr_messageId := u2;
             cr_response :=
               {| rb_text := text r; rb_confidence := confidence r; rb_intent := intent r;
                  rb_dataSources := dataSources r;
                  rb_suggestedPrompts := suggestedPrompts r; rb_actions := [] |};
             cr_metadata :=
               {| tokensUsed := Some (Z.of_nat (String.length (text r) / 4));
                  latencyMs := Some 1250%Z; cached := Some false |};
             cr_timestamp := t2 |})
  end.
Proof.
  cbv zeta.
  destruct (storage_createChatMessage_step
              (userMessage_of (cs_id session) (rq_query queryRequest)) w)
    as [w1 [E1 [[S1 [_ L1]] [U1 St1]]]].
  remember (post_chat_pipeline env usr queryRequest session w) as out eqn:Eout.
  unfold post_chat_pipeline in Eout.
  rewrite (bind_eq _ _ _ _ _ E1) in Eout.
  unfold bind at 1, storage_getMessagesBySessionId at 1 in Eout.
  unfold bind at 1, getStorage at 1, ret at 1 in Eout.
  unfold bind at 1, callMcpLlm at 1 in Eout.
  rewrite St1 in Eout.
  destruct (mcpLlm env _) as [r |] in Eout |- *.
  - unfold formatResponse in Eout.
    match type of Eout with
    | out = bind _ _ ?w2 =>
        destruct (storage_createChatMessage_step
                    (assistantMessage_of (cs_id session) (text r) r) w2)
          as [w3 [E3 [[S3 [_ L3]] [U3 St3]]]]
    end.
    rewrite (bind_eq _ _ _ _ _ E3) in Eout. subst out. cbn.
    rewrite L3, S3. cbn. rewrite L1, S1. split; [reflexivity |]. split; [reflexivity |].
    do 2 eexists. split.
    + rewrite St3. cbn [storage uuids_drawn]. rewrite U1. reflexivity.
    + cbn. rewrite U1. reflexivity.
  - subst out. cbn. rewrite L1, S1. auto.
Qed.

End HandlerRuns.

Section PostChat.

Variable env : Env.

(** Past authentication and validation, the POST handler either answers
    404 at once or runs the pipeline on a session it found or created. *)
Lemma post_chat_cases authorization body w :
  startsWith (authorization_or_empty authorization) "Bearer " = true ->
  query_length_ok (rq_query body) = true ->
  let usr := mockPayload (Date_at env (dates_read w)) (Date_at env (S (dates_read w))) in
  let out := post_chat env authorization body w in
  (fst out = session_not_found /\ storage (snd out) = storage w /\
   llm_calls (snd out) = llm_calls w /\
   exists sid, rq_sessionId body = Some sid /\ truthy sid = true /\
     match getChatSession sid (storage w) with
     | None => True
     | Some session => cs_userId session <> "user-123"
     end)
  \/
  (exists queryRequest session w_p pre,
      out = post_chat_pipeline env usr queryRequest session w_p /\
      rq_query queryRequest = rq_query body /\
      storage w_p = run_ops pre (storage w) /\
      uuids_drawn w_p = (uuids_drawn w + length pre)%nat /\
      llm_calls w_p = llm_calls w /\ ws_sent w_p = ws_sent w /\
      ((pre = [] /\
        exists sid, rq_sessionId body = Some sid /\ truthy sid = true /\
                    getChatSession sid (storage w) = Some session /\
                    cs_userId session = "user-123")
       \/
       (exists t,
          pre = [OpCreateSession (randomUUID_at env (uuids_drawn w)) t
                   (new_session_row usr (rq_context queryRequest))] /\
          cs_id session = randomUUID_at env (uuids_drawn w) /\
          match rq_sessionId body with
          | Some sid => truthy sid = false
          | None => True
          end))).
Proof.
  intros Hauth Hq. cbv zeta. unfold post_chat.
  rewrite (bind_eq _ _ _ _ _ (verifyToken_ok env _ w Hauth)).
  set (usr := mockPayload _ _). set (w0 := mkWorld _ _ _ _ _ _).
  destruct (chatQueryRequestSchema_safeParse body) as [queryRequest |] eqn:P.
  2:{ unfold chatQueryRequestSchema_safeParse in P. rewrite Hq in P. discriminate. }
  destruct (safeParse_keeps _ _ P) as [_ [Hk Hkq]]. rewrite Hk.
  destruct (storage_createChatSession_step env
              (new_session_row usr (rq_context queryRequest)) w0)
    as [w1 [E1 [[S1 [_ L1]] [U1 St1]]]].
  assert (Hcreate :
    exists session w_p pre,
      bind (storage_createChatSession env
              {| is_userId := sub usr; is_organizationId := org_id usr;
                 is_messageCount := None;
                 is_context := Some (context_or_empty (rq_context queryRequest)) |})
           (fun session => post_chat_pipeline env usr queryRequest session) w0
      = post_chat_pipeline env usr queryRequest session w_p /\
      storage w_p = run_ops pre (storage w) /\
      uuids_drawn w_p = (uuids_drawn w + length pre)%nat /\
      llm_calls w_p = llm_calls w /\ ws_sent w_p = ws_sent w /\
      exists t,
        pre = [OpCreateSession (randomUUID_at env (uuids_drawn w)) t
                 (new_session_row usr (rq_context queryRequest))] /\
        cs_id session = randomUUID_at env (uuids_drawn w)).
  { exists (snd (createChatSession (randomUUID_at env (uuids_drawn w))
                   (Date_at env (S (S (dates_read w))))
                   (new_session_row usr (rq_context queryRequest)) (storage w))),
           w1,
           [OpCreateSession (randomUUID_at env (uuids_drawn w))
              (Date_at env (S (S (dates_read w))))
              (new_session_row usr (rq_context queryRequest))].
    split.
    - change {| is_userId := sub usr; is_organizationId := org_id usr;
                is_messageCount := None;
                is_context := Some (context_or_empty (rq_context queryRequest)) |}
        with (new_session_row usr (rq_context queryRequest)).
      rewrite (bind_eq _ _ _ _ _ E1). reflexivity.
    - rewrite St1, U1, L1, S1. subst w0. cbn.
      split; [reflexivity |]. split; [lia |]. split; [reflexivity |].
      split; [reflexivity |]. eexists. split; reflexivity. }
  destruct (rq_sessionId body) as [sid |] eqn:Hsid; [destruct (truthy sid) eqn:Htr |].
  - rewrite (bind_eq _ _ _ _ _ (storage_getChatSession_eq _ _)).
    subst w0. cbn [storage].
    destruct (getChatSession sid (storage w)) as [session |] eqn:Hs.
    + cbn [sub]. subst usr. cbn [sub mockPayload].
      destruct (String.eqb_spec (cs_userId session) "user-123") as [Hown | Hown]; cbn [negb].
      * right. exists queryRequest, session. eexists. exists [].
        split; [reflexivity |]. cbn. rewrite Nat.add_0_r.
        split; [exact Hkq |]. repeat split.
        left. split; [reflexivity |]. exists sid. rewrite Hs. auto.
      * left. cbn. repeat split. exists sid. rewrite Hs. auto.
    + left. cbn. repeat split. exists sid. rewrite Hs. auto.
  - right. destruct Hcreate as [session [w_p [pre [E [A [B [C [D [t [F G]]]]]]]]]].
    exists queryRequest, session, w_p, pre. rewrite E.
    split; [reflexivity |]. split; [exact Hkq |]. repeat split; try assumption.
    right. exists t. auto.
  - right. destruct Hcreate as [session [w_p [pre [E [A [B [C [D [t [F G]]]]]]]]]].
    exists queryRequest, session, w_p, pre. rewrite E.
    split; [reflexivity |]. split; [exact Hkq |]. repeat split; try assumption.
    right. exists t. auto.
Qed.


End PostChat.


Section PostChatFacts.

Variable env : Env.

Lemma post_chat_unauthorized authorization body w :
  startsWith (authorization_or_empty authorization) "Bearer " = false ->
  post_chat env authorization body w
  = (mkHttpResponse 401 (ErrorBody "UNAUTHORIZED" "Invalid or expired authentication token"),
     w).
Proof.
  intros H. unfold post_chat.
  now rewrite (bind_eq _ _ _ _ _ (verifyToken_refused env _ w H)).
Qed.

Lemma post_chat_invalid authorization body w :
  startsWith (authorization_or_empty authorization) "Bearer " = true ->
  query_length_ok (rq_query body) = false ->
  fst (post_chat env authorization body w)
  = mkHttpResponse 400 (ErrorBody "INVALID_QUERY" "Invalid request format") /\
  storage (snd (post_chat env authorization body w)) = storage w /\
  llm_calls (snd (post_chat env authorization body w)) = llm_calls w.
Proof.
  intros H Hq. unfold post_chat.
  rewrite (bind_eq _ _ _ _ _ (verifyToken_ok env _ w H)).
  unfold chatQueryRequestSchema_safeParse. rewrite Hq. cbn. auto.
Qed.


(** X15.  When POST /api/v1/copilot/chat answers 200, the message id in the
    body is the id of a stored assistant message of the session named in
    the body: its content, intent, metadata and timestamp are those of the
    body, it is in the listing of that session, and exactly one generator
    call was made, for the query of the body and with the role of the
    verified subject in the context. *)
Theorem post_chat_success (authorization : option string) (body : ChatQueryRequest)
    (w : World) (r : ChatResponse) :
  fst (post_chat env authorization body w) = mkHttpResponse 200 (ChatBody r) ->
  let w' := snd (post_chat env authorization body w) in
  (exists m,
      getChatMessage (cr_messageId r) (storage w') = Some m /\
      cm_id m = cr_messageId r /\ cm_sessionId m = cr_sessionId r /\
      cm_role m = assistant /\ cm_content m = rb_text (cr_response r) /\
      cm_intent m = Some (rb_intent (cr_response r)) /\
      cm_suggestedPrompts m = Some (rb_suggestedPrompts (cr_response r)) /\
      cm_metadata m = Some (cr_metadata r) /\
      cm_timestamp m = cr_timestamp r /\
      In m (getMessagesBySessionId (cr_sessionId r) (storage w'))) /\
  (exists request,
      llm_calls w' = llm_calls w ++ [request] /\
      req_query request = rq_query body /\
      userRole (req_context request) = Some ESG_ANALYST).
Proof.
  intros Hok. cbv zeta.
  destruct (startsWith (authorization_or_empty authorization) "Bearer ") eqn:Hauth.
  2:{ rewrite (post_chat_unauthorized _ body w Hauth) in Hok. discriminate. }
  destruct (query_length_ok (rq_query body)) eqn:Hq.
  2:{ destruct (post_chat_invalid _ _ w Hauth Hq) as [E _]. rewrite E in Hok. discriminate. }
  destruct (post_chat_cases env authorization body w Hauth Hq)
    as [[E _] | [qr [session [w_p [pre [E [Hkq [_ [_ [L _]]]]]]]]]].
  { rewrite E in Hok. discriminate. }
  rewrite E in Hok |- *.
  destruct (post_chat_pipeline_run env
              (mockPayload (Date_at env (dates_read w)) (Date_at env (S (dates_read w))))
              qr session w_p) as [Hl [_ H]].
  cbv zeta in Hl, H.
  destruct (mcpLlm env _) as [r0 |].
  2:{ destruct H as [H _]. rewrite H in Hok. discriminate. }
  destruct H as [t2 [t2' [Hst Hfst]]]. rewrite Hfst in Hok. injection Hok as <-.
  split.
  - rewrite Hst. cbn [cr_messageId cr_sessionId cr_response cr_metadata cr_timestamp
                      rb_text rb_intent rb_suggestedPrompts].
    match goal with
    | |- context [apply_op (apply_op ?s ?o1) (OpCreateMessage ?u ?a ?b ?ins)] =>
        destruct (createChatMessage_stored u a b ins (apply_op s o1)) as [G1 G2];
        exists (snd (putChatMessage u a ins (apply_op s o1)))
    end.
    split; [exact G1 |]. do 8 (split; [reflexivity |]). exact G2.
  - eexists. split; [rewrite Hl, L; reflexivity |]. cbn. auto.
Qed.


(** X16.  When the generator throws on every request, POST
    /api/v1/copilot/chat never answers 200; when it answers 500, the store
    is the one before the request with at most a new session and then the
    user's turn added, that turn is retrievable by its id, and no assistant
    turn was stored. *)
Theorem post_chat_generator_failure (authorization : option string)
    (body : ChatQueryRequest) (w : World) :
  (forall request, mcpLlm env request = None) ->
  let out := post_chat env authorization body w in
  status (fst out) <> 200%nat /\
  (status (fst out) = 500%nat ->
   exists pre u t t' sessionId m,
     storage (snd out)
     = run_ops (pre ++ [OpCreateMessage u t t' (userMessage_of sessionId (rq_query body))])
               (storage w) /\
     (pre = [] \/ exists id now row, pre = [OpCreateSession id now row]) /\
     getChatMessage u (storage (snd out)) = Some m /\
     cm_role m = user /\ cm_content m = rq_query body /\ cm_sessionId m = sessionId).
Proof.
  intros Hfail. cbv zeta.
  destruct (startsWith (authorization_or_empty authorization) "Bearer ") eqn:Hauth.
  2:{ rewrite (post_chat_unauthorized _ body w Hauth). cbn. split; discriminate. }
  destruct (query_length_ok (rq_query body)) eqn:Hq.
  2:{ destruct (post_chat_invalid _ _ w Hauth Hq) as [E _]. rewrite E. cbn.
      split; discriminate. }
  destruct (post_chat_cases env authorization body w Hauth Hq)
    as [[E _] | [qr [session [w_p [pre [E [Hkq [Hst [_ [_ [_ Hpre]]]]]]]]]]].
  { rewrite E. cbn. split; discriminate. }
  rewrite E.
  destruct (post_chat_pipeline_run env
              (mockPayload (Date_at env (dates_read w)) (Date_at env (S (dates_read w))))
              qr session w_p) as [_ [_ H]].
  cbv zeta in H. rewrite Hfail in H. destruct H as [Hfst Hs]. rewrite Hfst, Hs. cbn [status fst].
  split; [discriminate |]. intros _.
  destruct (createChatMessage_stored (randomUUID_at env (uuids_drawn w_p))
              (Date_at env (dates_read w_p)) (Date_at env (S (dates_read w_p)))
              (userMessage_of (cs_id session) (rq_query qr)) (storage w_p)) as [G1 _].
  exists pre, (randomUUID_at env (uuids_drawn w_p)), (Date_at env (dates_read w_p)),
         (Date_at env (S (dates_read w_p))), (cs_id session),
         (snd (putChatMessage (randomUUID_at env (uuids_drawn w_p))
                 (Date_at env (dates_read w_p))
                 (userMessage_of (cs_id session) (rq_query qr)) (storage w_p))).
  split; [rewrite run_ops_app, <- Hst, <- Hkq; reflexivity |].
  split; [destruct Hpre as [[-> _] | [t [-> _]]]; [now left | right; eauto] |].
  split; [exact G1 |]. cbn. rewrite Hkq. auto.
Qed.


End PostChatFacts.

Lemma post_chat_success_witness :
  exists r m,
    fst (post_chat demo_env (Some analyst_token)
           (mkChatQueryRequest None "hi" None None) (World_new MemStorage_new))
    = mkHttpResponse 200 (ChatBody r) /\
    getChatMessage (cr_messageId r)
      (storage (snd (post_chat demo_env (Some analyst_token)
                       (mkChatQueryRequest None "hi" None None)
                       (World_new MemStorage_new)))) = Some m /\
    cm_content m = "hello world".
Proof.
  assert (H : exists r,
             fst (post_chat demo_env (Some analyst_token)
                    (mkChatQueryRequest None "hi" None None) (World_new MemStorage_new))
             = mkHttpResponse 200 (ChatBody r) /\ rb_text (cr_response r) = "hello world").
  { vm_compute. eexists. split; reflexivity. }
  destruct H as [r [H Ht]].
  destruct (post_chat_success demo_env (Some analyst_token)
              (mkChatQueryRequest None "hi" None None) (World_new MemStorage_new) r H)
    as [[m [H1 [_ [_ [_ [H5 _]]]]]] _].
  exists r, m. split; [exact H |]. split; [exact H1 |]. now rewrite H5.
Defined.

Lemma post_chat_generator_failure_witness :
  status (fst (post_chat failing_env (Some analyst_token)
                 (mkChatQueryRequest None "hi" None None) (World_new MemStorage_new)))
  = 500%nat /\
  map cm_content
    (map_values (chatMessages
       (storage (snd (post_chat failing_env (Some analyst_token)
                        (mkChatQueryRequest None "hi" None None)
                        (World_new MemStorage_new)))))) = ["hi"].
Proof.
  pose proof (post_chat_generator_failure failing_env (Some analyst_token)
                (mkChatQueryRequest None "hi" None None) (World_new MemStorage_new)
                (fun _ => eq_refl)) as [_ H].
  split; reflexivity.
Defined.

(** ** The count of messages under the chat handlers *)

Lemma fresh_message_id_apply_op u st op :
  fresh_message_id u st = true ->
  match op with
  | OpCreateMessage id _ _ _ => id <> u
  | OpCreateSession _ _ _ => True
  end ->
  fresh_message_id u (apply_op st op) = true.
Proof.
  unfold fresh_message_id, map_has. intros H Hne.
  destruct op as [id now ins | id t_msg t_act ins].
  - exact H.
  - cbn [apply_op]. rewrite fst_createChatMessage, chatMessages_updateSessionActivity.
    cbn [putChatMessage fst chatMessages]. rewrite map_get_set_ne by congruence. exact H.
Qed.

Lemma uuids_unused_3 env w st :
  uuids_unused (next_uuids env w 3) st = true ->
  let u := randomUUID_at env in
  let n := uuids_drawn w in
  u n <> u (S n) /\ u n <> u (S (S n)) /\ u (S n) <> u (S (S n)) /\
  fresh_session_id (u n) st = true /\
  fresh_message_id (u n) st = true /\ fresh_message_id (u (S n)) st = true /\
  fresh_message_id (u (S (S n))) st = true.
Proof.
  unfold uuids_unused, next_uuids. cbn [seq map distinct existsb forallb].
  rewrite Nat.add_0_r, Nat.add_1_r. replace (uuids_drawn w + 2)%nat with (S (S (uuids_drawn w))) by lia.
  rewrite !andb_true_iff, !negb_true_iff, !orb_false_iff, !String.eqb_neq.
  cbv zeta. tauto.
Qed.

Section Counts.

Variable env : Env.

Lemma post_chat_pipeline_counts usr queryRequest session w :
  counts_ok (storage w) ->
  fresh_message_id (randomUUID_at env (uuids_drawn w)) (storage w) = true ->
  fresh_message_id (randomUUID_at env (S (uuids_drawn w))) (storage w) = true ->
  randomUUID_at env (uuids_drawn w) <> randomUUID_at env (S (uuids_drawn w)) ->
  counts_ok (storage (snd (post_chat_pipeline env usr queryRequest session w))).
Proof.
  intros Hc Ha Hb Hab.
  destruct (post_chat_pipeline_run env usr queryRequest session w) as [_ [_ H]].
  cbv zeta in H.
  assert (Hc1 : counts_ok (apply_op (storage w)
                  (OpCreateMessage (randomUUID_at env (uuids_drawn w))
                     (Date_at env (dates_read w)) (Date_at env (S (dates_read w)))
                     (userMessage_of (cs_id session) (rq_query queryRequest))))).
  { apply counts_ok_apply_op; [exact Hc | exact Ha]. }
  destruct (mcpLlm env _) as [r |].
  - destruct H as [t2 [t2' [Hst _]]]. rewrite Hst.
    apply counts_ok_apply_op; [exact Hc1 |]. cbn [op_fresh].
    now apply fresh_message_id_apply_op.
  - destruct H as [_ Hst]. now rewrite Hst.
Qed.

(** X17.  POST /api/v1/copilot/chat keeps the count of messages right: if
    every session of the store counts the messages stored under its id, and
    the next three identifiers [randomUUID()] returns are distinct and not
    in use, the same holds of the store the handler leaves, whatever the
    request and whatever the generator answers. *)
Theorem post_chat_keeps_counts (authorization : option string)
    (body : ChatQueryRequest) (w : World) :
  counts_ok (storage w) ->
  uuids_unused (next_uuids env w 3) (storage w) = true ->
  counts_ok (storage (snd (post_chat env authorization body w))).
Proof.
  intros Hc Hu.
  destruct (uuids_unused_3 env w _ Hu) as [H01 [H02 [H12 [Hs0 [Hm0 [Hm1 Hm2]]]]]].
  destruct (startsWith (authorization_or_empty authorization) "Bearer ") eqn:Hauth.
  2:{ now rewrite (post_chat_unauthorized env _ body w Hauth). }
  destruct (query_length_ok (rq_query body)) eqn:Hq.
  2:{ destruct (post_chat_invalid env _ _ w Hauth Hq) as [_ [S _]]. now rewrite S. }
  destruct (post_chat_cases env authorization body w Hauth Hq)
    as [[_ [S _]] | [qr [session [w_p [pre [E [_ [Hst [Hn [_ [_ Hpre]]]]]]]]]]].
  { now rewrite S. }
  rewrite E. apply post_chat_pipeline_counts; rewrite ?Hst, ?Hn.
  - destruct Hpre as [[-> _] | [t [-> _]]]; [exact Hc |].
    apply counts_ok_apply_op; [exact Hc | exact Hs0].
  - destruct Hpre as [[-> _] | [t [-> _]]]; cbn [length run_ops fold_left].
    + now rewrite Nat.add_0_r.
    + rewrite Nat.add_1_r. now apply fresh_message_id_apply_op.
  - destruct Hpre as [[-> _] | [t [-> _]]]; cbn [length run_ops fold_left].
    + now rewrite Nat.add_0_r.
    + rewrite Nat.add_1_r. now apply fresh_message_id_apply_op.
  - destruct Hpre as [[-> _] | [t [-> _]]]; cbn [length].
    + now rewrite Nat.add_0_r.
    + now rewrite Nat.add_1_r.
Qed.

End Counts.

Lemma post_chat_keeps_counts_witness :
  counts_ok (storage (snd (post_chat demo_env (Some analyst_token)
                             (mkChatQueryRequest (Some "s-analyst") "And Scope 2?" None None)
                             (World_new analyst_store)))).
Proof.
  apply post_chat_keeps_counts.
  - apply (counts_ok_run _ _ counts_ok_new). reflexivity.
  - reflexivity.
Defined.

Section WsRuns.

Variable env : Env.

(** Resolving the session on the /ws path: the session found, or one
    created with the next identifier; [k] is the rest of the handler. *)
Lemma ws_resolve_step {B : Type} (message : WsMessage) (usr : JWTPayload)
    (k : ChatSession -> M B) w :
  exists session w' pre,
    bind (match ws_sessionId message with
          | Some sid => if truthy sid then storage_getChatSession sid else ret None
          | None => ret None
          end)
         (fun found =>
            bind (match found with
                  | Some s => ret s
                  | None =>
                      storage_createChatSession env
                        {| is_userId := sub usr; is_organizationId := org_id usr;
                           is_messageCount := None;
                           is_context := Some (context_or_empty (ws_context message)) |}
                  end) k) w = k session w' /\
    same_wire w w' /\
    storage w' = run_ops pre (storage w) /\
    uuids_drawn w' = (uuids_drawn w + length pre)%nat /\
    ((pre = [] /\ exists sid, ws_sessionId message = Some sid /\ truthy sid = true /\
                              getChatSession sid (storage w) = Some session)
     \/
     (exists t, pre = [OpCreateSession (randomUUID_at env (uuids_drawn w)) t
                         (new_session_row usr (ws_context message))] /\
                cs_id session = randomUUID_at env (uuids_drawn w) /\
                cs_userId session = sub usr)).
Proof.
  destruct (storage_createChatSession_step env
              (new_session_row usr (ws_context message)) w)
    as [w0 [E0 [H0 [U0 St0]]]].
  change (new_session_row usr (ws_context message))
    with {| is_userId := sub usr; is_organizationId := org_id usr;
            is_messageCount := None;
            is_context := Some (context_or_empty (ws_context message)) |} in E0.
  assert (Hcreated :
    exists session w' pre,
      bind (storage_createChatSession env
              {| is_userId := sub usr; is_organizationId := org_id usr;
                 is_messageCount := None;
                 is_context := Some (context_or_empty (ws_context message)) |}) k w
      = k session w' /\
      same_wire w w' /\ storage w' = run_ops pre (storage w) /\
      uuids_drawn w' = (uuids_drawn w + length pre)%nat /\
      exists t, pre = [OpCreateSession (randomUUID_at env (uuids_drawn w)) t
                         (new_session_row usr (ws_context message))] /\
                cs_id session = randomUUID_at env (uuids_drawn w) /\
                cs_userId session = sub usr).
  { do 2 eexists. exists [OpCreateSession (randomUUID_at env (uuids_drawn w))
                            (Date_at env (dates_read w))
                            (new_session_row usr (ws_context message))].
    split; [rewrite (bind_eq _ _ _ _ _ E0); reflexivity |].
    split; [exact H0 |]. split; [exact St0 |]. split; [rewrite U0; cbn; lia |].
    eexists. repeat split. }
  unfold bind at 1.
  destruct (ws_sessionId message) as [sid |] eqn:Hsid; [destruct (truthy sid) eqn:Htr |].
  - rewrite storage_getChatSession_eq.
    destruct (getChatSession sid (storage w)) as [s |] eqn:Hs.
    + exists s, w, []. split; [reflexivity |]. split; [apply same_wire_refl |].
      split; [reflexivity |]. split; [cbn; lia |]. left. split; [reflexivity |].
      exists sid. auto.
    + destruct Hcreated as [s [w' [pre [A [Bw [C [D F]]]]]]]. exists s, w', pre. auto 10.
  - unfold ret at 1.
    destruct Hcreated as [s [w' [pre [A [Bw [C [D F]]]]]]]. exists s, w', pre. auto 10.
  - unfold ret at 1.
    destruct Hcreated as [s [w' [pre [A [Bw [C [D F]]]]]]]. exists s, w', pre. auto 10.
Qed.

(** A [chat_query] whose token verifies: the session is resolved, the
    user's turn is stored, the generator is asked once, and the reply is
    stored when there is one. *)
Lemma ws_on_message_run (message : WsMessage) (w : World) :
  ws_type message = "chat_query" ->
  startsWith (ws_bearer message) "Bearer " = true ->
  let usr := mockPayload (Date_at env (dates_read w)) (Date_at env (S (dates_read w))) in
  let out := snd (ws_on_message env message w) in
  exists session pre t1 t1',
    let n := (uuids_drawn w + length pre)%nat in
    let op1 := OpCreateMessage (randomUUID_at env n) t1 t1'
                 (userMessage_of (cs_id session) (ws_query message)) in
    ((pre = [] /\ exists sid, ws_sessionId message = Some sid /\ truthy sid = true /\
                              getChatSession sid (storage w) = Some session)
     \/
     (exists t, pre = [OpCreateSession (randomUUID_at env (uuids_drawn w)) t
                         (new_session_row usr (ws_context message))] /\
                cs_id session = randomUUID_at env (uuids_drawn w) /\
                cs_userId session = sub usr)) /\
    llm_calls out = llm_calls w ++ [ws_llm_request message ESG_ANALYST] /\
    match mcpLlm env (ws_llm_request message ESG_ANALYST) with
    | None =>
        storage out = run_ops (pre ++ [op1]) (storage w) /\
        ws_sent out = ws_sent w ++ [EnvTyping (ws_sessionId message);
                                    EnvError "INTERNAL_ERROR" "An error occurred"]
    | Some r =>
        exists t2 t2',
          storage out
          = run_ops (pre ++ [op1; OpCreateMessage (randomUUID_at env (S n)) t2 t2'
                                    (assistantMessage_of (cs_id session) (text r) r)])
                    (storage w)
    end.
Proof.
  intros Htype Htok. cbv zeta.
  remember (ws_on_message env message w) as out eqn:Eout.
  unfold ws_on_message in Eout. rewrite Htype in Eout.
  cbn [String.eqb Ascii.eqb Bool.eqb] in Eout.
  rewrite (bind_eq _ _ _ _ _ (verifyToken_ok env _ w Htok)) in Eout.
  set (w1 := mkWorld _ _ _ _ _ _) in Eout.
  unfold bind at 1, ws_send at 1 in Eout.
  set (w2 := mkWorld _ _ _ _ _ _) in Eout.
  set (usr := mockPayload _ _) in *.
  match type of Eout with
  | context [bind _ (fun found => bind _ ?k) w2] =>
      destruct (ws_resolve_step message usr k w2)
        as [session [w3 [pre [E3 [[S3 [R3 L3]] [St3 [U3 Hpre]]]]]]]
  end.
  rewrite E3 in Eout. clear E3.
  destruct (storage_createChatMessage_step env
              (userMessage_of (cs_id session) (ws_query message)) w3)
    as [w4 [E4 [[S4 [R4 L4]] [U4 St4]]]].
  rewrite (bind_eq _ _ _ _ _ E4) in Eout.
  unfold bind at 1, callMcpLlm at 1 in Eout.
  change (role usr) with ESG_ANALYST in Eout.
  fold (ws_llm_request message ESG_ANALYST) in Eout.
  exists session, pre, (Date_at env (dates_read w3)), (Date_at env (S (dates_read w3))).
  split; [exact Hpre |].
  assert (Hst4 : storage w4
                 = run_ops (pre ++ [OpCreateMessage
                                      (randomUUID_at env (uuids_drawn w + length pre))
                                      (Date_at env (dates_read w3))
                                      (Date_at env (S (dates_read w3)))
                                      (userMessage_of (cs_id session) (ws_query message))])
                           (storage w)).
  { rewrite run_ops_app, St4, St3, U3. reflexivity. }
  destruct (mcpLlm env (ws_llm_request message ESG_ANALYST)) as [r |].
  - set (w5 := mkWorld _ _ _ _ _ _) in Eout.
    unfold formatResponse in Eout.
    rewrite (bind_eq _ _ _ _ _ (ws_stream_spec env (cs_id session) _ w5)) in Eout.
    set (w6 := mkWorld _ _ _ _ _ _) in Eout.
    destruct (storage_createChatMessage_step env
                (assistantMessage_of (cs_id session) (text r) r) w6)
      as [w7 [E7 [[S7 [R7 L7]] [U7 St7]]]].
    rewrite (bind_eq _ _ _ _ _ E7) in Eout.
    unfold bind at 1, ws_readyState_open at 1 in Eout.
    assert (Hl : llm_calls w7 = llm_calls w ++ [ws_llm_request message ESG_ANALYST]).
    { rewrite L7. subst w6 w5. cbn. rewrite L4, L3. reflexivity. }
    assert (Hs7 : storage w7
                  = run_ops (pre ++ [OpCreateMessage
                                       (randomUUID_at env (uuids_drawn w + length pre))
                                       (Date_at env (dates_read w3))
                                       (Date_at env (S (dates_read w3)))
                                       (userMessage_of (cs_id session) (ws_query message));
                                     OpCreateMessage
                                       (randomUUID_at env (S (uuids_drawn w + length pre)))
                                       (Date_at env (dates_read w6))
                                       (Date_at env (S (dates_read w6)))
                                       (assistantMessage_of (cs_id session) (text r) r)])
                            (storage w)).
    { rewrite St7. subst w6 w5. cbn [storage uuids_drawn].
      rewrite Hst4, U4, U3. rewrite !run_ops_app. reflexivity. }
    destruct (ws_open_at env _); subst out; cbn; (split; [exact Hl |]);
      do 2 eexists; exact Hs7.
  - subst out. cbn. rewrite L4, L3, S4, S3. subst w2 w1. cbn.
    split; [reflexivity |]. split; [exact Hst4 |]. now rewrite <- app_assoc.
Qed.

End WsRuns.

Lemma ops_fresh_app_l ops1 : forall st ops2,
  ops_fresh st (ops1 ++ ops2) = true -> ops_fresh st ops1 = true.
Proof.
  induction ops1 as [| op ops1 IH]; intros st ops2; cbn [app ops_fresh]; [reflexivity |].
  rewrite !andb_true_iff. intros [A B]. split; [exact A | now apply (IH _ ops2)].
Qed.

Lemma kept_none (open_at : nat -> bool) tokens : forall k,
  (forall i, open_at i = false) -> kept open_at k tokens = [].
Proof.
  induction tokens as [| t rest IH]; intros k H; simpl; [reflexivity |].
  now rewrite H, IH.
Qed.

Section WsFacts.

Variable env : Env.

Lemma ws_on_message_unverified_storage message w :
  startsWith (ws_bearer message) "Bearer " = false ->
  storage (snd (ws_on_message env message w)) = storage w.
Proof.
  intros Hb. unfold ws_on_message.
  destruct (String.eqb (ws_type message) "chat_query"); [| reflexivity].
  now rewrite (bind_eq _ _ _ _ _ (verifyToken_refused env _ w Hb)).
Qed.

(** X18.  The /ws listener keeps the count of messages right: if every
    session of the store counts the messages stored under its id, and the
    next three identifiers [randomUUID()] returns are distinct and not in
    use, the same holds of the store the listener leaves, whatever the
    frame, the generator's answer and the state of the socket. *)
Theorem ws_on_message_keeps_counts (message : WsMessage) (w : World) :
  counts_ok (storage w) ->
  uuids_unused (next_uuids env w 3) (storage w) = true ->
  counts_ok (storage (snd (ws_on_message env message w))).
Proof.
  intros Hc Hu.
  destruct (uuids_unused_3 env w _ Hu) as [H01 [H02 [H12 [Hs0 [Hm0 [Hm1 Hm2]]]]]].
  destruct (String.eqb_spec (ws_type message) "chat_query") as [Htype | Htype].
  2:{ unfold ws_on_message. apply String.eqb_neq in Htype. now rewrite Htype. }
  destruct (startsWith (ws_bearer message) "Bearer ") eqn:Htok.
  2:{ now rewrite (ws_on_message_unverified_storage _ _ Htok). }
  destruct (ws_on_message_run env message w Htype Htok)
    as [session [pre [t1 [t1' [Hpre [_ H]]]]]].
  cbv zeta in H.
  assert (Hfresh : forall op2,
            match op2 with
            | OpCreateMessage id _ _ _ =>
                id = randomUUID_at env (S (uuids_drawn w + length pre))
            | OpCreateSession _ _ _ => False
            end ->
            ops_fresh (storage w)
              (pre ++ [OpCreateMessage (randomUUID_at env (uuids_drawn w + length pre))
                         t1 t1' (userMessage_of (cs_id session) (ws_query message)); op2])
            = true).
  { intros [id now ins | id a b ins] Hid; [contradiction |]. subst id.
    destruct Hpre as [[-> _] | [t [-> _]]]; cbn [app length ops_fresh op_fresh].
    - rewrite Nat.add_0_r, Hm0. cbn [andb].
      rewrite fresh_message_id_apply_op by assumption. reflexivity.
    - rewrite Nat.add_1_r, Hs0. cbn [andb].
      rewrite fresh_message_id_apply_op by (cbn; auto). cbn [andb].
      rewrite fresh_message_id_apply_op; [reflexivity | | assumption].
      now apply fresh_message_id_apply_op. }
  destruct (mcpLlm env _) as [r |].
  - destruct H as [t2 [t2' Hst]]. rewrite Hst.
    apply counts_ok_run; [exact Hc |]. now apply Hfresh.
  - destruct H as [Hst _]. rewrite Hst.
    apply counts_ok_run; [exact Hc |].
    specialize (Hfresh (OpCreateMessage (randomUUID_at env (S (uuids_drawn w + length pre)))
                          0%Z 0%Z (userMessage_of "" "")) eq_refl).
    apply (ops_fresh_app_l _ _ [OpCreateMessage
                                  (randomUUID_at env (S (uuids_drawn w + length pre)))
                                  0%Z 0%Z (userMessage_of "" "")]).
    rewrite <- app_assoc. exact Hfresh.
Qed.

(** X19.  When the generator throws, a [chat_query] whose token verifies
    gets [typing] and then one [error] envelope with code INTERNAL_ERROR:
    no [token] and no [complete] is sent.  The user's turn stays stored and
    is retrievable by its id; the store changes by at most a new session
    and that one message. *)
Theorem ws_generator_failure (message : WsMessage) (w : World) :
  ws_type message = "chat_query" ->
  startsWith (ws_bearer message) "Bearer " = true ->
  mcpLlm env (ws_llm_request message ESG_ANALYST) = None ->
  let out := snd (ws_on_message env message w) in
  ws_sent out = ws_sent w ++ [EnvTyping (ws_sessionId message);
                              EnvError "INTERNAL_ERROR" "An error occurred"] /\
  exists pre u t t' sessionId m,
    storage out
    = run_ops (pre ++ [OpCreateMessage u t t' (userMessage_of sessionId (ws_query message))])
              (storage w) /\
    (pre = [] \/ exists id now row, pre = [OpCreateSession id now row]) /\
    getChatMessage u (storage out) = Some m /\
    cm_role m = user /\ cm_content m = ws_query message /\ cm_sessionId m = sessionId.
Proof.
  intros Htype Htok Hllm. cbv zeta.
  destruct (ws_on_message_run env message w Htype Htok)
    as [session [pre [t1 [t1' [Hpre [_ H]]]]]].
  cbv zeta in H. rewrite Hllm in H. destruct H as [Hst Hsent].
  split; [exact Hsent |].
  exists pre, (randomUUID_at env (uuids_drawn w + length pre)), t1, t1', (cs_id session),
         (snd (putChatMessage (randomUUID_at env (uuids_drawn w + length pre)) t1
                 (userMessage_of (cs_id session) (ws_query message))
                 (run_ops pre (storage w)))).
  split; [exact Hst |].
  split; [destruct Hpre as [[-> _] | [t [-> _]]]; [now left | right; eauto] |].
  split; [| cbn; auto].
  rewrite Hst, run_ops_app. apply createChatMessage_stored.
Qed.

(** X20.  A reply is stored whether or not it is delivered.  When the
    generator answers a [chat_query] whose token verifies, the store ends
    with an assistant message that carries the text, intent and suggested
    prompts of the answer, retrievable by its id and listed under its
    session; and when the socket is closed at every look, nothing but
    [typing] was sent. *)
Theorem ws_reply_stored (message : WsMessage) (w : World) (llmResponse : LLMResponse) :
  ws_type message = "chat_query" ->
  startsWith (ws_bearer message) "Bearer " = true ->
  mcpLlm env (ws_llm_request message ESG_ANALYST) = Some llmResponse ->
  let out := snd (ws_on_message env message w) in
  (exists m,
      getChatMessage (cm_id m) (storage out) = Some m /\
      cm_role m = assistant /\ cm_content m = text llmResponse /\
      cm_intent m = Some (intent llmResponse) /\
      cm_suggestedPrompts m = Some (suggestedPrompts llmResponse) /\
      In m (getMessagesBySessionId (cm_sessionId m) (storage out))) /\
  ((forall i, ws_open_at env i = false) ->
   ws_sent out = ws_sent w ++ [EnvTyping (ws_sessionId message)]).
Proof.
  intros Htype Htok Hllm. cbv zeta. split.
  - destruct (ws_on_message_run env message w Htype Htok)
      as [session [pre [t1 [t1' [_ [_ H]]]]]].
    cbv zeta in H. rewrite Hllm in H. destruct H as [t2 [t2' Hst]].
    rewrite Hst.
    change [OpCreateMessage (randomUUID_at env (uuids_drawn w + length pre)) t1 t1'
              (userMessage_of (cs_id session) (ws_query message));
            OpCreateMessage (randomUUID_at env (S (uuids_drawn w + length pre))) t2 t2'
              (assistantMessage_of (cs_id session) (text llmResponse) llmResponse)]
      with ([OpCreateMessage (randomUUID_at env (uuids_drawn w + length pre)) t1 t1'
               (userMessage_of (cs_id session) (ws_query message))]
            ++ [OpCreateMessage (randomUUID_at env (S (uuids_drawn w + length pre))) t2 t2'
                  (assistantMessage_of (cs_id session) (text llmResponse) llmResponse)]).
    rewrite app_assoc, run_ops_app.
    match goal with
    | |- context [run_ops [OpCreateMessage ?u ?a ?b ?ins] ?st] =>
        destruct (createChatMessage_stored u a b ins st) as [G1 G2];
        exists (snd (putChatMessage u a ins st))
    end.
    split; [exact G1 |]. do 4 (split; [reflexivity |]). exact G2.
  - intros Hclosed.
    destruct (ws_on_message_wire env message w llmResponse Htype Htok Hllm)
      as [_ [sid [mid [md Hsent]]]].
    rewrite Hsent, (kept_none _ _ _ Hclosed), Hclosed. cbn. reflexivity.
Qed.

End WsFacts.

Lemma ws_on_message_keeps_counts_witness :
  counts_ok (storage (snd (ws_on_message demo_env foreign_query (World_new auditor_store)))).
Proof.
  apply ws_on_message_keeps_counts.
  - apply (counts_ok_run [OpCreateSession "s-auditor" 1699999999000
                            (mkInsertChatSession "user-456" "org-456" None None)]
             _ counts_ok_new). reflexivity.
  - reflexivity.
Defined.

Lemma ws_generator_failure_witness :
  ws_sent (snd (ws_on_message failing_env empty_query (World_new MemStorage_new)))
  = [EnvTyping None; EnvError "INTERNAL_ERROR" "An error occurred"].
Proof.
  exact (proj1 (ws_generator_failure failing_env empty_query (World_new MemStorage_new)
                  eq_refl eq_refl eq_refl)).
Defined.

Lemma ws_reply_stored_witness :
  ws_sent (snd (ws_on_message closed_env follow_up_query (World_new analyst_store)))
  = [EnvTyping (Some "s-analyst")] /\
  map cm_content
    (getMessagesBySessionId "s-analyst"
       (storage (snd (ws_on_message closed_env follow_up_query (World_new analyst_store)))))
  = ["What is Scope 1?"; "Direct emissions."; "And Scope 2?"; "hello world"].
Proof.
  split; [| reflexivity].
  exact (proj2 (ws_reply_stored closed_env follow_up_query (World_new analyst_store)
                  _ eq_refl eq_refl eq_refl) (fun _ => eq_refl)).
Defined.

(* ===================================================================== *)
(** * Further properties of the generator and of the classifier *)
(* ===================================================================== *)

Lemma length_split_space (s : string) : length (split_space s) = S (count_space s).
Proof.
  induction s as [| c s IH]; [reflexivity |]. simpl.
  destruct (Ascii.eqb c space); simpl.
  - now rewrite IH.
  - pose proof (split_space_not_nil s) as Hne.
    destruct (split_space s) as [| w ws]; [contradiction |]. simpl in *. exact IH.
Qed.

Lemma length_append (a b : string) :
  String.length (a ++ b) = (String.length a + String.length b)%nat.
Proof. induction a as [| c a IH]; simpl; [reflexivity | now rewrite IH]. Qed.

Lemma streamResponse_count_aux (t : string) :
  length (streamResponse t) = S (count_space t) /\ streamResponse t <> [].
Proof.
  assert (H : length (streamResponse t) = S (count_space t)).
  { unfold streamResponse. now rewrite length_map, length_split_space. }
  split; [exact H |]. intros E. rewrite E in H. discriminate.
Qed.

(** X21.  [streamResponse] yields one token more than the text has space
    characters, so at least one: the empty text streams the single token
    " ".  Every token is a piece without a space followed by one space,
    and the tokens together are one character longer than the text. *)
Theorem streamResponse_count (t : string) :
  length (streamResponse t) = S (count_space t) /\
  streamResponse t <> [] /\
  Forall (fun token => exists word, token = (word ++ " ")%string /\
                                    includes word " " = false)
         (streamResponse t) /\
  String.length (concat_strings (streamResponse t)) = S (String.length t) /\
  streamResponse "" = [" "].
Proof.
  split; [unfold streamResponse; now rewrite length_map, length_split_space |].
  split.
  { unfold streamResponse. pose proof (split_space_not_nil t).
    destruct (split_space t); [contradiction | discriminate]. }
  split.
  { unfold streamResponse. apply Forall_forall. intros token Hin.
    apply in_map_iff in Hin. destruct Hin as [word [<- Hw]].
    exists word. split; [reflexivity |].
    pose proof (split_space_words t) as Hall. rewrite Forall_forall in Hall. now apply Hall. }
  split; [| reflexivity].
  rewrite concat_streamResponse, length_append. simpl. lia.
Qed.

Lemma toLowerCase_app (a b : string) :
  toLowerCase (a ++ b) = (toLowerCase a ++ toLowerCase b)%string.
Proof. induction a as [| c a IH]; simpl; [reflexivity | now rewrite IH]. Qed.

Lemma includes_embedded (s kw a b : string) :
  includes s kw = true -> includes (a ++ s ++ b) kw = true.
Proof.
  rewrite !includes_spec. intros [x [y ->]].
  exists (a ++ x)%string, (y ++ b)%string. now rewrite !append_assoc.
Qed.

(** X22.  A query is labelled [explain] exactly when its lower-cased text
    contains "why", "explain" or "what is"; so whatever is written before
    and after a query labelled [explain], the label stays [explain]. *)
Theorem detectIntent_explain_absorbs (q : string) :
  (detectIntent q = explain <->
   includes (toLowerCase q) "why" = true \/ includes (toLowerCase q) "explain" = true
   \/ includes (toLowerCase q) "what is" = true) /\
  (detectIntent q = explain ->
   forall before after, detectIntent (before ++ q ++ after) = explain).
Proof.
  assert (Hiff : forall s, detectIntent s = explain <->
            includes (toLowerCase s) "why" = true \/ includes (toLowerCase s) "explain" = true
            \/ includes (toLowerCase s) "what is" = true).
  { intros s. unfold detectIntent. cbv zeta.
    destruct (includes (toLowerCase s) "why"); [cbn; tauto |].
    destruct (includes (toLowerCase s) "explain"); [cbn; tauto |].
    destruct (includes (toLowerCase s) "what is"); [cbn; tauto |].
    cbn [orb].
    repeat match goal with
           | |- context [if ?b then _ else _] => destruct b
           end; split; try discriminate; intros [H | [H | H]]; discriminate. }
  split; [apply Hiff |].
  intros H before after. apply Hiff. apply Hiff in H.
  rewrite !toLowerCase_app.
  destruct H as [H | [H | H]]; [left | right; left | right; right];
    now apply includes_embedded.
Qed.

Lemma detectIntent_explain_absorbs_witness :
  detectIntent ("Please help me check: " ++ "why" ++ " is the summary late?") = explain.
Proof.
  apply (proj2 (detectIntent_explain_absorbs "why")). reflexivity.
Defined.

Lemma generateMockResponse_facts (mock_text : MockReply -> string -> string)
    (query : string) (context : MockContext) :
  let r := generateMockResponse mock_text query context in
  (Qmake 65 100 <= confidence r)%Q /\ (confidence r <= Qmake 98 100)%Q /\
  (65 <= Math_round (Qmult (confidence r) (inject_Z 100)) <= 98)%Z /\
  length (suggestedPrompts r) = 3%nat /\
  dataSources r <> [] /\
  (intent r = explain \/ intent r = guide \/ intent r = summarize) /\
  (forall context', generateMockResponse mock_text query context' = r) /\
  (includes (toLowerCase query) "flagged" = true
   \/ includes (toLowerCase query) "anomal" = true ->
   intent r = explain /\ confidence r = Qmake 94 100 /\
   text r = mock_text anomaly_reply query).
Proof.
  cbv zeta. unfold generateMockResponse. cbv zeta.
  destruct (includes (toLowerCase query) "flagged" || includes (toLowerCase query) "anomal")
    eqn:E1.
  { cbn [confidence suggestedPrompts dataSources intent text].
    repeat split; try (unfold Qle; simpl; lia); try (vm_compute; congruence);
      try discriminate; auto. }
  apply orb_false_iff in E1. destruct E1 as [E1 E1'].
  assert (Hno : includes (toLowerCase query) "flagged" = true
                \/ includes (toLowerCase query) "anomal" = true -> False).
  { intros [H | H]; congruence. }
  repeat match goal with
         | |- context [if ?b then _ else _] => destruct b
         end;
    cbn [confidence suggestedPrompts dataSources intent text];
    (repeat split; try (unfold Qle; simpl; lia); try (vm_compute; congruence);
     try discriminate; auto; try (intros H; exfalso; exact (Hno H))).
Qed.

(** X23.  Whatever the query and the context, the reply of
    [generateMockResponse] has a confidence between 0.65 and 0.98, which
    the handlers store as an integer between 65 and 98; it has exactly
    three suggested prompts and at least one data source; its intent is
    [explain], [guide] or [summarize], never [navigate] or [validate];
    and it does not depend on the context.  A query that mentions
    "flagged" or "anomal" gets the anomaly reply (confidence 0.94, intent
    [explain]) whatever else it mentions. *)
Theorem generateMockResponse_shape (mock_text : MockReply -> string -> string)
    (query : string) (context : MockContext) :
  let r := generateMockResponse mock_text query context in
  (Qmake 65 100 <= confidence r)%Q /\ (confidence r <= Qmake 98 100)%Q /\
  (65 <= Math_round (Qmult (confidence r) (inject_Z 100)) <= 98)%Z /\
  length (suggestedPrompts r) = 3%nat /\
  dataSources r <> [] /\
  (intent r = explain \/ intent r = guide \/ intent r = summarize) /\
  (forall context', generateMockResponse mock_text query context' = r) /\
  (includes (toLowerCase query) "flagged" = true
   \/ includes (toLowerCase query) "anomal" = true ->
   intent r = explain /\ confidence r = Qmake 94 100 /\
   text r = mock_text anomaly_reply query).
Proof. exact (generateMockResponse_facts mock_text query context). Qed.

(** X24.  With the mock generator plugged in, POST /api/v1/copilot/chat
    never answers 500; and when it answers 200, the confidence in the body
    is between 0.65 and 0.98, the stored assistant message carries it as an
    integer between 65 and 98, and the body has exactly three suggested
    prompts. *)
Theorem post_chat_mock_generator (mock_text : MockReply -> string -> string)
    (uuid_at : nat -> string) (date_at : nat -> Z) (open_at : nat -> bool)
    (authorization : option string) (body : ChatQueryRequest) (w : World) :
  let env := mock_env mock_text uuid_at date_at open_at in
  let out := post_chat env authorization body w in
  status (fst out) <> 500%nat /\
  (forall r, fst out = mkHttpResponse 200 (ChatBody r) ->
     (Qmake 65 100 <= rb_confidence (cr_response r))%Q /\
     (rb_confidence (cr_response r) <= Qmake 98 100)%Q /\
     length (rb_suggestedPrompts (cr_response r)) = 3%nat /\
     exists m c,
       getChatMessage (cr_messageId r) (storage (snd out)) = Some m /\
       cm_confidence m = Some c /\ (65 <= c <= 98)%Z).
Proof.
  cbv zeta. set (env := mock_env mock_text uuid_at date_at open_at).
  destruct (startsWith (authorization_or_empty authorization) "Bearer ") eqn:Hauth.
  2:{ rewrite (post_chat_unauthorized env _ body w Hauth). cbn.
      split; [discriminate | intros r H; discriminate]. }
  destruct (query_length_ok (rq_query body)) eqn:Hq.
  2:{ destruct (post_chat_invalid env _ _ w Hauth Hq) as [E _]. rewrite E. cbn.
      split; [discriminate | intros r H; discriminate]. }
  destruct (post_chat_cases env authorization body w Hauth Hq)
    as [[E _] | [qr [session [w_p [pre [E _]]]]]].
  { rewrite E. cbn. split; [discriminate | intros r H; discriminate]. }
  rewrite E.
  destruct (post_chat_pipeline_run env
              (mockPayload (Date_at env (dates_read w)) (Date_at env (S (dates_read w))))
              qr session w_p) as [_ [_ H]].
  cbv zeta in H.
  match type of H with
  | match mcpLlm env ?request with _ => _ end =>
      change (mcpLlm env request) with (mock_callMcpLlm mock_text request) in H;
      pose proof (generateMockResponse_facts mock_text (req_query request)
                    {| mc_pageType := pageType (req_context request);
                       mc_userRole := userRole (req_context request);
                       mc_metricId := match metricIds (req_context request) with
                                      | Some (m :: _) => Some m
                                      | _ => None
                                      end |}) as Hfacts
  end.
  cbv zeta in Hfacts. destruct Hfacts as [F1 [F2 [F3 [F4 _]]]].
  unfold mock_callMcpLlm in H. cbv zeta in H. destruct H as [t2 [t2' [Hst Hfst]]].
  rewrite Hfst. split; [cbn; discriminate |].
  intros r [= <-]. cbn [cr_response rb_confidence rb_suggestedPrompts cr_messageId
                        confidence suggestedPrompts].
  split; [exact F1 |]. split; [exact F2 |]. split; [exact F4 |].
  rewrite Hst.
  match goal with
  | |- context [apply_op (apply_op ?s ?o1) (OpCreateMessage ?u ?a ?b ?ins)] =>
      destruct (createChatMessage_stored u a b ins (apply_op s o1)) as [G1 _];
      exists (snd (putChatMessage u a ins (apply_op s o1)))
  end.
  eexists. split; [exact G1 |]. split; [reflexivity |]. exact F3.
Qed.

(* ===================================================================== *)
(** * The widget on the other end of the socket *)
(* ===================================================================== *)

Lemma last_message_snoc (l : list WidgetMessage) (m : WidgetMessage) :
  last_message (l ++ [m]) = Some (l, m).
Proof. unfold last_message. rewrite rev_app_distr. simpl. now rewrite rev_involutive. Qed.

Lemma append_nil_r (s : string) : (s ++ "")%string = s.
Proof. induction s as [| c s IH]; simpl; [reflexivity | now rewrite IH]. Qed.

(** Tokens that arrive while the last message is the one being streamed
    extend that message. *)
Lemma receive_tokens (clock : nat -> Z) (sessionId : string) (tokens : list string) :
  forall k w before id suggested actions conf stamp rest,
    messages w = before ++ [mkWidgetMessage id assistant (streamingMessage w)
                              suggested actions conf stamp] ->
    startsWith id "streaming-" = true ->
    receive clock k (map (EnvToken sessionId) tokens ++ rest) w
    = receive clock (k + length tokens) rest
        (mkWidget (isTyping w) (streamingMessage w ++ concat_strings tokens)
           (before ++ [mkWidgetMessage id assistant
                         (streamingMessage w ++ concat_strings tokens)
                         suggested actions conf stamp])
           (widget_sessionId w) (toasts w)).
Proof.
  induction tokens as [| token tokens IH];
    intros k w before id suggested actions conf stamp rest Hm Hid.
  - cbn [map app length concat_strings]. rewrite Nat.add_0_r, append_nil_r, <- Hm.
    now destruct w.
  - cbn [map app receive handleWebSocketMessage].
    rewrite Hm, last_message_snoc. cbn [wm_role wm_id is_assistant andb]. rewrite Hid.
    cbn [wm_suggestedPrompts wm_actions wm_confidence wm_timestamp].
    rewrite (IH (S k) _ before id suggested actions conf stamp rest);
      [| reflexivity | exact Hid].
    cbn [isTyping streamingMessage widget_sessionId toasts length concat_strings].
    rewrite append_assoc, <- plus_n_Sm. reflexivity.
Qed.

(** X25.  The widget puts a streamed reply together by appending the
    tokens.  Take a widget whose last message is not one being streamed
    (the user's turn, say).  After the frames the server sends for a text
    over an open socket ([typing], the tokens of [streamResponse], then
    [complete]), the widget has one more message: an assistant message
    with the id and the suggested prompts of [complete], stamped when the
    first token came, whose content is the text followed by one space.
    The typing indicator is off, and the widget keeps its session id if it
    had one and takes the one of [complete] otherwise. *)
Theorem widget_reassembles (clock : nat -> Z) (k : nat) (w0 : Widget)
    (typingFor : option string) (sessionId messageId : string) (prompts : list string)
    (metadata : option MessageMetadata) (t : string) :
  match last_message (messages w0) with
  | Some (_, m) => is_assistant (wm_role m) && startsWith (wm_id m) "streaming-" = false
  | None => True
  end ->
  receive clock k
    (EnvTyping typingFor
     :: map (EnvToken sessionId) (streamResponse t)
     ++ [EnvComplete sessionId messageId prompts metadata]) w0
  = mkWidget false (t ++ " ")
      (messages w0
       ++ [mkWidgetMessage messageId assistant (t ++ " ") (Some prompts) None None
             (clock (S k))])
      (match widget_sessionId w0 with
       | Some prev => if truthy prev then Some prev else Some sessionId
       | None => Some sessionId
       end)
      (toasts w0).
Proof.
  intros Hlast. rewrite <- (concat_streamResponse t).
  pose proof (proj2 (streamResponse_count_aux t)) as Hne.
  destruct (streamResponse t) as [| token tokens]; [contradiction |]. clear Hne.
  cbn [receive map app handleWebSocketMessage]. cbn [messages streamingMessage].
  assert (Hfirst :
    match last_message (messages w0) with
    | Some (before, lastMsg) =>
        if is_assistant (wm_role lastMsg) && startsWith (wm_id lastMsg) "streaming-"
        then before ++ [mkWidgetMessage (wm_id lastMsg) (wm_role lastMsg) ("" ++ token)
                          (wm_suggestedPrompts lastMsg) (wm_actions lastMsg)
                          (wm_confidence lastMsg) (wm_timestamp lastMsg)]
        else messages w0 ++ [mkWidgetMessage ("streaming-" ++ sessionId) assistant
                               ("" ++ token) None None None (clock (S k))]
    | None => messages w0 ++ [mkWidgetMessage ("streaming-" ++ sessionId) assistant
                                ("" ++ token) None None None (clock (S k))]
    end
    = messages w0 ++ [mkWidgetMessage ("streaming-" ++ sessionId) assistant token
                        None None None (clock (S k))]).
  { destruct (last_message (messages w0)) as [[before lastMsg] |]; [| reflexivity].
    now rewrite Hlast. }
  rewrite Hfirst. clear Hfirst.
  cbn [isTyping widget_sessionId toasts append].
  rewrite (receive_tokens clock sessionId tokens (S (S k)) _ (messages w0)
             ("streaming-" ++ sessionId)%string None None None (clock (S k)));
    [| reflexivity | unfold startsWith; apply prefix_spec; eexists; reflexivity].
  cbn [receive handleWebSocketMessage messages isTyping streamingMessage
       widget_sessionId toasts].
  rewrite last_message_snoc. cbn. reflexivity.
Qed.

Lemma widget_reassembles_witness :
  map wm_content
    (messages
       (receive (fun i => (1700000000000 + Z.of_nat i)%Z) 0
          (EnvTyping None
           :: map (EnvToken "s-1") (streamResponse "hello world")
           ++ [EnvComplete "s-1" "m-2" [] None])
          (mkWidget false ""
             [mkWidgetMessage "user-1" user "hi" None None None 1699999999000%Z]
             None [])))
  = ["hi"; "hello world "].
Proof.
  rewrite (widget_reassembles (fun i => (1700000000000 + Z.of_nat i)%Z) 0
             (mkWidget false ""
                [mkWidgetMessage "user-1" user "hi" None None None 1699999999000%Z]
                None [])
             None "s-1" "m-2" [] None "hello world" eq_refl).
  reflexivity.
Defined.

(* ===================================================================== *)
(** * The history window and new conversations *)
(* ===================================================================== *)

Lemma length_slice_last {A : Type} (n : nat) (l : list A) :
  length (slice_last n l) = Nat.min n (length l).
Proof. unfold slice_last. rewrite length_skipn. lia. Qed.

Lemma slice_last_is_suffix {A : Type} (n : nat) (l : list A) :
  exists older, l = older ++ slice_last n l.
Proof.
  unfold slice_last. exists (firstn (length l - n) l). now rewrite firstn_skipn.
Qed.

(** X26.  The single-shot pipeline asks the generator exactly once.  The
    history it passes is cut from the end of the session's listing as it
    stands after the user's turn was stored: it has ten entries, or as many
    as the listing when that is fewer, they are the role and content of the
    last messages of the listing in the listing's order (ascending
    timestamps), and nothing older than the window is passed. *)
Theorem post_chat_history_window (env : Env) (usr : JWTPayload)
    (queryRequest : ChatQueryRequest) (session : ChatSession) (w : World) :
  let w1 := snd (storage_createChatMessage env
                   (userMessage_of (cs_id session) (rq_query queryRequest)) w) in
  let listing := getMessagesBySessionId (cs_id session) (storage w1) in
  exists request older recent,
    llm_calls (snd (post_chat_pipeline env usr queryRequest session w))
      = llm_calls w ++ [request] /\
    listing = older ++ recent /\
    sessionHistory request = map history_entry recent /\
    length (sessionHistory request) = Nat.min 10 (length listing) /\
    (length listing <= 10 -> older = [])%nat /\
    StronglySorted ts_le recent.
Proof.
  cbv zeta.
  destruct (post_chat_pipeline_history env usr queryRequest session w)
    as [request [Hl [_ [Hh Hsorted]]]].
  cbv zeta in Hh, Hsorted.
  set (listing := getMessagesBySessionId _ _) in *.
  exists request, (firstn (length listing - 10) listing), (slice_last 10 listing).
  split; [exact Hl |].
  split; [unfold slice_last; now rewrite firstn_skipn |].
  split; [exact Hh |].
  split; [now rewrite Hh, length_map, length_slice_last |].
  split.
  - intros Hlen. replace (length listing - 10)%nat with 0%nat by lia. reflexivity.
  - unfold slice_last.
    assert (Hsuffix : forall n (l : list ChatMessage),
              StronglySorted ts_le l -> StronglySorted ts_le (skipn n l)).
    { clear. induction n as [| n IH]; intros l Hs; [exact Hs |].
      destruct l as [| x l]; [constructor |]. simpl. apply IH. now inversion Hs. }
    now apply Hsuffix.
Qed.

(** Storing a message row does not touch the session map. *)
Ltac skip_put :=
  match goal with
  | |- context [getChatSession ?k (fst (putChatMessage ?a ?b ?c ?st))] =>
      change (getChatSession k (fst (putChatMessage a b c st)))
        with (getChatSession k st)
  end.

Section NewConversation.

Variable env : Env.

(** X27.  A POST that names no session and is answered 200 has opened a
    conversation: the session id in the body is the identifier drawn first,
    the session stored under it belongs to the verified subject and
    organization, and it counts exactly two messages, the user's turn and
    the reply. *)
Theorem post_chat_new_session (authorization : option string)
    (body : ChatQueryRequest) (w : World) (r : ChatResponse) :
  rq_sessionId body = None ->
  fst (post_chat env authorization body w) = mkHttpResponse 200 (ChatBody r) ->
  cr_sessionId r = randomUUID_at env (uuids_drawn w) /\
  exists session,
    getChatSession (cr_sessionId r) (storage (snd (post_chat env authorization body w)))
    = Some session /\
    cs_id session = cr_sessionId r /\
    cs_userId session = "user-123" /\ cs_organizationId session = "org-456" /\
    cs_messageCount session = 2%Z.
Proof.
  intros Hnone Hok.
  destruct (startsWith (authorization_or_empty authorization) "Bearer ") eqn:Hauth.
  2:{ rewrite (post_chat_unauthorized env _ body w Hauth) in Hok. discriminate. }
  destruct (query_length_ok (rq_query body)) eqn:Hq.
  2:{ destruct (post_chat_invalid env _ _ w Hauth Hq) as [E _]. rewrite E in Hok.
      discriminate. }
  destruct (post_chat_cases env authorization body w Hauth Hq)
    as [[E _] | [qr [session [w_p [pre [E [_ [Hst [_ [_ [_ Hpre]]]]]]]]]]].
  { rewrite E in Hok. discriminate. }
  destruct Hpre as [[_ [sid [Hs _]]] | [t [Hpre [Hid _]]]]; [congruence |].
  rewrite E in Hok |- *.
  destruct (post_chat_pipeline_run env
              (mockPayload (Date_at env (dates_read w)) (Date_at env (S (dates_read w))))
              qr session w_p) as [_ [_ H]].
  cbv zeta in H.
  destruct (mcpLlm env _) as [r0 |].
  2:{ destruct H as [H _]. rewrite H in Hok. discriminate. }
  destruct H as [t2 [t2' [Hst2 Hfst]]]. rewrite Hfst in Hok. injection Hok as <-.
  cbn [cr_sessionId]. split; [exact Hid |].
  rewrite Hst2, Hst, Hpre. cbn [run_ops fold_left apply_op].
  rewrite !fst_createChatMessage.
  cbn [userMessage_of assistantMessage_of im_sessionId].
  rewrite getChatSession_updateSessionActivity. skip_put.
  rewrite getChatSession_updateSessionActivity. skip_put.
  rewrite Hid, !String.eqb_refl. unfold getChatSession, createChatSession.
  cbn [fst chatSessions]. rewrite map_get_set_eq.
  eexists. split; [reflexivity |]. cbn. auto.
Qed.

End NewConversation.

Lemma post_chat_new_session_witness :
  exists r session,
    fst (post_chat demo_env (Some analyst_token)
           (mkChatQueryRequest None "hi" None None) (World_new auditor_store))
    = mkHttpResponse 200 (ChatBody r) /\
    getChatSession (cr_sessionId r)
      (storage (snd (post_chat demo_env (Some analyst_token)
                       (mkChatQueryRequest None "hi" None None)
                       (World_new auditor_store)))) = Some session /\
    cs_messageCount session = 2%Z.
Proof.
  assert (H : exists r,
             fst (post_chat demo_env (Some analyst_token)
                    (mkChatQueryRequest None "hi" None None) (World_new auditor_store))
             = mkHttpResponse 200 (ChatBody r)).
  { vm_compute. eexists. reflexivity. }
  destruct H as [r H].
  destruct (post_chat_new_session demo_env (Some analyst_token)
              (mkChatQueryRequest None "hi" None None) (World_new auditor_store) r
              eq_refl H) as [_ [session [H1 [_ [_ [_ H5]]]]]].
  exists r, session. auto.
Defined.

(* ===================================================================== *)
(** * Seeding *)
(* ===================================================================== *)

Lemma getUserContext_create id now ins m k :
  getUserContext k (fst (createUserContext id now ins m))
  = if String.eqb (iu_userId ins) k
    then Some (snd (createUserContext id now ins m))
    else getUserContext k m.
Proof.
  unfold getUserContext, createUserContext. cbn [fst snd].
  destruct (String.eqb_spec (iu_userId ins) k) as [<- | Hne].
  - apply map_get_set_eq.
  - apply map_get_set_ne. congruence.
Qed.

Lemma keys_create id now ins m :
  map fst (fst (createUserContext id now ins m))
  = if map_has (iu_userId ins) m then map fst m else map fst m ++ [iu_userId ins].
Proof.
  unfold createUserContext. cbn [fst].
  destruct (map_has (iu_userId ins) m) eqn:E.
  - now apply map_keys_set_present.
  - now apply map_keys_set_absent.
Qed.

Lemma map_has_create id now ins m k :
  map_has k (fst (createUserContext id now ins m))
  = (String.eqb (iu_userId ins) k || map_has k m).
Proof.
  unfold map_has. fold (getUserContext k (fst (createUserContext id now ins m))).
  rewrite getUserContext_create. fold (getUserContext k m).
  destruct (String.eqb (iu_userId ins) k); [reflexivity |].
  now destruct (getUserContext k m).
Qed.

(** X28.  [seedInitialData] leaves every seeded user with the profile of
    its demo row (role, organization, permissions, scope, preferences) and
    every other user as before.  It never fails on users that already have
    a context: it replaces their rows in place, so on a map that already
    holds the three users the keys do not change, and seeding a second time
    changes nothing but ids and dates.  On the empty map it leaves exactly
    the three users, in the order of the rows. *)
Theorem seedInitialData_idempotent (uuid_at uuid_at' : nat -> string)
    (date_at date_at' : nat -> Z) (k k' : nat) (m : JsMap UserContext) :
  let seeded := seedInitialData uuid_at date_at k m in
  let reseeded := seedInitialData uuid_at' date_at' k' seeded in
  (forall row, In row seed_rows ->
     option_map context_profile (getUserContext (iu_userId row) seeded) = Some row) /\
  (forall userId, ~ In userId (map iu_userId seed_rows) ->
     getUserContext userId seeded = getUserContext userId m) /\
  map fst reseeded = map fst seeded /\
  (forall userId,
     option_map context_profile (getUserContext userId reseeded)
     = option_map context_profile (getUserContext userId seeded)) /\
  map fst (seedInitialData uuid_at date_at k []) = ["user-123"; "user-456"; "user-789"].
Proof.
  cbv zeta. unfold seedInitialData, seed_rows. cbn [seed_from].
  split; [| split; [| split; [| split; [| reflexivity]]]].
  - intros row [<- | [<- | [<- | []]]]; rewrite !getUserContext_create; reflexivity.
  - intros userId Hnot. cbn [map iu_userId In] in Hnot.
    rewrite !getUserContext_create. cbn [iu_userId].
    destruct (String.eqb_spec "user-789" userId); [tauto |].
    destruct (String.eqb_spec "user-456" userId); [tauto |].
    destruct (String.eqb_spec "user-123" userId); [tauto | reflexivity].
  - rewrite !keys_create, !map_has_create. cbn [iu_userId String.eqb Ascii.eqb Bool.eqb orb].
    reflexivity.
  - intros userId. rewrite !getUserContext_create. cbn [iu_userId].
    destruct (String.eqb "user-789" userId); [reflexivity |].
    destruct (String.eqb "user-456" userId); [reflexivity |].
    destruct (String.eqb "user-123" userId); reflexivity.
Qed.
